(** * Task manager server: due-date extraction, reminder scheduling, fan-out

    A shallow embedding of the server side of the task manager
    (server.js): the local due-date parser [parseInputLocal] and the
    provider cascade [parseInput], the reminder scheduler
    ([scheduleReminder], [cancelReminder], the timeout callback), the
    push fan-out of [sendReminder], and the two task routes
    POST /api/tasks and PUT /api/tasks/:id.

    Conventions.
    - Text is a [string] whose characters are read as code units in
      0..255.
    - An instant is a time value: milliseconds since the epoch, a [Z].
      A [Date] object is [option Z], [None] being an Invalid Date.
      All sums formed here stay far below 2^53 whenever the result is a
      valid time value, so integer arithmetic agrees with the doubles
      of the runtime.
    - Library calls whose code is not part of the server (chrono-node,
      date-fns-tz, the ISO rendering and parsing of dates, the remote
      completion services, the transports) are Section variables. *)

From Stdlib Require Import ZArith String Ascii List Lia Bool.
From stdpp Require Import gmap strings list pretty.

Local Open Scope string_scope.
Local Open Scope Z_scope.

(** ** Text primitives of the runtime *)

Module Text.

Definition code (c : ascii) : N := N_of_ascii c.

(** WhiteSpace and LineTerminator code units below 256: what
    [String.prototype.trim] removes and what [\s] matches. *)
Definition isWhiteSpace (c : ascii) : bool :=
  let n := code c in
  (((9 <=? n) && (n <=? 13)) || (n =? 32) || (n =? 160))%N.

(** [\d] *)
Definition isDigit (c : ascii) : bool :=
  let n := code c in ((48 <=? n) && (n <=? 57))%N.

Definition digitValue (c : ascii) : Z := Z.of_N (code c) - 48.

Definition isAsciiUpper (c : ascii) : bool :=
  let n := code c in ((65 <=? n) && (n <=? 90))%N.

(** Case folding of the letters A..Z, the only code units that an
    ASCII pattern letter matches under the [i] flag. *)
Definition foldAscii (c : ascii) : ascii :=
  if isAsciiUpper c then ascii_of_N (code c + 32) else c.

(** [toLowerCase] on one code unit: A..Z and the Latin-1 capitals. *)
Definition toLowerChar (c : ascii) : ascii :=
  let n := code c in
  if (isAsciiUpper c
      || ((192 <=? n) && (n <=? 222) && negb (n =? 215)))%N
  then ascii_of_N (n + 32) else c.

Fixpoint toLowerCase (s : string) : string :=
  match s with
  | EmptyString => EmptyString
  | String c s' => String (toLowerChar c) (toLowerCase s')
  end.

Fixpoint trimStart (s : string) : string :=
  match s with
  | EmptyString => EmptyString
  | String c s' => if isWhiteSpace c then trimStart s' else s
  end.

Fixpoint trimEnd (s : string) : string :=
  match s with
  | EmptyString => EmptyString
  | String c s' =>
      match trimEnd s' with
      | EmptyString => if isWhiteSpace c then EmptyString else String c EmptyString
      | r => String c r
      end
  end.

Definition trim (s : string) : string := trimEnd (trimStart s).

(** [startsWith p s]: [s.startsWith(p)]. *)
Fixpoint startsWith (p s : string) : bool :=
  match p, s with
  | EmptyString, _ => true
  | String a p', String b s' => Ascii.eqb a b && startsWith p' s'
  | String _ _, EmptyString => false
  end.

Fixpoint drop (n : nat) (s : string) : string :=
  match n, s with
  | O, _ => s
  | S n', String _ s' => drop n' s'
  | S _, EmptyString => EmptyString
  end.

(** [includes s p]: [s.includes(p)]. *)
Fixpoint includes (s p : string) : bool :=
  startsWith p s ||
  match s with
  | EmptyString => false
  | String _ s' => includes s' p
  end.

(** [replaceFirst s p]: [s.replace(p, '')] for a string pattern [p],
    which removes the first occurrence of [p] only. *)
Fixpoint replaceFirst (s p : string) : string :=
  if startsWith p s then drop (String.length p) s
  else match s with
       | EmptyString => EmptyString
       | String c s' => String c (replaceFirst s' p)
       end.

(** [s.replace(/\s+/g, ' ')]: every maximal run of white space becomes
    one space. [inRun] tells that the previous code unit was white. *)
Fixpoint collapseFrom (inRun : bool) (s : string) : string :=
  match s with
  | EmptyString => EmptyString
  | String c s' =>
      if isWhiteSpace c
      then (if inRun then collapseFrom true s'
            else String " " (collapseFrom true s'))
      else String c (collapseFrom false s')
  end.

Definition collapseSpaces (s : string) : string := collapseFrom false s.

(** [parseInt] of a run of decimal digits. *)
Fixpoint parseDigitsFrom (acc : Z) (s : string) : Z :=
  match s with
  | EmptyString => acc
  | String c s' => parseDigitsFrom (10 * acc + digitValue c) s'
  end.

Definition parseInt (s : string) : Z := parseDigitsFrom 0 s.

(** *** The pattern  in (\d+) (hour|hours|minute|minutes|min)

    [ci] is the [i] flag. The matcher follows the backtracking
    semantics of the pattern: the digit run is greedy and must be
    followed by a space (giving digits back cannot help, the next
    code unit would be a digit), and the alternatives of the group are
    tried from left to right, the first one that matches being taken
    since nothing follows the group. *)

Definition eqChar (ci : bool) (p c : ascii) : bool :=
  Ascii.eqb p (if ci then foldAscii c else c).

(** [matchLit ci p s]: the rest of [s] after the literal [p]. *)
Fixpoint matchLit (ci : bool) (p s : string) : option string :=
  match p, s with
  | EmptyString, _ => Some s
  | String a p', String b s' =>
      if eqChar ci a b then matchLit ci p' s' else None
  | String _ _, EmptyString => None
  end.

(** The longest run of digits at the start of [s], and the rest. *)
Fixpoint spanDigits (s : string) : string * string :=
  match s with
  | EmptyString => (EmptyString, EmptyString)
  | String c s' =>
      if isDigit c
      then let '(d, r) := spanDigits s' in (String c d, r)
      else (EmptyString, s)
  end.

Definition unitAlternatives : list string :=
  ["hour"; "hours"; "minute"; "minutes"; "min"].

Fixpoint matchAlt (ci : bool) (alts : list string) (s : string)
  : option (string * string) :=
  match alts with
  | [] => None
  | a :: alts' =>
      match matchLit ci a s with
      | Some r => Some (a, r)
      | None => matchAlt ci alts' s
      end
  end.

(** A match of the pattern: the two groups and the text around the
    match. Under [ci] the unit is reported as the alternative taken. *)
Record InTimeMatch := {
  im_before : string;
  im_amount : string;
  im_unit : string;
  im_after : string
}.

Definition matchInTimeAt (ci : bool) (s : string)
  : option (string * string * string) :=
  match matchLit ci "in " s with
  | None => None
  | Some r1 =>
      match spanDigits r1 with
      | (EmptyString, _) => None
      | (d, r2) =>
          match matchLit ci " " r2 with
          | None => None
          | Some r3 =>
              match matchAlt ci unitAlternatives r3 with
              | None => None
              | Some (u, r4) => Some (d, u, r4)
              end
          end
      end
  end.

(** Leftmost match. *)
Fixpoint matchInTime (ci : bool) (s : string) : option InTimeMatch :=
  match matchInTimeAt ci s with
  | Some (d, u, r) =>
      Some {| im_before := EmptyString; im_amount := d;
              im_unit := u; im_after := r |}
  | None =>
      match s with
      | EmptyString => None
      | String c s' =>
          match matchInTime ci s' with
          | Some m =>
              Some {| im_before := String c (im_before m);
                      im_amount := im_amount m;
                      im_unit := im_unit m;
                      im_after := im_after m |}
          | None => None
          end
      end
  end.

(** [s.replace(/in \d+ (hour|hours|minute|minutes|min)/i, '')] *)
Definition removeInTime (s : string) : string :=
  match matchInTime true s with
  | Some m => (im_before m ++ im_after m)%string
  | None => s
  end.

End Text.

(** ** Time values and the calendar of the runtime (ECMA-262, Date) *)

Module JSDate.

Definition msPerSecond : Z := 1000.
Definition msPerMinute : Z := 60000.
Definition msPerHour : Z := 3600000.
Definition msPerDay : Z := 86400000.

(** Largest magnitude of a valid time value. *)
Definition maxTime : Z := 8640000000000000.

(** A Date object: its time value, [None] for an Invalid Date. *)
Definition Date : Type := option Z.

Definition TimeClip (v : Z) : Date :=
  if Z.abs v <=? maxTime then Some v else None.

Definition Day (t : Z) : Z := t / msPerDay.
Definition TimeWithinDay (t : Z) : Z := t mod msPerDay.

Definition DaysInYear (y : Z) : Z :=
  if negb (y mod 4 =? 0) then 365
  else if negb (y mod 100 =? 0) then 366
  else if negb (y mod 400 =? 0) then 365
  else 366.

Definition DayFromYear (y : Z) : Z :=
  365 * (y - 1970) + (y - 1969) / 4 - (y - 1901) / 100 + (y - 1601) / 400.

(** The year of day number [d]: the largest [y] with
    [DayFromYear y <= d], found from the mean year length. *)
Definition YearFromDay (d : Z) : Z :=
  let y0 := 1970 + (400 * d) / 146097 in
  if DayFromYear (y0 + 1) <=? d then y0 + 1
  else if DayFromYear y0 <=? d then y0
  else y0 - 1.

Definition YearFromTime (t : Z) : Z := YearFromDay (Day t).

Definition InLeapYear (y : Z) : Z := DaysInYear y - 365.

Definition DayWithinYear (t : Z) : Z := Day t - DayFromYear (YearFromTime t).

(** Number of days of the year before month [m] (0 = January). *)
Definition daysBeforeMonth (leap m : Z) : Z :=
  match m with
  | 0 => 0
  | 1 => 31
  | 2 => 59 + leap
  | 3 => 90 + leap
  | 4 => 120 + leap
  | 5 => 151 + leap
  | 6 => 181 + leap
  | 7 => 212 + leap
  | 8 => 243 + leap
  | 9 => 273 + leap
  | 10 => 304 + leap
  | _ => 334 + leap
  end.

Definition monthOfYearDay (leap d : Z) : Z :=
  if d <? 31 then 0
  else if d <? 59 + leap then 1
  else if d <? 90 + leap then 2
  else if d <? 120 + leap then 3
  else if d <? 151 + leap then 4
  else if d <? 181 + leap then 5
  else if d <? 212 + leap then 6
  else if d <? 243 + leap then 7
  else if d <? 273 + leap then 8
  else if d <? 304 + leap then 9
  else if d <? 334 + leap then 10
  else 11.

Definition MonthFromTime (t : Z) : Z :=
  monthOfYearDay (InLeapYear (YearFromTime t)) (DayWithinYear t).

Definition DateFromTime (t : Z) : Z :=
  DayWithinYear t
  - daysBeforeMonth (InLeapYear (YearFromTime t)) (MonthFromTime t) + 1.

Definition MakeTime (h m s ms : Z) : Z :=
  h * msPerHour + m * msPerMinute + s * msPerSecond + ms.

(** The day number of day [date] of month [month] of [year]; months and
    days outside their range carry over. *)
Definition MakeDay (year month date : Z) : Z :=
  let ym := year + month / 12 in
  let mn := month mod 12 in
  DayFromYear ym + daysBeforeMonth (InLeapYear ym) mn + date - 1.

Definition MakeDate (day time : Z) : Z := day * msPerDay + time.

(** The Date constructor reads a year from 0 to 99 as 1900 + year. *)
Definition MakeFullYear (y : Z) : Z :=
  if (0 <=? y) && (y <=? 99) then 1900 + y else y.

Section LocalZone.

(** Offset of the local zone of the process from UTC, in
    milliseconds; the zone is taken without transitions. *)
Variable tza : Z.

Definition LocalTime (t : Z) : Z := t + tza.
Definition UTC (t : Z) : Z := t - tza.

Definition getFullYear (t : Z) : Z := YearFromTime (LocalTime t).
Definition getMonth (t : Z) : Z := MonthFromTime (LocalTime t).
Definition getDate (t : Z) : Z := DateFromTime (LocalTime t).

(** [new Date(year, month, date, hours, minutes, seconds)] *)
Definition newDateLocal (year month date h m s : Z) : Date :=
  TimeClip (UTC (MakeDate (MakeDay (MakeFullYear year) month date)
                          (MakeTime h m s 0))).

(** [d.setHours(h, m, s, ms)] on a valid date with time value [t]:
    the new time value of [d]. *)
Definition setHours (t h m s ms : Z) : Date :=
  TimeClip (UTC (MakeDate (Day (LocalTime t)) (MakeTime h m s ms))).

End LocalZone.

End JSDate.

(** ** Values and completions *)

(** The primitive values a JSON request body or a task field can hold,
    as far as the server distinguishes them. Objects and arrays are
    left out: what is stated over [jsval] is stated for fields that
    hold a primitive value or are absent. A number is an integer, below
    10^21 in absolute value, where [String(n)] is its decimal digits. *)
Inductive jsval : Type :=
| JUndefined
| JNull
| JBool (b : bool)
| JNum (n : Z)
| JStr (s : string).

(** ToBoolean *)
Definition truthy (v : jsval) : bool :=
  match v with
  | JUndefined | JNull => false
  | JBool b => b
  | JNum n => negb (n =? 0)
  | JStr s => negb (String.eqb s "")
  end.

(** [a || b] *)
Definition jsOr (a b : jsval) : jsval := if truthy a then a else b.

(** How a piece of code ends: normally with a value, or by throwing
    (for an async function: the promise is fulfilled or rejected). *)
Inductive completion (A : Type) : Type :=
| Normal (a : A)
| Throw (e : string).
Arguments Normal {A} a.
Arguments Throw {A} e.

(** ** Due-date extraction *)

Module Parser.

(** The object [{ title, dueDate }] that every parser returns;
    [dueDate] is [null] or an ISO string. *)
Record ParseResult := { title : string; dueDate : jsval }.

(** A result of [chrono.parse] as far as the server reads it:
    [first.text] and [first.start?.date?.()], the latter [None] when
    it is not a Date object. *)
Record ParsedResult := { text : string; start_date : option JSDate.Date }.

(** Code that reads and updates the local object [out] and may throw;
    an update made before a throw stays made. *)
Definition Try (A : Type) : Type := ParseResult -> completion A * ParseResult.

Definition ret {A} (a : A) : Try A := fun out => (Normal a, out).

Definition bind {A B} (m : Try A) (k : A -> Try B) : Try B :=
  fun out =>
    match m out with
    | (Normal a, out') => k a out'
    | (Throw e, out') => (Throw e, out')
    end.

Definition throw {A} (e : string) : Try A := fun out => (Throw e, out).

Definition lift {A} (c : completion A) : Try A := fun out => (c, out).

Definition getTitle : Try string := fun out => (Normal (title out), out).

Definition setTitle (t : string) : Try unit :=
  fun out => (Normal tt, {| title := t; dueDate := dueDate out |}).

Definition setDueDate (d : jsval) : Try unit :=
  fun out => (Normal tt, {| title := title out; dueDate := d |}).

(** [try { body } catch (err) { handler }] *)
Definition tryCatch {A} (body : Try A) (handler : string -> Try A) : Try A :=
  fun out =>
    match body out with
    | (Normal a, out') => (Normal a, out')
    | (Throw e, out') => handler e out'
    end.

(** Running a function body that ends with [return out]. *)
Definition returnOut (m : Try unit) (out : ParseResult) : completion ParseResult :=
  match m out with
  | (Normal _, out') => Normal out'
  | (Throw e, _) => Throw e
  end.

Declare Scope try_scope.
Delimit Scope try_scope with try.
Notation "x <- m ;; k" := (bind m (fun x => k))
  (at level 100, m at next level, right associativity) : try_scope.
Notation "m ;; k" := (bind m (fun _ => k))
  (at level 100, right associativity) : try_scope.

Section Providers.

(** Offset of the process's local zone. *)
Variable tza : Z.

(** [chrono.parse(text, ref, { forwardDate: true, timezone })] *)
Variable chrono_parse : string -> Z -> completion (list ParsedResult).

(** [zonedTimeToUtc(dt, DEFAULT_TIMEZONE)] on a valid date. *)
Variable zonedTimeToUtc : Z -> completion JSDate.Date.

(** The ISO rendering of a valid time value. *)
Variable isoString : Z -> string.

(** [d.toISOString()]: a RangeError on an Invalid Date. *)
Definition toISOString (d : JSDate.Date) : Try string :=
  match d with
  | Some t => ret (isoString t)
  | None => throw "RangeError: Invalid time value"
  end.

Local Open Scope try_scope.

(** The branch taken when chrono found a phrase. *)
Definition chronoBranch (first : ParsedResult) : Try unit :=
  match start_date first with
  | Some (Some dt) =>
      utc <- lift (zonedTimeToUtc dt) ;;
      iso <- toISOString utc ;;
      setDueDate (JStr iso) ;;
      if negb (String.eqb (text first) "") then
        t <- getTitle ;;
        setTitle (Text.trim (Text.replaceFirst t (text first))) ;;
        t' <- getTitle ;;
        setTitle (Text.trim (Text.collapseSpaces t'))
      else ret tt
  | _ => ret tt
  end.

(** The heuristics for relative times, [now] being the clock. *)
Definition heuristicBranch (now : Z) : Try unit :=
  t0 <- getTitle ;;
  let lower := Text.toLowerCase t0 in
  match Text.matchInTime false lower with
  | Some inTimeMatch =>
      let amount := Text.parseInt (Text.im_amount inTimeMatch) in
      let unit := Text.im_unit inTimeMatch in
      let minutes := if Text.startsWith "hour" unit then amount * 60 else amount in
      let dueTime := JSDate.TimeClip (now + minutes * 60 * 1000) in
      iso <- toISOString dueTime ;;
      setDueDate (JStr iso) ;;
      t <- getTitle ;;
      setTitle (Text.trim (Text.removeInTime t))
  | None =>
      if Text.includes lower "tomorrow" then
        let d := JSDate.newDateLocal tza (JSDate.getFullYear tza now)
                   (JSDate.getMonth tza now) (JSDate.getDate tza now + 1) 9 0 0 in
        iso <- toISOString d ;;
        setDueDate (JStr iso)
      else if Text.includes lower "today" then
        let d := JSDate.newDateLocal tza (JSDate.getFullYear tza now)
                   (JSDate.getMonth tza now) (JSDate.getDate tza now) 17 0 0 in
        iso <- toISOString d ;;
        setDueDate (JStr iso)
      else if Text.includes lower "next week" then
        let d := JSDate.TimeClip (now + 7 * 24 * 60 * 60 * 1000) in
        let d' := match d with
                  | Some t => JSDate.setHours tza t 9 0 0 0
                  | None => None
                  end in
        iso <- toISOString d' ;;
        setDueDate (JStr iso)
      else ret tt
  end.

(** The body of the [try] block of [parseInputLocal]. *)
Definition localBody (now : Z) : Try unit :=
  t0 <- getTitle ;;
  results <- lift (chrono_parse t0 now) ;;
  match results with
  | first :: _ => chronoBranch first
  | [] => heuristicBranch now
  end.

(** [parseInputLocal(input)] for a text [input], the clock reading
    [now]. The handler of the [catch] only logs. *)
Definition parseInputLocal (input : string) (now : Z) : completion ParseResult :=
  let out := {| title := Text.trim input; dueDate := JNull |} in
  returnOut (tryCatch (localBody now) (fun _ => ret tt)) out.

(** *** The provider cascade *)

(** Configuration: [PARSER_PROVIDER], whether [groqApiKey] is set and
    whether the [openai] client was created. *)
Variable PARSER_PROVIDER : string.
Variable groqApiKey : bool.
Variable openai : bool.

(** The [try] blocks of the two remote parsers: the request, the
    decoding of the answer and its normalisation; [Throw] when any of
    these throws. *)
Variable groqAttempt : string -> completion ParseResult.
Variable openaiAttempt : string -> completion ParseResult.

Definition parseInputGroq (input : string) (now : Z) : completion ParseResult :=
  if negb groqApiKey then parseInputLocal input now
  else match groqAttempt input with
       | Normal r => Normal r
       | Throw _ => parseInputLocal input now
       end.

Definition parseInputOpenAI (input : string) (now : Z) : completion ParseResult :=
  if negb openai then parseInputGroq input now
  else match openaiAttempt input with
       | Normal r => Normal r
       | Throw _ => parseInputGroq input now
       end.

Definition parseInput (input : string) (now : Z) : completion ParseResult :=
  if String.eqb PARSER_PROVIDER "openai" then parseInputOpenAI input now
  else if String.eqb PARSER_PROVIDER "groq" then parseInputGroq input now
  else if String.eqb PARSER_PROVIDER "local" then parseInputLocal input now
  else if groqApiKey then parseInputGroq input now
  else parseInputLocal input now.

End Providers.

End Parser.

(** ** Reminders: the scheduler and the delivery fan-out *)

Module Scheduler.

(** A task object as the routes and the scheduler pass it around.
    [dueDate] and [email] hold whatever the request or the store gave. *)
Record Task := {
  id : string;
  title : string;
  dueDate : jsval;
  completed : bool;
  email : jsval
}.

(** A number that may be NaN ([None]). *)
Definition number : Type := option Z.

(** [a <= b], false on NaN. *)
Definition leNum (a : number) (b : Z) : bool :=
  match a with
  | Some x => x <=? b
  | None => false
  end.

(** [Math.min(a, b)] and [Math.max(b, a)] for a finite [b]. *)
Definition mathMin (a : number) (b : Z) : number :=
  match a with
  | Some x => Some (Z.min x b)
  | None => None
  end.

Definition mathMax (b : Z) (a : number) : number :=
  match a with
  | Some x => Some (Z.max b x)
  | None => None
  end.

Definition MAX_DELAY : Z := 2 ^ 31 - 1.

(** An armed timer of the event loop: what its callback closed over
    ([task], [due]) and the delay that was passed to [setTimeout]. *)
Record Timer := {
  tm_task : Task;
  tm_due : Z;
  tm_delay : number
}.

(** A push subscription object: [sub_ref] is the identity of the
    object, which is what [!==] compares. *)
Record Subscription := {
  sub_ref : nat;
  sub_endpoint : string
}.

Definition sameObject (s t : Subscription) : bool :=
  Nat.eqb (sub_ref s) (sub_ref t).

(** What the outside world sees of a delivery. *)
Inductive Event : Type :=
| Reminder (taskId : string) (due : Z)
| Mail (to : jsval) (taskId : string) (ok : bool)
| Push (sub : Subscription) (taskId : string) (ok : bool).

(** The module-level state of the server and the timers of its event
    loop. [reminders] is the [Map<taskId, Timeout>], a Timeout object
    being named by its handle; [finishing] lists the callbacks that
    have called [sendReminder] and have their [finally] still to run. *)
Record State := {
  reminders : gmap string nat;
  timers : gmap nat Timer;
  nextHandle : nat;
  finishing : list string;
  pushSubscriptions : list Subscription;
  log : list Event
}.

Definition withReminders (r : gmap string nat) (s : State) : State :=
  {| reminders := r; timers := timers s; nextHandle := nextHandle s;
     finishing := finishing s; pushSubscriptions := pushSubscriptions s;
     log := log s |}.

Definition withTimers (t : gmap nat Timer) (s : State) : State :=
  {| reminders := reminders s; timers := t; nextHandle := nextHandle s;
     finishing := finishing s; pushSubscriptions := pushSubscriptions s;
     log := log s |}.

Definition withFinishing (f : list string) (s : State) : State :=
  {| reminders := reminders s; timers := timers s; nextHandle := nextHandle s;
     finishing := f; pushSubscriptions := pushSubscriptions s;
     log := log s |}.

Definition withPushSubscriptions (p : list Subscription) (s : State) : State :=
  {| reminders := reminders s; timers := timers s; nextHandle := nextHandle s;
     finishing := finishing s; pushSubscriptions := p;
     log := log s |}.

Definition emit (e : list Event) (s : State) : State :=
  {| reminders := reminders s; timers := timers s; nextHandle := nextHandle s;
     finishing := finishing s; pushSubscriptions := pushSubscriptions s;
     log := (log s ++ e)%list |}.

(** [setTimeout(callback, delay)]: a new Timeout object. *)
Definition setTimeout (tm : Timer) (s : State) : nat * State :=
  let h := nextHandle s in
  (h, {| reminders := reminders s; timers := <[h := tm]> (timers s);
         nextHandle := S h; finishing := finishing s;
         pushSubscriptions := pushSubscriptions s; log := log s |}).

(** [clearTimeout(h)] *)
Definition clearTimeout (h : nat) (s : State) : State :=
  withTimers (delete h (timers s)) s.

Definition cancelReminder (taskId : string) (s : State) : State :=
  match reminders s !! taskId with
  | Some existing =>
      let s1 := clearTimeout existing s in
      withReminders (delete taskId (reminders s1)) s1
  | None => s
  end.

Section Environment.

(** [Date.parse] on a string. *)
Variable dateParse : string -> JSDate.Date.

(** [new Date(v)] for the value of a [dueDate] field. *)
Definition newDate (v : jsval) : JSDate.Date :=
  match v with
  | JStr s => match dateParse s with
              | Some t => JSDate.TimeClip t
              | None => None
              end
  | JNum n => JSDate.TimeClip n
  | JBool b => Some (if b then 1 else 0)
  | JNull => Some 0
  | JUndefined => None
  end.

(** [scheduleReminder(task, replace)], the clock reading [now]. *)
Definition scheduleReminder (task : Task) (replace : bool) (now : Z)
  (s : State) : State :=
  if negb (truthy (dueDate task)) || completed task then s
  else
    match newDate (dueDate task) with
    | None => s
    | Some due =>
        let s1 := if replace then cancelReminder (id task) s else s in
        let target := JSDate.TimeClip (due - 60 * 60 * 1000) in
        let delayMs : number :=
          match target with
          | Some t => Some (t - now)
          | None => None
          end in
        let delayMs : number :=
          if (now <? due) && leNum delayMs 0 then Some (5 * 1000)
          else delayMs in
        if due <=? now then s1
        else
          let delayMs := mathMin delayMs MAX_DELAY in
          let '(timeoutId, s2) :=
            setTimeout {| tm_task := task; tm_due := due;
                          tm_delay := mathMax 0 delayMs |} s1 in
          withReminders (<[id task := timeoutId]> (reminders s2)) s2
    end.

(** *** Delivery *)

(** Configuration: whether the mail transporter exists, the default
    address, whether both VAPID keys are set. *)
Variable transporter : bool.
Variable DEFAULT_NOTIFY_EMAIL : jsval.
Variable vapid : bool.

(** The two transports: [true] when the send resolves, [false] when
    it rejects. *)
Variable sendMail : jsval -> Task -> bool.
Variable sendNotification : Subscription -> Task -> bool.

(** The loop [for (const sub of [...pushSubscriptions])]: [snapshot]
    is what is left of the copy, [registry] the current value of the
    variable [pushSubscriptions]. *)
Fixpoint pushLoop (task : Task) (snapshot registry : list Subscription)
  : list Event * list Subscription :=
  match snapshot with
  | [] => ([], registry)
  | sub :: rest =>
      let ok := sendNotification sub task in
      let registry' :=
        if ok then registry
        else List.filter (fun s => negb (sameObject s sub)) registry in
      let '(evs, final) := pushLoop task rest registry' in
      (Push sub (id task) ok :: evs, final)
  end.

Definition sendReminder (task : Task) (due : Z) (s : State) : State :=
  let s := emit [Reminder (id task) due] s in
  let toEmail := jsOr (email task) DEFAULT_NOTIFY_EMAIL in
  let s :=
    if transporter && truthy toEmail
    then emit [Mail toEmail (id task) (sendMail toEmail task)] s
    else s in
  if vapid && negb (Nat.eqb (List.length (pushSubscriptions s)) 0) then
    let '(evs, final) :=
      pushLoop task (pushSubscriptions s) (pushSubscriptions s) in
    withPushSubscriptions final (emit evs s)
  else s.

(** *** The timeout callback

    The callback awaits [sendReminder] and then, in its [finally],
    deletes the entry of its task. Other callbacks and requests can
    run in between, so the two halves are two steps. [sendReminder]
    itself awaits the mail and every push: the first step records in
    [log] all the deliveries of the callback, in their order, at the
    turn in which the callback starts, although in the program those
    after the first [await] happen while the callback is suspended.
    The callbacks for which that can still be the case are the ones
    listed in [finishing]; a state with an empty [finishing] has no
    delivery under way. *)
Definition callbackStart (tm : Timer) (s : State) : State :=
  let s := sendReminder (tm_task tm) (tm_due tm) s in
  withFinishing (finishing s ++ [id (tm_task tm)])%list s.

Definition callbackFinally (taskId : string) (s : State) : State :=
  withReminders (delete taskId (reminders s)) s.

(** One turn of the event loop on behalf of the timers. *)
Inductive step : State -> State -> Prop :=
| step_fire (s : State) (h : nat) (tm : Timer) :
    timers s !! h = Some tm ->
    step s (callbackStart tm (withTimers (delete h (timers s)) s))
| step_finally (s : State) (before after : list string) (taskId : string) :
    finishing s = (before ++ taskId :: after)%list ->
    step s (callbackFinally taskId (withFinishing (before ++ after)%list s)).

Inductive steps : State -> State -> Prop :=
| steps_refl (s : State) : steps s s
| steps_more (s s' s'' : State) : step s s' -> steps s' s'' -> steps s s''.

End Environment.

(** The number of times [sendReminder] was entered for a task. *)
Definition isReminderOf (taskId : string) (e : Event) : bool :=
  match e with
  | Reminder t _ => String.eqb t taskId
  | _ => false
  end.

Definition firesOf (taskId : string) (s : State) : nat :=
  List.length (List.filter (isReminderOf taskId) (log s)).

(** The armed timers whose callback is for the task [taskId]. *)
Definition armedFor (taskId : string) (s : State) : gmap nat Timer :=
  filter (fun p => id (tm_task (snd p)) = taskId) (timers s).

End Scheduler.

(** ** The task store and the two task routes *)

Module Server.

Import Scheduler.

(** [String(v)] for a primitive value (see [jsval]). *)
Definition toText (v : jsval) : string :=
  match v with
  | JUndefined => "undefined"
  | JNull => "null"
  | JBool b => if b then "true" else "false"
  | JNum n => pretty n
  | JStr s => s
  end.

(** A row of the table [tasks]. The columns [due_date] and [email]
    have type TEXT: they hold NULL or a text. *)
Record Row := {
  row_title : string;
  due_date : option string;
  row_completed : bool;
  row_email : option string
}.

(** What a value bound to a TEXT column is stored as. For a number
    this is the case of an integer of 32 bits, which is bound as an
    integer and stored as its digits; a larger number is bound as a
    double and stored in another rendering, which is not modelled. *)
Definition toTextColumn (v : jsval) : option string :=
  match v with
  | JUndefined | JNull => None
  | JBool b => Some (if b then "1" else "0")
  | JNum n => Some (pretty n)
  | JStr s => Some s
  end.

Definition fromColumn (c : option string) : jsval :=
  match c with
  | Some s => JStr s
  | None => JNull
  end.

Definition rowOfTask (t : Task) : Row :=
  {| row_title := title t; due_date := toTextColumn (dueDate t);
     row_completed := completed t; row_email := toTextColumn (email t) |}.

(** The task object that [getTask] builds from a row. *)
Definition taskOfRow (i : string) (r : Row) : Task :=
  {| id := i; title := row_title r; dueDate := fromColumn (due_date r);
     completed := row_completed r;
     email := jsOr (fromColumn (row_email r)) JUndefined |}.

Record ServerState := {
  sched : State;
  db : gmap string Row
}.

(** [dbOperations] *)
Definition getTask (i : string) (d : gmap string Row) : option Task :=
  taskOfRow i <$> d !! i.

Definition createTask (t : Task) (d : gmap string Row)
  : completion (gmap string Row) :=
  match d !! id t with
  | Some _ => Throw "SQLITE_CONSTRAINT: UNIQUE constraint failed: tasks.id"
  | None => Normal (<[id t := rowOfTask t]> d)
  end.

Definition updateTask (i : string) (updates : Task) (d : gmap string Row)
  : completion (gmap string Row) :=
  match d !! i with
  | Some _ => Normal (<[i := rowOfTask updates]> d)
  | None => Throw "Task not found"
  end.

(** The fields the routes read from [req.body]; a key that is missing
    is [JUndefined]. *)
Record Body := {
  b_title : jsval;
  b_dueDate : jsval;
  b_completed : jsval;
  b_email : jsval;
  b_input : jsval
}.

Inductive Payload : Type :=
| ErrorBody (error : string)
| TaskBody (t : Task).

Record Response := { status : Z; payload : Payload }.

(** [v.trim()]: a TypeError unless [v] is a string. *)
Definition trimValue (v : jsval) : completion string :=
  match v with
  | JStr s => Normal (Text.trim s)
  | _ => Throw "TypeError: trim is not a function"
  end.

Section Routes.

(** [parseInput] with the clock, and the scheduler's view of dates. *)
Variable parseInput : string -> Z -> completion Parser.ParseResult.
Variable dateParse : string -> JSDate.Date.

(** [app.post('/api/tasks')]; [uuid] is the value of [uuidv4()]. *)
Definition postTask (body : Body) (uuid : string) (now : Z)
  (st : ServerState) : Response * ServerState :=
  let failed := ({| status := 500; payload := ErrorBody "Failed to create task" |}, st) in
  let parsed : completion (jsval * jsval) :=
    if negb (truthy (b_title body)) && truthy (b_input body) then
      match parseInput (toText (b_input body)) now with
      | Normal p => Normal (JStr (Parser.title p), jsOr (Parser.dueDate p) JNull)
      | Throw e => Throw e
      end
    else Normal (b_title body, b_dueDate body) in
  match parsed with
  | Throw _ => failed
  | Normal (title, dueDate) =>
      if negb (truthy title) then
        ({| status := 400; payload := ErrorBody "title or input is required" |}, st)
      else
        match trimValue title with
        | Throw _ => failed
        | Normal trimmed =>
            if String.eqb trimmed "" then
              ({| status := 400; payload := ErrorBody "title or input is required" |}, st)
            else
              let task := {| id := uuid; title := trimmed;
                             dueDate := jsOr dueDate JNull;
                             completed := false;
                             email := jsOr (b_email body) JUndefined |} in
              match createTask task (db st) with
              | Throw _ => failed
              | Normal d =>
                  ({| status := 200; payload := TaskBody task |},
                   {| sched := scheduleReminder dateParse task false now (sched st);
                      db := d |})
              end
        end
  end.

(** [app.put('/api/tasks/:id')] *)
Definition putTask (i : string) (body : Body) (now : Z)
  (st : ServerState) : Response * ServerState :=
  let failed := ({| status := 500; payload := ErrorBody "Failed to update task" |}, st) in
  match getTask i (db st) with
  | None => ({| status := 404; payload := ErrorBody "Task not found" |}, st)
  | Some existingTask =>
      let parsed : completion (jsval * jsval) :=
        if truthy (b_input body) && negb (truthy (b_title body))
           && match b_dueDate body with JUndefined => true | _ => false end
        then
          match parseInput (toText (b_input body)) now with
          | Normal p => Normal (JStr (Parser.title p), Parser.dueDate p)
          | Throw e => Throw e
          end
        else Normal (b_title body, b_dueDate body) in
      match parsed with
      | Throw _ => failed
      | Normal (nextTitle, nextDue) =>
          let newTitle : completion string :=
            match nextTitle with
            | JUndefined => Normal (title existingTask)
            | v => trimValue v
            end in
          match newTitle with
          | Throw _ => failed
          | Normal t =>
              let updates :=
                {| id := i;
                   title := t;
                   dueDate := match nextDue with
                              | JUndefined => dueDate existingTask
                              | v => v
                              end;
                   completed := match b_completed body with
                                | JBool b => b
                                | _ => completed existingTask
                                end;
                   email := match b_email body with
                            | JUndefined => email existingTask
                            | v => v
                            end |} in
              match updateTask i updates (db st) with
              | Throw e =>
                  if String.eqb e "Task not found"
                  then ({| status := 404; payload := ErrorBody "Task not found" |}, st)
                  else failed
              | Normal d =>
                  let updatedTask := updates in
                  ({| status := 200; payload := TaskBody updatedTask |},
                   {| sched := scheduleReminder dateParse updatedTask true now (sched st);
                      db := d |})
              end
          end
      end
  end.

End Routes.

End Server.

(** ** Observations used in the statements *)

Module Observe.

Import Scheduler.

(** The delay of the timer that [reminders] records for a task. *)
Definition armedDelay (taskId : string) (s : State) : option number :=
  match reminders s !! taskId with
  | Some h => tm_delay <$> timers s !! h
  | None => None
  end.

(** The timer that [reminders] records for a task. *)
Definition armedTimer (taskId : string) (s : State) : option Timer :=
  match reminders s !! taskId with
  | Some h => timers s !! h
  | None => None
  end.

(** The state in which [scheduleReminder] arms: after the optional
    cancel. *)
Definition afterCancel (task : Task) (replace : bool) (s : State) : State :=
  if replace then cancelReminder (id task) s else s.

(** Every armed timer whose callback is for the task is the one that
    [reminders] records for it. *)
Definition tracked (taskId : string) (s : State) : Prop :=
  forall h tm, timers s !! h = Some tm -> id (tm_task tm) = taskId ->
               reminders s !! taskId = Some h.

(** Handles from [nextHandle] on are not in use. *)
Definition fresh (s : State) : Prop :=
  forall h, (nextHandle s <= h)%nat -> timers s !! h = None.

(** A task for which [scheduleReminder] arms a timer: not completed,
    with a valid due date [due] after the clock [now]. *)
Definition eligible (dateParse : string -> JSDate.Date) (task : Task)
  (now due : Z) : Prop :=
  completed task = false
  /\ truthy (dueDate task) = true
  /\ newDate dateParse (dueDate task) = Some due
  /\ 0 <= now < due.

(** Whether the send to an object of [snapshot] identical to [s]
    failed. *)
Definition pruned (sendNotification : Subscription -> Task -> bool)
  (task : Task) (snapshot : list Subscription) (s : Subscription) : bool :=
  existsb (fun f => sameObject s f && negb (sendNotification f task)) snapshot.

(** No temporal phrase in [input]: the primary grammar finds nothing
    and none of the heuristics applies. *)
Definition noTemporalPhrase
  (chrono_parse : string -> Z -> completion (list Parser.ParsedResult))
  (input : string) (now : Z) : Prop :=
  let lower := Text.toLowerCase (Text.trim input) in
  chrono_parse (Text.trim input) now = Normal []
  /\ Text.matchInTime false lower = None
  /\ Text.includes lower "tomorrow" = false
  /\ Text.includes lower "today" = false
  /\ Text.includes lower "next week" = false.

(** The configurations in which [parseInput] is the local parser
    whatever the remote services do. *)
Definition viaLocal (PARSER_PROVIDER : string) (groqApiKey openai : bool) : Prop :=
  PARSER_PROVIDER = "local" \/ (groqApiKey = false /\ openai = false).

(** The clock reads an instant from the epoch to the end of year 9999,
    and the local zone is less than a day away from UTC. *)
Definition clockOk (now : Z) : Prop := 0 <= now < 253402300800000.

Definition zoneOk (tza : Z) : Prop := Z.abs tza < JSDate.msPerDay.

(** The condition under which the PUT route parses the free text. *)
Definition freeTextEdit (body : Server.Body) : bool :=
  truthy (Server.b_input body) && negb (truthy (Server.b_title body))
  && match Server.b_dueDate body with JUndefined => true | _ => false end.

End Observe.


(** ** Concrete instances

    Small instances of the library calls and of the data, on which the
    statements below are exercised. *)

Module Demo.

Import Scheduler.

(** 2024-01-15T12:00:00Z, the clock of the examples. *)
Definition noon : Z := 1705320000000.

(** A date parser that knows three ISO strings. *)
Definition dateParse (s : string) : JSDate.Date :=
  if String.eqb s "2024-01-15T14:00:00.000Z" then Some 1705327200000
  else if String.eqb s "2024-01-15T12:30:00.000Z" then Some 1705321800000
  else if String.eqb s "2024-03-15T12:00:00.000Z" then Some 1710504000000
  else None.

Definition task (due : string) : Task :=
  {| id := "t1"; title := "Call mom"; dueDate := JStr due;
     completed := false; email := JUndefined |}.

Definition sub (r : nat) (e : string) : Subscription :=
  {| sub_ref := r; sub_endpoint := e |}.

(** A push service on which only the endpoint "https://push/b" is dead. *)
Definition sendNotification (s : Subscription) (_ : Task) : bool :=
  negb (String.eqb (sub_endpoint s) "https://push/b").

Definition sendMail (_ : jsval) (_ : Task) : bool := true.

Definition threeSubs : list Subscription :=
  [sub 1 "https://push/a"; sub 2 "https://push/b"; sub 3 "https://push/c"].

(** The local zone of the examples: UTC+05:00. *)
Definition tza : Z := 18000000.

(** A primary grammar that throws. *)
Definition chronoThrows (_ : string) (_ : Z) : completion (list Parser.ParsedResult) :=
  Throw "chrono failed".

(** [zonedTimeToUtc] on a server whose own zone is the default zone:
    the instant is unchanged. *)
Definition zonedTimeToUtc (t : Z) : completion JSDate.Date := Normal (Some t).

(** [n] in decimal, padded with zeros to [w] digits. *)
Definition pad (w : nat) (n : Z) : string :=
  let d := pretty n in
  (String.concat "" (List.repeat "0" (w - String.length d)) ++ d)%string.

(** The ISO rendering of a time value whose year is in 0..9999:
    YYYY-MM-DDTHH:mm:ss.sssZ. *)
Definition isoString (t : Z) : string :=
  (pad 4 (JSDate.YearFromTime t) ++ "-" ++ pad 2 (JSDate.MonthFromTime t + 1)
   ++ "-" ++ pad 2 (JSDate.DateFromTime t)
   ++ "T" ++ pad 2 ((t / JSDate.msPerHour) mod 24)
   ++ ":" ++ pad 2 ((t / JSDate.msPerMinute) mod 60)
   ++ ":" ++ pad 2 ((t / JSDate.msPerSecond) mod 60)
   ++ "." ++ pad 3 (t mod JSDate.msPerSecond) ++ "Z")%string.

(** *** A stand-in for chrono-node

    The part of the English grammar of chrono-node that the examples
    need: the words "tomorrow" and "today", "next week" and "in N
    hours / minutes", in any case. As in the library, a phrase is
    found only where it stands as words of its own; in particular it
    is not found where a word character follows it ("tomorrows", "in
    2 hoursish"). The date of a phrase is the clock plus one day, the
    clock, the clock plus seven days and the clock plus N units. Only
    the first phrase is returned, which is all the server reads. *)

(** [\w] *)
Definition isWordChar (c : ascii) : bool :=
  let n := Text.code c in
  (((48 <=? n) && (n <=? 57)) || ((65 <=? n) && (n <=? 90))
   || ((97 <=? n) && (n <=? 122)) || (n =? 95))%N.

(** The end of the text or a code unit that is no word character. *)
Definition boundary (r : string) : bool :=
  match r with
  | EmptyString => true
  | String c _ => negb (isWordChar c)
  end.

(** The word [p] at the start of [s]: what follows it. *)
Definition word (p s : string) : option string :=
  match Text.matchLit true p s with
  | Some r => if boundary r then Some r else None
  | None => None
  end.

Definition chronoUnits : list (string * Z) :=
  [("hours", JSDate.msPerHour); ("hour", JSDate.msPerHour);
   ("minutes", JSDate.msPerMinute); ("minute", JSDate.msPerMinute);
   ("mins", JSDate.msPerMinute); ("min", JSDate.msPerMinute)].

Fixpoint unitAt (units : list (string * Z)) (s : string) : option (Z * string) :=
  match units with
  | [] => None
  | (u, ms) :: rest =>
      match word u s with
      | Some r => Some (ms, r)
      | None => unitAt rest s
      end
  end.

(** A phrase at the start of [s]: its distance from the clock and
    what follows it. *)
Definition phraseAt (s : string) : option (Z * string) :=
  match word "tomorrow" s, word "today" s, word "next week" s with
  | Some r, _, _ => Some (JSDate.msPerDay, r)
  | None, Some r, _ => Some (0, r)
  | None, None, Some r => Some (7 * JSDate.msPerDay, r)
  | None, None, None =>
      match Text.matchLit true "in " s with
      | Some r1 =>
          match Text.spanDigits r1 with
          | (EmptyString, _) => None
          | (digits, r2) =>
              match Text.matchLit true " " r2 with
              | Some r3 =>
                  match unitAt chronoUnits r3 with
                  | Some (ms, r4) => Some (Text.parseInt digits * ms, r4)
                  | None => None
                  end
              | None => None
              end
          end
      | None => None
      end
  end.

(** The first phrase of [s]; [afterWord] tells whether a word
    character stands before [s]. *)
Fixpoint firstPhrase (afterWord : bool) (s : string) (now : Z)
  : list Parser.ParsedResult :=
  match s with
  | EmptyString => []
  | String c s' =>
      match (if afterWord then None else phraseAt s) with
      | Some (distance, r) =>
          [{| Parser.text := substring 0 (String.length s - String.length r) s;
              Parser.start_date := Some (JSDate.TimeClip (now + distance)) |}]
      | None => firstPhrase (isWordChar c) s' now
      end
  end.

Definition chrono (text : string) (now : Z) : completion (list Parser.ParsedResult) :=
  Normal (firstPhrase false text now).

Definition remoteDown (_ : string) : completion Parser.ParseResult :=
  Throw "network error".

(** The local parser of a server whose zone is the default zone. *)
Definition parseInputLocal : string -> Z -> completion Parser.ParseResult :=
  Parser.parseInputLocal tza chrono zonedTimeToUtc isoString.

(** The cascade configured to the local parser. *)
Definition parseInput : string -> Z -> completion Parser.ParseResult :=
  Parser.parseInput tza chrono zonedTimeToUtc isoString
    "local" false false remoteDown remoteDown.

Definition idle : State :=
  {| reminders := ∅; timers := ∅; nextHandle := 1; finishing := [];
     pushSubscriptions := []; log := [] |}.

(** A server without mail transporter and without push keys. *)
Definition callbackStart : Timer -> State -> State :=
  Scheduler.callbackStart false JNull false sendMail sendNotification.

Definition inputOnly (text : string) : Server.Body :=
  {| Server.b_title := JUndefined; Server.b_dueDate := JUndefined;
     Server.b_completed := JUndefined; Server.b_email := JUndefined;
     Server.b_input := JStr text |}.

(** A server that stores one task, due at 14:00, with its reminder
    armed. *)
Definition oneTask : Server.ServerState :=
  {| Server.sched :=
       scheduleReminder dateParse (task "2024-01-15T14:00:00.000Z") false noon idle;
     Server.db :=
       {[ "t1" := Server.rowOfTask (task "2024-01-15T14:00:00.000Z") ]} |}.

End Demo.

(** ** The rest of the server: store, routes, start and stop *)

Module Routes.

Import Scheduler Server.

(** [dbOperations.deleteTask] *)
Definition deleteTask (i : string) (d : gmap string Row)
  : completion (gmap string Row) :=
  match d !! i with
  | Some _ => Normal (delete i d)
  | None => Throw "Task not found"
  end.

(** The answers of the routes below: an error with its status, or one
    of the bodies sent with status 200. *)
Inductive Reply : Type :=
| ReplyError (status : Z) (error : string)
| ReplyDeleted (deleted : Task)
| ReplyOk
| ReplyParsed (input : jsval) (result : Parser.ParseResult).

(** [app.delete('/api/tasks/:id')] *)
Definition deleteRoute (i : string) (st : ServerState) : Reply * ServerState :=
  match getTask i (db st) with
  | None => (ReplyError 404 "Task not found", st)
  | Some existingTask =>
      match deleteTask i (db st) with
      | Throw _ => (ReplyError 500 "Failed to delete task", st)
      | Normal d =>
          (ReplyDeleted existingTask,
           {| sched := cancelReminder i (sched st); db := d |})
      end
  end.

(** [app.post('/api/push/subscribe')]. The body is a new object, named
    by [ref]; [endpoint] is its field of that name, a text when it is
    present. *)
Definition subscribeRoute (ref : nat) (endpoint : option string) (s : State)
  : Reply * State :=
  match endpoint with
  | None => (ReplyError 400 "Invalid subscription", s)
  | Some e =>
      if String.eqb e "" then (ReplyError 400 "Invalid subscription", s)
      else
        let exists_ :=
          List.find (fun x => String.eqb (sub_endpoint x) e) (pushSubscriptions s) in
        match exists_ with
        | Some _ => (ReplyOk, s)
        | None =>
            (ReplyOk,
             withPushSubscriptions
               (pushSubscriptions s ++ [{| sub_ref := ref; sub_endpoint := e |}])%list s)
        end
  end.

(** [app.post('/api/parse')] *)
Definition parseRoute (parseInput : string -> Z -> completion Parser.ParseResult)
  (input : jsval) (now : Z) : Reply :=
  if negb (truthy input) then ReplyError 400 "input is required"
  else
    match parseInput (toText input) now with
    | Normal result => ReplyParsed input result
    | Throw _ => ReplyError 500 "Failed to parse input"
    end.

(** The loop of [startServer] over the loaded tasks; [clockAt task] is
    the clock when the task's turn comes. The result carries
    [scheduledCount]. *)
Definition startServer (dateParse : string -> JSDate.Date) (clockAt : Task -> Z)
  (existingTasks : list Task) (s : State) : nat * State :=
  List.fold_left
    (fun (acc : nat * State) (task : Task) =>
       if negb (completed task) && truthy (dueDate task)
       then (S (fst acc), scheduleReminder dateParse task true (clockAt task) (snd acc))
       else acc)
    existingTasks (O, s).

(** The handler of SIGINT up to the closing of the database: every
    recorded timer is cleared, then the map is emptied. *)
Definition shutdown (s : State) : State :=
  withReminders ∅
    (map_fold (fun (_ : string) (timeoutId : nat) (acc : State) =>
                 clearTimeout timeoutId acc) s (reminders s)).

End Routes.

(** ** The remote parsers: what they do with the answer *)

Module Remote.

(** The value of [JSON.parse]: [None] for [null]; otherwise the fields
    [title] and [dueDate] of the value ([JUndefined] when it has no such
    field), which hold primitive values. *)
Definition Parsed : Type := option (jsval * jsval).

(** The prefix of [s] that ends with its last closing brace. *)
Fixpoint upToLastBrace (s : string) : option string :=
  match s with
  | EmptyString => None
  | String c s' =>
      match upToLastBrace s' with
      | Some r => Some (String c r)
      | None => if Ascii.eqb c "}" then Some (String c EmptyString) else None
      end
  end.

(** [content.match(/\{.*\}/s)]: from the first opening brace that has a
    closing brace after it to the last closing brace. *)
Fixpoint matchBraces (s : string) : option string :=
  match s with
  | EmptyString => None
  | String c s' =>
      if Ascii.eqb c "{" then
        match upToLastBrace s' with
        | Some r => Some (String c r)
        | None => matchBraces s'
        end
      else matchBraces s'
  end.

Section Normalise.

Variable dateParse : string -> JSDate.Date.
Variable isoString : Z -> string.

(** [JSON.parse] *)
Variable jsonParse : string -> completion Parsed.

(** "Validate and normalize", shared by the two remote parsers. *)
Definition normalise (input : string) (parsed : Parsed)
  : completion Parser.ParseResult :=
  match parsed with
  | None => Throw "TypeError: Cannot read properties of null"
  | Some (ptitle, pdue) =>
      let title :=
        match ptitle with
        | JStr t =>
            if negb (String.eqb (Text.trim t) "") then Text.trim t
            else Text.trim input
        | _ => Text.trim input
        end in
      let dueDate :=
        if truthy pdue then
          match Scheduler.newDate dateParse pdue with
          | Some t => JStr (isoString t)
          | None => JNull
          end
        else JNull in
      Normal {| Parser.title := title; Parser.dueDate := dueDate |}
  end.

(** The [try] block of [parseInputGroq] after the request: [content] is
    [response.data.choices?.[0]?.message?.content], [None] when it is
    missing. *)
Definition groqTry (request : string -> completion (option string))
  (input : string) : completion Parser.ParseResult :=
  match request input with
  | Throw e => Throw e
  | Normal None => Throw "Empty response from Groq"
  | Normal (Some raw) =>
      let content := Text.trim raw in
      if String.eqb content "" then Throw "Empty response from Groq"
      else
        let jsonStr := match matchBraces content with
                       | Some m => m
                       | None => content
                       end in
        match jsonParse jsonStr with
        | Throw e => Throw e
        | Normal parsed => normalise input parsed
        end
  end.

(** The [try] block of [parseInputOpenAI] after the request. *)
Definition openaiTry (request : string -> completion (option string))
  (input : string) : completion Parser.ParseResult :=
  match request input with
  | Throw e => Throw e
  | Normal None => Throw "Empty completion"
  | Normal (Some raw) =>
      let content := Text.trim raw in
      if String.eqb content "" then Throw "Empty completion"
      else
        match jsonParse content with
        | Throw e => Throw e
        | Normal parsed => normalise input parsed
        end
  end.

End Normalise.

End Remote.

(** ** The page: how a task is classified *)

Module Frontend.

Import Scheduler.

Inductive Status : Type :=
| StatusCompleted
| StatusNoDueDate
| StatusOverdue
| StatusDueSoon
| StatusUpcoming.

(** [a < b] on two Date objects, false when either is invalid. *)
Definition dateLt (a b : JSDate.Date) : bool :=
  match a, b with
  | Some x, Some y => x <? y
  | _, _ => false
  end.

(** [getTaskStatus(task)], the clock reading [now]. *)
Definition getTaskStatus (dateParse : string -> JSDate.Date) (task : Task)
  (now : Z) : Status :=
  if completed task then StatusCompleted
  else if negb (truthy (dueDate task)) then StatusNoDueDate
  else
    let due := newDate dateParse (dueDate task) in
    let hourFromNow := JSDate.TimeClip (now + 60 * 60 * 1000) in
    if dateLt due (Some now) then StatusOverdue
    else if dateLt due hourFromNow then StatusDueSoon
    else StatusUpcoming.

(** [s.replace(/x/g, y)] for single code units [x] and [y]. *)
Fixpoint replaceAll (x y : ascii) (s : string) : string :=
  match s with
  | EmptyString => EmptyString
  | String c s' => String (if Ascii.eqb c x then y else c) (replaceAll x y s')
  end.

(** ['='.repeat(n)] *)
Fixpoint equalSigns (n : nat) : string :=
  match n with
  | O => EmptyString
  | S n' => String "=" (equalSigns n')
  end.

(** The constant [base64] of [urlBase64ToUint8Array]: the argument
    given to [atob]. *)
Definition toBase64 (base64String : string) : string :=
  let padding := equalSigns ((4 - String.length base64String mod 4) mod 4) in
  replaceAll "_" "/" (replaceAll "-" "+" (String.append base64String padding)).

(** [urlBase64ToUint8Array(base64String)]; [atob] is the decoder of the
    browser, which throws on a text that is not base64. *)
Definition urlBase64ToUint8Array (atob : string -> completion string)
  (base64String : string) : completion (list N) :=
  match atob (toBase64 base64String) with
  | Normal raw => Normal (List.map Text.code (list_ascii_of_string raw))
  | Throw e => Throw e
  end.

End Frontend.

(** ** The service worker: what a push shows *)

Module ServiceWorker.

(** The object read from a push message, as far as the handler uses
    it: the fields [title], [body], [icon], [badge]; [JUndefined] for a
    field that is missing. *)
Record PushData := {
  pd_title : jsval;
  pd_body : jsval;
  pd_icon : jsval;
  pd_badge : jsval
}.

(** The arguments of [showNotification]. *)
Record Shown := {
  shown_title : jsval;
  shown_body : jsval;
  shown_icon : jsval;
  shown_badge : jsval
}.

(** The push handler. [message] is [event.data]: [None] when the push
    has no payload, otherwise the outcome of [event.data.json()]
    ([Normal None] for the value [null]) and the value of
    [event.data.text()]. Reading a field of [null] throws. *)
Definition onPush (message : option (completion (option PushData) * string))
  : completion Shown :=
  let empty := {| pd_title := JUndefined; pd_body := JUndefined;
                  pd_icon := JUndefined; pd_badge := JUndefined |} in
  let data : option PushData :=
    match message with
    | None => Some empty
    | Some (Normal d, _) => d
    | Some (Throw _, text) =>
        Some {| pd_title := JStr "Reminder";
                pd_body := jsOr (JStr text) (JStr "You have a task due soon.");
                pd_icon := JUndefined; pd_badge := JUndefined |}
    end in
  match data with
  | None => Throw "TypeError: Cannot read properties of null"
  | Some data =>
      Normal {| shown_title := jsOr (pd_title data) (JStr "Task Reminder");
                shown_body := jsOr (pd_body data) (JStr "You have a task due soon.");
                shown_icon := jsOr (pd_icon data) (JStr "/icon-192.png");
                shown_badge := jsOr (pd_badge data) (JStr "/icon-192.png") |}
  end.

End ServiceWorker.

(** ** Observations for the statements about the rest of the server *)

Module Observe2.

Import Scheduler.

(** Every armed timer is the recorded timer of its task. *)
Definition allTracked (s : State) : Prop :=
  forall taskId, Observe.tracked taskId s.

(** A task whose dueDate and email are read back from the store as
    they were written. *)
Definition storable (t : Task) : Prop :=
  (dueDate t = JNull \/ exists s, dueDate t = JStr s)
  /\ (email t = JUndefined \/ exists s, email t = JStr s /\ s <> "").

(** A field of the request body that is absent or holds a text. *)
Definition textOrAbsent (v : jsval) : Prop :=
  v = JUndefined \/ exists t, v = JStr t.

(** The timer that [scheduleReminder] arms for an eligible task. *)
Definition timerOf (task : Task) (now due : Z) : Timer :=
  {| tm_task := task; tm_due := due;
     tm_delay :=
       Some (Z.max 0 (if due - 3600000 - now <=? 0 then 5000
                      else Z.min (due - 3600000 - now) MAX_DELAY)) |}.

(** A parse result in good shape: the title has no white space at
    either end and the due date is [null] or an ISO string. *)
Definition wellFormed (isoString : Z -> string) (r : Parser.ParseResult) : Prop :=
  Text.trim (Parser.title r) = Parser.title r
  /\ (Parser.dueDate r = JNull \/ exists t, Parser.dueDate r = JStr (isoString t)).

(** The lower-case form of a match of the "in N unit" pattern. *)
Definition lowerMatch (m : Text.InTimeMatch) : Text.InTimeMatch :=
  {| Text.im_before := Text.toLowerCase (Text.im_before m);
     Text.im_amount := Text.im_amount m;
     Text.im_unit := Text.im_unit m;
     Text.im_after := Text.toLowerCase (Text.im_after m) |}.

(** The alphabets of base64url and of base64. *)
Definition isAlnum (c : ascii) : bool :=
  let n := Text.code c in
  (((48 <=? n) && (n <=? 57)) || ((65 <=? n) && (n <=? 90))
   || ((97 <=? n) && (n <=? 122)))%N.

Definition isBase64Url (c : ascii) : bool :=
  isAlnum c || Ascii.eqb c "-" || Ascii.eqb c "_".

Definition isBase64 (c : ascii) : bool :=
  isAlnum c || Ascii.eqb c "+" || Ascii.eqb c "/" || Ascii.eqb c "=".

Fixpoint allChars (f : ascii -> bool) (s : string) : bool :=
  match s with
  | EmptyString => true
  | String c s' => f c && allChars f s'
  end.

Definition isPush (e : Event) : bool :=
  match e with
  | Push _ _ _ => true
  | _ => false
  end.

Definition endpoints (s : State) : list string :=
  List.map sub_endpoint (pushSubscriptions s).

Definition refs (s : State) : list nat :=
  List.map sub_ref (pushSubscriptions s).

End Observe2.

(** ** More concrete instances *)

Module Demo2.

(** A parser that always fails. *)
Definition failingParser (_ : string) (_ : Z) : completion Parser.ParseResult :=
  Throw "parser down".

(** A remote service that cannot be reached, and a JSON decoder that
    rejects everything. *)
Definition requestDown (_ : string) : completion (option string) :=
  Throw "network error".

Definition jsonParse (_ : string) : completion Remote.Parsed :=
  Throw "SyntaxError".

(** Two loaded tasks: one due at 14:00, one completed. *)
Definition doneTask : Scheduler.Task :=
  {| Scheduler.id := "t2"; Scheduler.title := "Pay rent";
     Scheduler.dueDate := JStr "2024-03-15T12:00:00.000Z";
     Scheduler.completed := true; Scheduler.email := JUndefined |}.

Definition loaded : list Scheduler.Task :=
  [Demo.task "2024-01-15T14:00:00.000Z"; doneTask].

Definition clockAt (_ : Scheduler.Task) : Z := Demo.noon.

End Demo2.
(** * Properties *)

(** ** Sanity checks of the text and calendar primitives *)

Example trim_demo : Text.trim "  Call  mom " = "Call  mom".
Proof. reflexivity. Qed.

Example collapse_demo : Text.collapseSpaces "a   b  c" = "a b c".
Proof. reflexivity. Qed.

Example removeInTime_demo : Text.removeInTime "Call mom In 2 Hours" = "Call mom s".
Proof. reflexivity. Qed.

(** 2024-01-15T12:00:00Z *)
Example calendar_demo :
  let t := 1705320000000 in
  (JSDate.YearFromTime t, JSDate.MonthFromTime t, JSDate.DateFromTime t)
  = (2024, 0, 15).
Proof. reflexivity. Qed.

(** 2024-02-29 and 2023-12-31, 1969-12-31 *)
Example calendar_demo_leap :
  (JSDate.MonthFromTime 1709164800000, JSDate.DateFromTime 1709164800000,
   JSDate.YearFromTime 1703980800000, JSDate.MonthFromTime 1703980800000,
   JSDate.DateFromTime 1703980800000, JSDate.YearFromTime (-1))
  = (1, 29, 2023, 11, 31, 1969).
Proof. reflexivity. Qed.


(** ** Time values *)

Lemma TimeClip_Some (v t : Z) :
  JSDate.TimeClip v = Some t -> t = v /\ Z.abs v <= JSDate.maxTime.
Proof.
  unfold JSDate.TimeClip. destruct (Z.leb_spec (Z.abs v) JSDate.maxTime); [|discriminate].
  intros [= <-]. split; [reflexivity | assumption].
Qed.

Lemma TimeClip_in (v : Z) :
  Z.abs v <= JSDate.maxTime -> JSDate.TimeClip v = Some v.
Proof.
  intros H. unfold JSDate.TimeClip.
  destruct (Z.leb_spec (Z.abs v) JSDate.maxTime); [reflexivity | lia].
Qed.

Lemma newDate_range (dateParse : string -> JSDate.Date) (v : jsval) (due : Z) :
  Scheduler.newDate dateParse v = Some due -> Z.abs due <= JSDate.maxTime.
Proof.
  destruct v as [| |b|n|s]; simpl; try discriminate.
  - intros [= <-]. unfold JSDate.maxTime. lia.
  - intros [= <-]. destruct b; unfold JSDate.maxTime; lia.
  - intros H. apply TimeClip_Some in H as [-> H]. exact H.
  - destruct (dateParse s) as [t|]; [|discriminate].
    intros H. apply TimeClip_Some in H as [-> H]. exact H.
Qed.

(** ** The scheduler: which delay is armed *)

Section ScheduleDelay.

Import Scheduler Observe.

Variable dateParse : string -> JSDate.Date.

(** The shape of [scheduleReminder] for an eligible task due in the
    future: one new timer with delay [d], recorded in [reminders]. *)
Lemma scheduleReminder_future (task : Task) (replace : bool) (now due : Z) (s : State) :
  completed task = false ->
  truthy (dueDate task) = true ->
  newDate dateParse (dueDate task) = Some due ->
  0 <= now -> now < due ->
  let d := if due - 3600000 - now <=? 0 then 5000
           else Z.min (due - 3600000 - now) MAX_DELAY in
  let s1 := afterCancel task replace s in
  let tm := {| tm_task := task; tm_due := due; tm_delay := Some (Z.max 0 d) |} in
  scheduleReminder dateParse task replace now s
  = withReminders (<[id task := nextHandle s1]> (reminders s1))
      {| reminders := reminders s1; timers := <[nextHandle s1 := tm]> (timers s1);
         nextHandle := S (nextHandle s1); finishing := finishing s1;
         pushSubscriptions := pushSubscriptions s1; log := log s1 |}.
Proof.
  intros Hc Ht Hd Hnow Hfut. pose proof (newDate_range _ _ _ Hd) as Hr.
  unfold scheduleReminder. rewrite Hc, Ht, Hd. simpl negb. simpl orb. cbv iota.
  rewrite TimeClip_in by (unfold JSDate.maxTime in *; lia).
  replace (now <? due) with true by (symmetry; apply Z.ltb_lt; lia).
  replace (due <=? now) with false by (symmetry; apply Z.leb_gt; lia).
  simpl andb. unfold leNum, afterCancel, MAX_DELAY.
  replace (due - 60 * 60 * 1000 - now) with (due - 3600000 - now) by lia.
  destruct (Z.leb_spec (due - 3600000 - now) 0) as [Hle|Hgt]; simpl.
  - replace (Z.min (5 * 1000) (2 ^ 31 - 1)) with 5000 by reflexivity.
    reflexivity.
  - reflexivity.
Qed.

Lemma armedDelay_after (s1 : State) (taskId : string) (tm : Timer) :
  armedDelay taskId
    (withReminders (<[taskId := nextHandle s1]> (reminders s1))
      {| reminders := reminders s1; timers := <[nextHandle s1 := tm]> (timers s1);
         nextHandle := S (nextHandle s1); finishing := finishing s1;
         pushSubscriptions := pushSubscriptions s1; log := log s1 |})
  = Some (tm_delay tm).
Proof.
  unfold armedDelay. simpl. rewrite lookup_insert_eq. simpl.
  rewrite lookup_insert_eq. reflexivity.
Qed.

End ScheduleDelay.

(** C2. For an eligible task ([completed] false, a [dueDate] that is a
    valid date [due]) [scheduleReminder] arms the delay
    [due - 1h - now], up to the ceiling, when [due] is more than one
    hour ahead; it arms 5 seconds when [due] is ahead by at most one
    hour; and when [due] is not after [now] it arms nothing and makes no
    entry: the state is the one left by the optional cancel. *)
Theorem C2_scheduled_delay (dateParse : string -> JSDate.Date)
  (task : Scheduler.Task) (replace : bool) (now due : Z) (s : Scheduler.State) :
  Scheduler.completed task = false ->
  truthy (Scheduler.dueDate task) = true ->
  Scheduler.newDate dateParse (Scheduler.dueDate task) = Some due ->
  0 <= now ->
  let s' := Scheduler.scheduleReminder dateParse task replace now s in
  (3600000 < due - now ->
     Observe.armedDelay (Scheduler.id task) s'
     = Some (Some (Z.min (due - 3600000 - now) Scheduler.MAX_DELAY))
     /\ (due - 3600000 - now <= Scheduler.MAX_DELAY ->
         Observe.armedDelay (Scheduler.id task) s' = Some (Some (due - 3600000 - now))))
  /\ (now < due <= now + 3600000 ->
       Observe.armedDelay (Scheduler.id task) s' = Some (Some 5000))
  /\ (due <= now -> s' = Observe.afterCancel task replace s).
Proof.
  intros Hc Ht Hd Hnow s'. subst s'. split; [|split].
  - intros Hfar.
    rewrite (scheduleReminder_future dateParse task replace now due s) by (assumption || lia).
    rewrite armedDelay_after. simpl.
    destruct (Z.leb_spec (due - 3600000 - now) 0); [lia|].
    unfold Scheduler.MAX_DELAY. split.
    + do 2 f_equal. lia.
    + intros Hle. do 2 f_equal. unfold Scheduler.MAX_DELAY in Hle. lia.
  - intros [Hlo Hhi].
    rewrite (scheduleReminder_future dateParse task replace now due s) by (assumption || lia).
    rewrite armedDelay_after. simpl.
    destruct (Z.leb_spec (due - 3600000 - now) 0); [reflexivity | lia].
  - intros Hpast. unfold Scheduler.scheduleReminder.
    rewrite Hc, Ht, Hd. simpl.
    replace (due <=? now) with true by (symmetry; apply Z.leb_le; lia).
    reflexivity.
Qed.

Lemma C2_scheduled_delay_witness :
  Scheduler.completed (Demo.task "2024-01-15T14:00:00.000Z") = false
  /\ truthy (Scheduler.dueDate (Demo.task "2024-01-15T14:00:00.000Z")) = true
  /\ Scheduler.newDate Demo.dateParse
       (Scheduler.dueDate (Demo.task "2024-01-15T14:00:00.000Z")) = Some 1705327200000
  /\ 0 <= Demo.noon
  /\ 3600000 < 1705327200000 - Demo.noon
  /\ Observe.armedDelay "t1"
       (Scheduler.scheduleReminder Demo.dateParse
          (Demo.task "2024-01-15T14:00:00.000Z") true Demo.noon Demo.idle)
     = Some (Some 3600000).
Proof.
  assert (Hnow : 0 <= Demo.noon) by (unfold Demo.noon; lia).
  assert (Hfar : 3600000 < 1705327200000 - Demo.noon) by (unfold Demo.noon; lia).
  do 3 (split; [reflexivity|]). split; [exact Hnow|]. split; [exact Hfar|].
  destruct (C2_scheduled_delay Demo.dateParse (Demo.task "2024-01-15T14:00:00.000Z")
              true Demo.noon 1705327200000 Demo.idle eq_refl eq_refl eq_refl Hnow)
    as [H _].
  destruct (H Hfar) as [_ Hexact]. apply Hexact.
  unfold Demo.noon, Scheduler.MAX_DELAY. lia.
Defined.

(** C7. The delay that is armed never exceeds [MAX_DELAY] = 2^31 - 1
    ms: whenever [due - 1h - now] is above that ceiling the armed delay
    is the ceiling itself, and every armed delay lies between 0 and the
    ceiling. *)
Theorem C7_delay_clamped (dateParse : string -> JSDate.Date)
  (task : Scheduler.Task) (replace : bool) (now due : Z) (s : Scheduler.State) :
  Scheduler.completed task = false ->
  truthy (Scheduler.dueDate task) = true ->
  Scheduler.newDate dateParse (Scheduler.dueDate task) = Some due ->
  0 <= now -> now < due ->
  let s' := Scheduler.scheduleReminder dateParse task replace now s in
  Scheduler.MAX_DELAY = 2147483647
  /\ (Scheduler.MAX_DELAY < due - 3600000 - now ->
       Observe.armedDelay (Scheduler.id task) s' = Some (Some Scheduler.MAX_DELAY))
  /\ (exists d, Observe.armedDelay (Scheduler.id task) s' = Some (Some d)
                /\ 0 <= d <= Scheduler.MAX_DELAY).
Proof.
  intros Hc Ht Hd Hnow Hfut s'. subst s'.
  rewrite (scheduleReminder_future dateParse task replace now due s) by assumption.
  rewrite armedDelay_after. simpl. unfold Scheduler.MAX_DELAY.
  split; [reflexivity | split].
  - intros Hbig. destruct (Z.leb_spec (due - 3600000 - now) 0); [lia|].
    do 2 f_equal. lia.
  - eexists. split; [reflexivity|].
    destruct (Z.leb_spec (due - 3600000 - now) 0); lia.
Qed.

Lemma C7_delay_clamped_witness :
  Scheduler.completed (Demo.task "2024-03-15T12:00:00.000Z") = false
  /\ truthy (Scheduler.dueDate (Demo.task "2024-03-15T12:00:00.000Z")) = true
  /\ Scheduler.newDate Demo.dateParse
       (Scheduler.dueDate (Demo.task "2024-03-15T12:00:00.000Z")) = Some 1710504000000
  /\ 0 <= Demo.noon /\ Demo.noon < 1710504000000
  /\ Scheduler.MAX_DELAY < 1710504000000 - 3600000 - Demo.noon
  /\ Observe.armedDelay "t1"
       (Scheduler.scheduleReminder Demo.dateParse
          (Demo.task "2024-03-15T12:00:00.000Z") false Demo.noon Demo.idle)
     = Some (Some 2147483647).
Proof.
  assert (Hnow : 0 <= Demo.noon) by (unfold Demo.noon; lia).
  assert (Hfut : Demo.noon < 1710504000000) by (unfold Demo.noon; lia).
  assert (Hbig : Scheduler.MAX_DELAY < 1710504000000 - 3600000 - Demo.noon)
    by (unfold Demo.noon, Scheduler.MAX_DELAY; lia).
  do 3 (split; [reflexivity|]). split; [exact Hnow|]. split; [exact Hfut|].
  split; [exact Hbig|].
  destruct (C7_delay_clamped Demo.dateParse (Demo.task "2024-03-15T12:00:00.000Z")
              false Demo.noon 1710504000000 Demo.idle eq_refl eq_refl eq_refl Hnow Hfut)
    as (_ & H & _).
  exact (H Hbig).
Defined.

(** ** The push fan-out *)

Section FanOut.

Import Scheduler.

Variable sendNotification : Subscription -> Task -> bool.

Lemma filter_filter {A} (f g : A -> bool) (l : list A) :
  List.filter f (List.filter g l) = List.filter (fun x => g x && f x) l.
Proof.
  induction l as [|a l IH]; simpl; [reflexivity|].
  destruct (g a); simpl; [destruct (f a)|]; rewrite IH; reflexivity.
Qed.

Local Abbreviation pruned := (Observe.pruned sendNotification).

(** The loop attempts every element of the snapshot once, in order,
    and removes from the registry the objects whose send failed. *)
Lemma pushLoop_spec (task : Task) (snapshot registry : list Subscription) :
  pushLoop sendNotification task snapshot registry
  = (List.map (fun sub => Push sub (id task) (sendNotification sub task)) snapshot,
     List.filter (fun s => negb (pruned task snapshot s)) registry).
Proof.
  revert registry. induction snapshot as [|sub rest IH]; intros registry; simpl.
  - f_equal. induction registry as [|a l IHl]; simpl; congruence.
  - rewrite IH. f_equal. destruct (sendNotification sub task); simpl.
    + apply List.filter_ext. intros a. rewrite andb_false_r. reflexivity.
    + rewrite filter_filter. apply List.filter_ext. intros a.
      rewrite andb_true_r, negb_orb. reflexivity.
Qed.

Lemma same_ref_same_object (l : list Subscription) (a b : Subscription) :
  List.NoDup (List.map sub_ref l) -> In a l -> In b l -> sub_ref a = sub_ref b -> a = b.
Proof.
  induction l as [|x l IH]; simpl; [tauto|].
  intros Hnd [->|Ha] [->|Hb] Href; inversion Hnd as [|? ? Hx Hl]; subst.
  - reflexivity.
  - exfalso. apply Hx. rewrite Href. apply List.in_map. exact Hb.
  - exfalso. apply Hx. rewrite <- Href. apply List.in_map. exact Ha.
  - apply IH; assumption.
Qed.

Lemma pruned_iff_failed (task : Task) (l : list Subscription) (s : Subscription) :
  List.NoDup (List.map sub_ref l) -> In s l ->
  pruned task l s = negb (sendNotification s task).
Proof.
  intros Hnd Hs. unfold pruned.
  destruct (sendNotification s task) eqn:Hok; simpl.
  - apply not_true_is_false. intros Hex. apply List.existsb_exists in Hex as (f & Hf & Hp).
    apply andb_prop in Hp as [Hsame Hfail]. apply Nat.eqb_eq in Hsame.
    rewrite <- (same_ref_same_object l s f Hnd Hs Hf Hsame) in Hfail.
    rewrite Hok in Hfail. discriminate.
  - apply List.existsb_exists. exists s. split; [exact Hs|].
    unfold sameObject. rewrite Nat.eqb_refl, Hok. reflexivity.
Qed.

End FanOut.

(** C8. In one fan-out ([sendReminder] with push configured and a
    registry of distinct subscription objects) every subscription of
    the snapshot gets its send attempt, in order, whatever the outcome
    of the others, and afterwards the registry holds exactly the
    subscriptions whose send succeeded: each failing one is removed
    and no other. *)
Theorem C8_fanout_isolates_failures
  (transporter : bool) (DEFAULT_NOTIFY_EMAIL : jsval)
  (sendMail : jsval -> Scheduler.Task -> bool)
  (sendNotification : Scheduler.Subscription -> Scheduler.Task -> bool)
  (task : Scheduler.Task) (due : Z) (s : Scheduler.State) :
  Scheduler.pushSubscriptions s <> [] ->
  List.NoDup (List.map Scheduler.sub_ref (Scheduler.pushSubscriptions s)) ->
  let s' := Scheduler.sendReminder transporter DEFAULT_NOTIFY_EMAIL true
              sendMail sendNotification task due s in
  let toEmail := jsOr (Scheduler.email task) DEFAULT_NOTIFY_EMAIL in
  let mail := if transporter && truthy toEmail
              then [Scheduler.Mail toEmail (Scheduler.id task) (sendMail toEmail task)]
              else [] in
  Scheduler.log s'
  = (Scheduler.log s
     ++ Scheduler.Reminder (Scheduler.id task) due :: mail
     ++ List.map (fun sub => Scheduler.Push sub (Scheduler.id task)
                               (sendNotification sub task))
          (Scheduler.pushSubscriptions s))%list
  /\ Scheduler.pushSubscriptions s'
     = List.filter (fun sub => sendNotification sub task) (Scheduler.pushSubscriptions s)
  /\ (forall sub, In sub (Scheduler.pushSubscriptions s') <->
                  In sub (Scheduler.pushSubscriptions s)
                  /\ sendNotification sub task = true).
Proof.
  intros Hne Hnd s' toEmail mail.
  assert (Hreg : Scheduler.pushSubscriptions s'
                 = List.filter (fun sub => sendNotification sub task)
                     (Scheduler.pushSubscriptions s)
                 /\ Scheduler.log s'
                    = (Scheduler.log s
                       ++ Scheduler.Reminder (Scheduler.id task) due :: mail
                       ++ List.map (fun sub => Scheduler.Push sub (Scheduler.id task)
                                                 (sendNotification sub task))
                            (Scheduler.pushSubscriptions s))%list).
  { subst s' mail toEmail. unfold Scheduler.sendReminder.
    set (l := Scheduler.pushSubscriptions s) in *.
    assert (Hlen : Nat.eqb (List.length l) 0 = false)
      by (destruct l; [congruence | reflexivity]).
    destruct (transporter && truthy _); simpl; fold l; rewrite Hlen; simpl;
      rewrite pushLoop_spec; simpl; (split;
        [ apply List.filter_ext_in; intros a Ha;
          rewrite (pruned_iff_failed sendNotification task l a Hnd Ha);
          apply negb_involutive
        | rewrite <- ?app_assoc; reflexivity ]). }
  destruct Hreg as [Hreg Hlog]. split; [exact Hlog | split; [exact Hreg|]].
  intros sub. rewrite Hreg. apply List.filter_In.
Qed.

Lemma C8_fanout_isolates_failures_witness :
  Demo.threeSubs <> []
  /\ List.NoDup (List.map Scheduler.sub_ref Demo.threeSubs)
  /\ Scheduler.pushSubscriptions
       (Scheduler.sendReminder false JNull true Demo.sendMail Demo.sendNotification
          (Demo.task "2024-01-15T14:00:00.000Z") 1705327200000
          (Scheduler.withPushSubscriptions Demo.threeSubs Demo.idle))
     = [Demo.sub 1 "https://push/a"; Demo.sub 3 "https://push/c"].
Proof.
  assert (Hne : Demo.threeSubs <> []) by discriminate.
  assert (Hnd : List.NoDup (List.map Scheduler.sub_ref Demo.threeSubs)).
  { simpl. repeat constructor; simpl; intuition lia. }
  split; [exact Hne|]. split; [exact Hnd|].
  destruct (C8_fanout_isolates_failures false JNull Demo.sendMail Demo.sendNotification
              (Demo.task "2024-01-15T14:00:00.000Z") 1705327200000
              (Scheduler.withPushSubscriptions Demo.threeSubs Demo.idle) Hne Hnd)
    as (_ & H & _).
  rewrite H. reflexivity.
Defined.

(** ** The task routes *)

(** C9. A POST that carries a free-text [input] and no [title], and
    whose parsed title is empty (or blank), is answered with status
    400 and the error "title or input is required"; the store and the
    scheduler are left as they were: no task is created and no
    reminder is scheduled. *)
Theorem C9_empty_parsed_title_rejected
  (parseInput : string -> Z -> completion Parser.ParseResult)
  (dateParse : string -> JSDate.Date)
  (body : Server.Body) (uuid text : string) (now : Z) (st : Server.ServerState)
  (p : Parser.ParseResult) :
  Server.b_title body = JUndefined ->
  Server.b_input body = JStr text ->
  parseInput text now = Normal p ->
  Text.trim (Parser.title p) = "" ->
  Server.postTask parseInput dateParse body uuid now st
  = ({| Server.status := 400;
        Server.payload := Server.ErrorBody "title or input is required" |}, st).
Proof.
  intros Ht Hi Hp He. unfold Server.postTask. rewrite Ht, Hi. simpl.
  destruct (String.eqb text "") eqn:Htext; simpl; [reflexivity|].
  rewrite Hp. simpl.
  destruct (String.eqb (Parser.title p) "") eqn:Hpt; simpl; [reflexivity|].
  rewrite He. reflexivity.
Qed.

Lemma C9_empty_parsed_title_rejected_witness :
  Server.b_title (Demo.inputOnly "in 2 hour") = JUndefined
  /\ Server.b_input (Demo.inputOnly "in 2 hour") = JStr "in 2 hour"
  /\ Demo.parseInput "in 2 hour" Demo.noon
     = Normal {| Parser.title := ""; Parser.dueDate := JStr "2024-01-15T14:00:00.000Z" |}
  /\ Server.postTask Demo.parseInput Demo.dateParse (Demo.inputOnly "in 2 hour")
       "t2" Demo.noon Demo.oneTask
     = ({| Server.status := 400;
           Server.payload := Server.ErrorBody "title or input is required" |},
        Demo.oneTask).
Proof.
  assert (Hp : Demo.parseInput "in 2 hour" Demo.noon
               = Normal {| Parser.title := "";
                           Parser.dueDate := JStr "2024-01-15T14:00:00.000Z" |})
    by (vm_compute; reflexivity).
  do 2 (split; [reflexivity|]). split; [exact Hp|].
  exact (C9_empty_parsed_title_rejected Demo.parseInput Demo.dateParse
           (Demo.inputOnly "in 2 hour") "t2" "in 2 hour" Demo.noon Demo.oneTask _
           eq_refl eq_refl Hp eq_refl).
Defined.

Lemma stored_dueDate_roundtrip (c : option string) :
  Server.fromColumn (Server.toTextColumn (Server.fromColumn c)) = Server.fromColumn c.
Proof. destruct c; reflexivity. Qed.

Lemma stored_email_roundtrip (c : option string) :
  let e := jsOr (Server.fromColumn c) JUndefined in
  jsOr (Server.fromColumn (Server.toTextColumn e)) JUndefined = e.
Proof.
  destruct c as [s|]; simpl; [|reflexivity].
  unfold jsOr. simpl. destruct (String.eqb s "") eqn:E; simpl; [reflexivity|].
  rewrite E. reflexivity.
Qed.

(** C10, as stated, fails: a PUT whose body holds only the free text
    "Buy milk" succeeds and changes both [title] and [dueDate] of the
    stored task, although neither key is in the body. *)
Lemma C10_counterexample :
  exists existing updated st',
    Server.getTask "t1" (Server.db Demo.oneTask) = Some existing
    /\ Server.putTask Demo.parseInput Demo.dateParse "t1" (Demo.inputOnly "Buy milk")
         Demo.noon Demo.oneTask
       = ({| Server.status := 200; Server.payload := Server.TaskBody updated |}, st')
    /\ Server.b_title (Demo.inputOnly "Buy milk") = JUndefined
    /\ Server.b_dueDate (Demo.inputOnly "Buy milk") = JUndefined
    /\ Scheduler.title existing = "Call mom"
    /\ Scheduler.title updated = "Buy milk"
    /\ Scheduler.dueDate existing = JStr "2024-01-15T14:00:00.000Z"
    /\ Scheduler.dueDate updated = JNull.
Proof.
  eexists; eexists; eexists.
  split; [reflexivity|]. split; [vm_compute; reflexivity|].
  repeat split; reflexivity.
Qed.

(** C10, amended. On a successful PUT: [completed] keeps its stored
    value when the body gives no boolean, and [email] when the body
    gives none; [title] and [dueDate], when absent from the body, keep
    their stored values unless the free text is parsed (the body has a
    non-empty [input], no non-empty [title] and no [dueDate]), in which
    case both come from the parse result. The task read back from the
    store agrees with the task of the response on the retained
    fields. *)
Theorem C10_put_retains_fields
  (parseInput : string -> Z -> completion Parser.ParseResult)
  (dateParse : string -> JSDate.Date)
  (i : string) (body : Server.Body) (now : Z) (st st' : Server.ServerState)
  (existing updated : Scheduler.Task) :
  Server.getTask i (Server.db st) = Some existing ->
  Server.putTask parseInput dateParse i body now st
  = ({| Server.status := 200; Server.payload := Server.TaskBody updated |}, st') ->
  ((forall b, Server.b_completed body <> JBool b) ->
     Scheduler.completed updated = Scheduler.completed existing)
  /\ (Server.b_email body = JUndefined ->
       Scheduler.email updated = Scheduler.email existing)
  /\ (Observe.freeTextEdit body = false ->
       (Server.b_title body = JUndefined ->
          Scheduler.title updated = Scheduler.title existing)
       /\ (Server.b_dueDate body = JUndefined ->
           Scheduler.dueDate updated = Scheduler.dueDate existing))
  /\ (Observe.freeTextEdit body = true ->
       exists p, parseInput (Server.toText (Server.b_input body)) now = Normal p
                 /\ Scheduler.title updated = Text.trim (Parser.title p)
                 /\ (Parser.dueDate p <> JUndefined ->
                     Scheduler.dueDate updated = Parser.dueDate p))
  /\ (exists stored, Server.getTask i (Server.db st') = Some stored
         /\ Scheduler.title stored = Scheduler.title updated
         /\ Scheduler.completed stored = Scheduler.completed updated
         /\ (Observe.freeTextEdit body = false -> Server.b_dueDate body = JUndefined ->
               Scheduler.dueDate stored = Scheduler.dueDate existing)
         /\ (Server.b_email body = JUndefined ->
               Scheduler.email stored = Scheduler.email existing)).
Proof.
  intros Hget Hput. unfold Server.putTask in Hput. rewrite Hget in Hput.
  unfold Observe.freeTextEdit.
  unfold Server.getTask in Hget.
  destruct (Server.db st !! i) as [row|] eqn:Hrow; [|discriminate].
  simpl in Hget. injection Hget as <-.
  set (ft := truthy (Server.b_input body) && negb (truthy (Server.b_title body))
             && match Server.b_dueDate body with JUndefined => true | _ => false end) in *.
  assert (Hshape : exists nextTitle nextDue t,
    (if ft then
       match parseInput (Server.toText (Server.b_input body)) now with
       | Normal p => Normal (JStr (Parser.title p), Parser.dueDate p)
       | Throw e => Throw e
       end
     else Normal (Server.b_title body, Server.b_dueDate body))
    = Normal (nextTitle, nextDue)
    /\ match nextTitle with
       | JUndefined => Normal (Server.row_title row)
       | v => Server.trimValue v
       end = Normal t
    /\ updated = {| Scheduler.id := i; Scheduler.title := t;
                    Scheduler.dueDate :=
                      match nextDue with
                      | JUndefined => Server.fromColumn (Server.due_date row)
                      | v => v
                      end;
                    Scheduler.completed :=
                      match Server.b_completed body with
                      | JBool b => b
                      | _ => Server.row_completed row
                      end;
                    Scheduler.email :=
                      match Server.b_email body with
                      | JUndefined => jsOr (Server.fromColumn (Server.row_email row)) JUndefined
                      | v => v
                      end |}
    /\ Server.db st' = <[i := Server.rowOfTask updated]> (Server.db st)).
  { simpl in Hput.
    destruct (if ft then _ else _) as [[nextTitle nextDue]|e]; [|discriminate].
    exists nextTitle, nextDue.
    destruct (match nextTitle with JUndefined => _ | _ => _ end) as [t|e] eqn:Ht;
      [|discriminate].
    exists t. unfold Server.updateTask in Hput. rewrite Hrow in Hput.
    injection Hput as <- <-. simpl. repeat split; reflexivity. }
  destruct Hshape as (nextTitle & nextDue & t & Hparsed & Ht & -> & Hdb).
  simpl. split; [|split; [|split; [|split]]].
  - intros Hnb. destruct (Server.b_completed body) as [| |b| |]; try reflexivity.
    exfalso. exact (Hnb b eq_refl).
  - intros ->. reflexivity.
  - intros Hft. rewrite Hft in Hparsed. injection Hparsed as <- <-. split.
    + intros Htitle. rewrite Htitle in Ht. injection Ht as <-. reflexivity.
    + intros Hdue. rewrite Hdue. reflexivity.
  - intros Hft. rewrite Hft in Hparsed.
    destruct (parseInput _ now) as [p|e]; [|discriminate].
    injection Hparsed as <- <-. simpl in Ht. injection Ht as <-.
    exists p. split; [reflexivity|]. split; [reflexivity|].
    intros Hnu. destruct (Parser.dueDate p); try reflexivity. congruence.
  - unfold Server.getTask. rewrite Hdb, lookup_insert_eq. simpl.
    eexists. split; [reflexivity|]. simpl.
    split; [reflexivity|]. split; [reflexivity|]. split.
    + intros Hft Hdue. rewrite Hft in Hparsed. injection Hparsed as <- <-.
      rewrite Hdue. apply stored_dueDate_roundtrip.
    + intros ->. apply stored_email_roundtrip.
Qed.

Lemma C10_put_retains_fields_witness :
  exists existing updated st',
    Server.getTask "t1" (Server.db Demo.oneTask) = Some existing
    /\ Server.putTask Demo.parseInput Demo.dateParse "t1"
         {| Server.b_title := JUndefined; Server.b_dueDate := JUndefined;
            Server.b_completed := JBool true; Server.b_email := JUndefined;
            Server.b_input := JUndefined |} Demo.noon Demo.oneTask
       = ({| Server.status := 200; Server.payload := Server.TaskBody updated |}, st')
    /\ Scheduler.title updated = Scheduler.title existing
    /\ Scheduler.dueDate updated = Scheduler.dueDate existing.
Proof.
  set (body := {| Server.b_title := JUndefined; Server.b_dueDate := JUndefined;
                  Server.b_completed := JBool true; Server.b_email := JUndefined;
                  Server.b_input := JUndefined |}).
  destruct (Server.putTask Demo.parseInput Demo.dateParse "t1" body Demo.noon Demo.oneTask)
    as [[code [err|updated]] st'] eqn:Hput; [vm_compute in Hput; discriminate|].
  assert (Hcode : code = 200) by (vm_compute in Hput; congruence).
  subst code.
  exists (Demo.task "2024-01-15T14:00:00.000Z"), updated, st'.
  assert (Hget : Server.getTask "t1" (Server.db Demo.oneTask)
                 = Some (Demo.task "2024-01-15T14:00:00.000Z")) by reflexivity.
  split; [exact Hget|]. split; [reflexivity|].
  destruct (C10_put_retains_fields Demo.parseInput Demo.dateParse "t1" body Demo.noon
              Demo.oneTask st' _ updated Hget Hput) as (_ & _ & H & _).
  destruct (H eq_refl) as [Ht Hd]. split; [exact (Ht eq_refl) | exact (Hd eq_refl)].
Defined.

(** ** Extraction *)

Section Extraction.

Import Parser.

Variable tza : Z.
Variable chrono_parse : string -> Z -> completion (list ParsedResult).
Variable zonedTimeToUtc : Z -> completion JSDate.Date.
Variable isoString : Z -> string.

Local Abbreviation parseLocal := (parseInputLocal tza chrono_parse zonedTimeToUtc isoString).
Local Abbreviation heuristics := (heuristicBranch tza isoString).

(** A [try] whose handler does not throw ends normally. *)
Lemma returnOut_tryCatch (body : Try unit) (out : ParseResult) :
  exists r, returnOut (tryCatch body (fun _ => ret tt)) out = Normal r.
Proof.
  unfold returnOut, tryCatch.
  destruct (body out) as [[u|e] out']; simpl; eexists; reflexivity.
Qed.

Lemma parseInputLocal_total (input : string) (now : Z) :
  exists r, parseLocal input now = Normal r.
Proof. unfold parseInputLocal. apply returnOut_tryCatch. Qed.

(** The local parser when chrono finds nothing: the result is what the
    heuristics leave in [out], also when they throw. *)
Lemma parseInputLocal_heuristics (input : string) (now : Z) :
  chrono_parse (Text.trim input) now = Normal [] ->
  parseLocal input now
  = Normal (snd (heuristics now {| title := Text.trim input; dueDate := JNull |})).
Proof.
  intros Hc. unfold parseInputLocal, returnOut, tryCatch, localBody.
  unfold bind at 1. unfold getTitle at 1. simpl.
  unfold bind at 1. unfold lift. rewrite Hc.
  destruct (heuristicBranch _ _ _ _) as [[u|e] out']; reflexivity.
Qed.

(** The local parser when chrono finds a phrase with a valid date that
    [zonedTimeToUtc] converts: the due date is the converted instant,
    and the phrase, unless its text is empty, is taken out of the
    title, the white space merged. *)
Lemma parseInputLocal_chrono (input : string) (now : Z) (first : ParsedResult)
  (rest : list ParsedResult) (dt utc : Z) :
  chrono_parse (Text.trim input) now = Normal (first :: rest) ->
  start_date first = Some (Some dt) ->
  zonedTimeToUtc dt = Normal (Some utc) ->
  parseLocal input now
  = Normal {| title :=
                if String.eqb (text first) EmptyString then Text.trim input
                else Text.trim (Text.collapseSpaces
                       (Text.trim (Text.replaceFirst (Text.trim input) (text first))));
              dueDate := JStr (isoString utc) |}.
Proof.
  intros Hc Hd Hz. unfold parseInputLocal, returnOut, tryCatch, localBody.
  unfold bind at 1. unfold getTitle at 1. cbn [title].
  unfold bind at 1. unfold lift at 1. rewrite Hc.
  unfold chronoBranch. rewrite Hd.
  unfold bind at 1. unfold lift at 1. rewrite Hz.
  unfold bind at 1. unfold toISOString, ret.
  unfold bind at 1. unfold setDueDate at 1. cbn [title dueDate].
  destruct (String.eqb (text first) EmptyString); reflexivity.
Qed.

End Extraction.

(** When chrono throws, the [catch] returns [out] as it was set up. *)
Example chrono_throws_demo :
  Parser.parseInputLocal Demo.tza Demo.chronoThrows Demo.zonedTimeToUtc Demo.isoString
    " Buy milk tomorrow " Demo.noon
  = Normal {| Parser.title := "Buy milk tomorrow"; Parser.dueDate := JNull |}.
Proof. vm_compute. reflexivity. Qed.

(** A number of hours that leads past the last valid time value, in a
    text in which the primary grammar finds nothing: the RangeError of
    [toISOString] is caught, [out] is untouched. *)
Example inTime_overflow_demo :
  Demo.chrono "Nap in 2400000000 hoursish" Demo.noon = Normal []
  /\ Demo.parseInputLocal "Nap in 2400000000 hoursish" Demo.noon
     = Normal {| Parser.title := "Nap in 2400000000 hoursish"; Parser.dueDate := JNull |}.
Proof. split; vm_compute; reflexivity. Qed.

(** C6. Extraction never throws: in every configuration and whatever
    the libraries and the remote services do, [parseInput] ends
    normally, also on the empty text; it is the local parser when the
    provider is "local" or no remote service is configured; and on an
    input without temporal phrase the local parser returns the trimmed
    input as [title] and [null] as [dueDate]. *)
Theorem C6_extraction_never_throws (tza : Z)
  (chrono_parse : string -> Z -> completion (list Parser.ParsedResult))
  (zonedTimeToUtc : Z -> completion JSDate.Date) (isoString : Z -> string)
  (PARSER_PROVIDER : string) (groqApiKey openai : bool)
  (groqAttempt openaiAttempt : string -> completion Parser.ParseResult)
  (input : string) (now : Z) :
  let parse := Parser.parseInput tza chrono_parse zonedTimeToUtc isoString
                 PARSER_PROVIDER groqApiKey openai groqAttempt openaiAttempt in
  let parseLocal := Parser.parseInputLocal tza chrono_parse zonedTimeToUtc isoString in
  (exists r, parse input now = Normal r)
  /\ (exists r, parse "" now = Normal r)
  /\ (Observe.viaLocal PARSER_PROVIDER groqApiKey openai ->
       parse input now = parseLocal input now)
  /\ (Observe.noTemporalPhrase chrono_parse input now ->
       parseLocal input now
       = Normal {| Parser.title := Text.trim input; Parser.dueDate := JNull |}).
Proof.
  intros parse parseLocal.
  assert (Htotal : forall i, exists r, parse i now = Normal r).
  { intros i. subst parse. unfold Parser.parseInput, Parser.parseInputOpenAI,
      Parser.parseInputGroq.
    pose proof (parseInputLocal_total tza chrono_parse zonedTimeToUtc isoString i now)
      as [r Hr].
    destruct (String.eqb PARSER_PROVIDER "openai"), (String.eqb PARSER_PROVIDER "groq"),
      (String.eqb PARSER_PROVIDER "local"), groqApiKey, openai; simpl;
      try (destruct (openaiAttempt i)); try (destruct (groqAttempt i));
      rewrite ?Hr; eexists; reflexivity. }
  split; [apply Htotal | split; [apply Htotal | split]].
  - intros [Hl | [-> ->]]; subst parse parseLocal;
      unfold Parser.parseInput, Parser.parseInputOpenAI, Parser.parseInputGroq.
    + subst PARSER_PROVIDER. reflexivity.
    + simpl. destruct (String.eqb PARSER_PROVIDER "openai"),
        (String.eqb PARSER_PROVIDER "groq"), (String.eqb PARSER_PROVIDER "local");
        reflexivity.
  - intros (Hc & Hm & Htom & Htod & Hnw). subst parseLocal.
    rewrite (parseInputLocal_heuristics _ _ _ _ _ _ Hc).
    unfold Parser.heuristicBranch. unfold Parser.bind at 1.
    unfold Parser.getTitle at 1. cbn [Parser.title].
    rewrite Hm, Htom, Htod, Hnw. reflexivity.
Qed.

Lemma C6_extraction_never_throws_witness :
  Observe.viaLocal "local" false false
  /\ Observe.noTemporalPhrase Demo.chrono "  Buy groceries " Demo.noon
  /\ Demo.parseInput "  Buy groceries " Demo.noon
     = Normal {| Parser.title := "Buy groceries"; Parser.dueDate := JNull |}.
Proof.
  assert (Hv : Observe.viaLocal "local" false false) by (left; reflexivity).
  assert (Hn : Observe.noTemporalPhrase Demo.chrono "  Buy groceries " Demo.noon)
    by (repeat split; reflexivity).
  split; [exact Hv|]. split; [exact Hn|].
  destruct (C6_extraction_never_throws Demo.tza Demo.chrono Demo.zonedTimeToUtc
              Demo.isoString "local" false false Demo.remoteDown Demo.remoteDown
              "  Buy groceries " Demo.noon) as (_ & _ & Hlocal & Hplain).
  unfold Demo.parseInput. rewrite (Hlocal Hv). exact (Hplain Hn).
Defined.

(** ** The heuristic for "in N hours / minutes" *)

Lemma matchLit_app (ci : bool) (p q s r : string) :
  Text.matchLit ci (p ++ q)%string s = Some r ->
  exists r', Text.matchLit ci p s = Some r'.
Proof.
  revert s. induction p as [|a p IH]; intros s; simpl.
  - intros _. destruct s; eexists; reflexivity.
  - destruct s as [|b s]; [discriminate|].
    destruct (Text.eqChar ci a b); [apply IH | discriminate].
Qed.

(** The alternatives "hours" and "minutes" are never the ones taken:
    "hour" and "minute" come first and match whenever they do. *)
Lemma matchAlt_unit (ci : bool) (s u r : string) :
  Text.matchAlt ci Text.unitAlternatives s = Some (u, r) ->
  u = "hour" \/ u = "minute" \/ u = "min".
Proof.
  unfold Text.unitAlternatives. cbn [Text.matchAlt].
  destruct (Text.matchLit ci "hour" s) as [r1|] eqn:H1.
  { intros [= <- _]. left. reflexivity. }
  destruct (Text.matchLit ci "hours" s) as [r2|] eqn:H2.
  { destruct (matchLit_app ci "hour" "s" s r2 H2) as [r' Hr']. congruence. }
  destruct (Text.matchLit ci "minute" s) as [r3|] eqn:H3.
  { intros [= <- _]. right. left. reflexivity. }
  destruct (Text.matchLit ci "minutes" s) as [r4|] eqn:H4.
  { destruct (matchLit_app ci "minute" "s" s r4 H4) as [r' Hr']. congruence. }
  destruct (Text.matchLit ci "min" s) as [r5|] eqn:H5; [|discriminate].
  intros [= <- _]. right. right. reflexivity.
Qed.

Lemma matchInTime_unit (ci : bool) (s : string) (m : Text.InTimeMatch) :
  Text.matchInTime ci s = Some m ->
  Text.im_unit m = "hour" \/ Text.im_unit m = "minute" \/ Text.im_unit m = "min".
Proof.
  revert m. induction s as [|c s IH]; intros m; cbn [Text.matchInTime].
  - unfold Text.matchInTimeAt. simpl. discriminate.
  - destruct (Text.matchInTimeAt ci (String c s)) as [[[d u] r]|] eqn:Hat.
    + intros [= <-]. simpl. unfold Text.matchInTimeAt in Hat.
      destruct (Text.matchLit ci "in " (String c s)) as [r1|]; [|discriminate].
      destruct (Text.spanDigits r1) as [[|d0 ds] r2]; [discriminate|].
      destruct (Text.matchLit ci " " r2) as [r3|]; [|discriminate].
      destruct (Text.matchAlt ci Text.unitAlternatives r3) as [[u' r4]|] eqn:Halt;
        [|discriminate].
      injection Hat as _ <- _. exact (matchAlt_unit ci r3 u' r4 Halt).
    + destruct (Text.matchInTime ci s) as [m'|]; [|discriminate].
      intros [= <-]. simpl. apply IH. reflexivity.
Qed.

(** What the local parser returns when only the "in N unit" heuristic
    applies and the resulting instant is a valid time value: the due
    date is the clock plus N units, and the title is the trimmed input
    without the text that the pattern matched. *)
Lemma parseInputLocal_inTime (tza : Z)
  (chrono_parse : string -> Z -> completion (list Parser.ParsedResult))
  (zonedTimeToUtc : Z -> completion JSDate.Date) (isoString : Z -> string)
  (input : string) (now : Z) (m : Text.InTimeMatch) :
  chrono_parse (Text.trim input) now = Normal [] ->
  Text.matchInTime false (Text.toLowerCase (Text.trim input)) = Some m ->
  let unitMs := if String.eqb (Text.im_unit m) "hour" then JSDate.msPerHour
                else JSDate.msPerMinute in
  let due := now + Text.parseInt (Text.im_amount m) * unitMs in
  Z.abs due <= JSDate.maxTime ->
  Parser.parseInputLocal tza chrono_parse zonedTimeToUtc isoString input now
  = Normal {| Parser.title := Text.trim (Text.removeInTime (Text.trim input));
              Parser.dueDate := JStr (isoString due) |}.
Proof.
  intros Hc Hm unitMs due Hvalid.
  rewrite (parseInputLocal_heuristics _ _ _ _ _ _ Hc).
  unfold Parser.heuristicBranch. unfold Parser.bind at 1.
  unfold Parser.getTitle at 1. cbn [Parser.title]. rewrite Hm.
  assert (Hdue : now + (if Text.startsWith "hour" (Text.im_unit m)
                        then Text.parseInt (Text.im_amount m) * 60
                        else Text.parseInt (Text.im_amount m)) * 60 * 1000 = due).
  { subst due unitMs. unfold JSDate.msPerHour, JSDate.msPerMinute.
    destruct (matchInTime_unit _ _ _ Hm) as [-> | [-> | ->]]; simpl; lia. }
  rewrite Hdue, (TimeClip_in due Hvalid). reflexivity.
Qed.

(** C3. The input "Call mom in 2 hoursish" holds the phrase "in 2
    hours" with letters glued to its end, where the primary grammar
    finds nothing; likewise "Stretch in 5 minutesish". The due date is
    the clock plus two hours (five minutes) as claimed, but the title
    keeps the final "s" of the unit: the alternative "hour" ("minute")
    of the pattern is taken before "hours" ("minutes"), so what is
    removed is "in 2 hour" ("in 5 minute"). *)
Theorem C3_in_hours_title_keeps_s (tza : Z)
  (chrono_parse : string -> Z -> completion (list Parser.ParsedResult))
  (zonedTimeToUtc : Z -> completion JSDate.Date) (isoString : Z -> string)
  (now : Z) :
  0 <= now <= JSDate.maxTime - 2 * JSDate.msPerHour ->
  chrono_parse "Call mom in 2 hoursish" now = Normal [] ->
  chrono_parse "Stretch in 5 minutesish" now = Normal [] ->
  let parse := Parser.parseInputLocal tza chrono_parse zonedTimeToUtc isoString in
  parse "Call mom in 2 hoursish" now
  = Normal {| Parser.title := "Call mom sish";
              Parser.dueDate := JStr (isoString (now + 2 * JSDate.msPerHour)) |}
  /\ parse "Stretch in 5 minutesish" now
     = Normal {| Parser.title := "Stretch sish";
                 Parser.dueDate := JStr (isoString (now + 5 * JSDate.msPerMinute)) |}
  /\ Text.matchInTime false "call mom in 2 hoursish"
     = Some {| Text.im_before := "call mom "; Text.im_amount := "2";
               Text.im_unit := "hour"; Text.im_after := "sish" |}.
Proof.
  intros Hnow Hh Hm parse. subst parse.
  split; [|split; [|vm_compute; reflexivity]].
  - rewrite (parseInputLocal_inTime tza chrono_parse zonedTimeToUtc isoString
               "Call mom in 2 hoursish" now
               {| Text.im_before := "call mom "; Text.im_amount := "2";
                  Text.im_unit := "hour"; Text.im_after := "sish" |}).
    + reflexivity.
    + exact Hh.
    + vm_compute. reflexivity.
    + cbn [Text.im_unit Text.im_amount]. change (Text.parseInt "2") with 2.
      change (String.eqb "hour" "hour") with true. cbv iota.
      unfold JSDate.maxTime, JSDate.msPerHour in *. lia.
  - rewrite (parseInputLocal_inTime tza chrono_parse zonedTimeToUtc isoString
               "Stretch in 5 minutesish" now
               {| Text.im_before := "stretch "; Text.im_amount := "5";
                  Text.im_unit := "minute"; Text.im_after := "sish" |}).
    + reflexivity.
    + exact Hm.
    + vm_compute. reflexivity.
    + cbn [Text.im_unit Text.im_amount]. change (Text.parseInt "5") with 5.
      change (String.eqb "minute" "hour") with false. cbv iota.
      unfold JSDate.maxTime, JSDate.msPerHour, JSDate.msPerMinute in *. lia.
Qed.

Lemma C3_in_hours_title_keeps_s_witness :
  Demo.chrono "Call mom in 2 hoursish" Demo.noon = Normal []
  /\ Demo.chrono "Stretch in 5 minutesish" Demo.noon = Normal []
  /\ Demo.parseInputLocal "Call mom in 2 hoursish" Demo.noon
     = Normal {| Parser.title := "Call mom sish";
                 Parser.dueDate := JStr (Demo.isoString (Demo.noon + 2 * JSDate.msPerHour)) |}.
Proof.
  assert (Hnow : 0 <= Demo.noon <= JSDate.maxTime - 2 * JSDate.msPerHour)
    by (unfold Demo.noon, JSDate.maxTime, JSDate.msPerHour; lia).
  assert (Hh : Demo.chrono "Call mom in 2 hoursish" Demo.noon = Normal [])
    by (vm_compute; reflexivity).
  assert (Hm : Demo.chrono "Stretch in 5 minutesish" Demo.noon = Normal [])
    by (vm_compute; reflexivity).
  split; [exact Hh|]. split; [exact Hm|].
  destruct (C3_in_hours_title_keeps_s Demo.tza Demo.chrono Demo.zonedTimeToUtc
              Demo.isoString Demo.noon Hnow Hh Hm) as [Hparse _].
  exact Hparse.
Defined.

(** ** The calendar *)

Lemma DayFromYear_next (y : Z) :
  JSDate.DayFromYear (y + 1) = JSDate.DayFromYear y + JSDate.DaysInYear y.
Proof.
  unfold JSDate.DayFromYear, JSDate.DaysInYear.
  destruct (Z.eqb_spec (y mod 4) 0), (Z.eqb_spec (y mod 100) 0),
    (Z.eqb_spec (y mod 400) 0); simpl; Z.div_mod_to_equations; lia.
Qed.

(** [YearFromDay d] is the year that contains day [d]. *)
Lemma YearFromDay_spec (d : Z) :
  JSDate.DayFromYear (JSDate.YearFromDay d) <= d
  < JSDate.DayFromYear (JSDate.YearFromDay d + 1).
Proof.
  unfold JSDate.YearFromDay.
  set (y0 := 1970 + 400 * d / 146097).
  assert (Hlo : JSDate.DayFromYear (y0 - 1) <= d)
    by (subst y0; unfold JSDate.DayFromYear; Z.div_mod_to_equations; lia).
  assert (Hhi : d < JSDate.DayFromYear (y0 + 1 + 1))
    by (subst y0; unfold JSDate.DayFromYear; Z.div_mod_to_equations; lia).
  destruct (Z.leb_spec (JSDate.DayFromYear (y0 + 1)) d).
  - split; assumption.
  - destruct (Z.leb_spec (JSDate.DayFromYear y0) d).
    + split; assumption.
    + replace (y0 - 1 + 1) with y0 by lia. split; assumption.
Qed.

Lemma YearFromDay_lower (d : Z) : -1 <= d -> 1968 <= JSDate.YearFromDay d.
Proof.
  intros Hd. unfold JSDate.YearFromDay.
  assert (1969 <= 1970 + 400 * d / 146097) by (Z.div_mod_to_equations; lia).
  destruct (_ <=? d); [lia|]. destruct (_ <=? d); lia.
Qed.

Lemma monthOfYearDay_range (leap d : Z) : 0 <= JSDate.monthOfYearDay leap d <= 11.
Proof.
  unfold JSDate.monthOfYearDay.
  repeat (destruct (_ <? _); [lia|]). lia.
Qed.

Lemma DayWithinYear_range (t : Z) :
  0 <= JSDate.DayWithinYear t < JSDate.DaysInYear (JSDate.YearFromTime t).
Proof.
  unfold JSDate.DayWithinYear, JSDate.YearFromTime.
  pose proof (YearFromDay_spec (JSDate.Day t)) as H.
  rewrite DayFromYear_next in H. lia.
Qed.

(** The day of the month is a day of that month's first 31. *)
Lemma DateFromTime_range (t : Z) : 1 <= JSDate.DateFromTime t <= 31.
Proof.
  unfold JSDate.DateFromTime, JSDate.MonthFromTime, JSDate.InLeapYear.
  pose proof (DayWithinYear_range t) as H.
  set (d := JSDate.DayWithinYear t) in *.
  assert (Hy : JSDate.DaysInYear (JSDate.YearFromTime t) = 365
               \/ JSDate.DaysInYear (JSDate.YearFromTime t) = 366).
  { unfold JSDate.DaysInYear. repeat (destruct (negb _); [tauto|]). tauto. }
  destruct Hy as [Hy|Hy]; rewrite Hy in *; unfold JSDate.monthOfYearDay;
    repeat (match goal with
            | |- context [?a <? ?b] => destruct (Z.ltb_spec a b)
            end; [simpl; lia|]); simpl; lia.
Qed.

(** Rebuilding the day number from the calendar fields of a local
    time, the day of the month shifted by [k]. *)
Lemma MakeDay_fields (lt k : Z) :
  - JSDate.msPerDay <= lt ->
  JSDate.MakeDay (JSDate.MakeFullYear (JSDate.YearFromTime lt))
    (JSDate.MonthFromTime lt) (JSDate.DateFromTime lt + k)
  = JSDate.Day lt + k.
Proof.
  intros Hlt.
  assert (Hday : -1 <= JSDate.Day lt)
    by (unfold JSDate.Day, JSDate.msPerDay in *; Z.div_mod_to_equations; lia).
  pose proof (YearFromDay_lower _ Hday) as Hy.
  unfold JSDate.MakeFullYear. fold (JSDate.YearFromTime lt) in Hy.
  replace (JSDate.YearFromTime lt <=? 99) with false
    by (symmetry; apply Z.leb_gt; lia).
  rewrite andb_false_r.
  unfold JSDate.MakeDay, JSDate.DateFromTime, JSDate.DayWithinYear.
  pose proof (monthOfYearDay_range (JSDate.InLeapYear (JSDate.YearFromTime lt))
                (JSDate.DayWithinYear lt)) as Hm.
  fold (JSDate.MonthFromTime lt) in Hm.
  rewrite (Z.div_small (JSDate.MonthFromTime lt) 12) by lia.
  rewrite (Z.mod_small (JSDate.MonthFromTime lt) 12) by lia.
  rewrite Z.add_0_r. lia.
Qed.

Lemma MakeDate_local (tza day time : Z) :
  0 <= time < JSDate.msPerDay ->
  let u := JSDate.UTC tza (JSDate.MakeDate day time) in
  JSDate.Day (JSDate.LocalTime tza u) = day
  /\ JSDate.TimeWithinDay (JSDate.LocalTime tza u) = time.
Proof.
  intros Ht u. subst u.
  unfold JSDate.LocalTime, JSDate.UTC, JSDate.MakeDate, JSDate.Day,
    JSDate.TimeWithinDay, JSDate.msPerDay in *.
  replace (day * 86400000 + time - tza + tza) with (time + day * 86400000) by lia.
  rewrite Z.div_add, Z.mod_add by lia.
  rewrite Z.div_small, Z.mod_small by lia. lia.
Qed.

Lemma Day_bounds (t : Z) :
  JSDate.Day t * JSDate.msPerDay <= t < JSDate.Day t * JSDate.msPerDay + JSDate.msPerDay.
Proof.
  unfold JSDate.Day, JSDate.msPerDay. Z.div_mod_to_equations. lia.
Qed.

(** [new Date(y, m, d + k, h, 0, 0)] built from the local fields of
    the clock: hour [h] of the local day [k] days later. *)
Lemma newDateLocal_fields (tza now k h : Z) :
  Observe.clockOk now -> Observe.zoneOk tza -> 0 <= k <= 1 -> 0 <= h < 24 ->
  JSDate.newDateLocal tza (JSDate.getFullYear tza now) (JSDate.getMonth tza now)
    (JSDate.getDate tza now + k) h 0 0
  = Some (JSDate.UTC tza
            (JSDate.MakeDate (JSDate.Day (JSDate.LocalTime tza now) + k)
               (h * JSDate.msPerHour))).
Proof.
  intros Hc Hz Hk Hh. unfold JSDate.newDateLocal, JSDate.getFullYear,
    JSDate.getMonth, JSDate.getDate.
  unfold Observe.clockOk, Observe.zoneOk in *.
  rewrite MakeDay_fields
    by (unfold JSDate.LocalTime, JSDate.msPerDay in *; lia).
  replace (JSDate.MakeTime h 0 0 0) with (h * JSDate.msPerHour)
    by (unfold JSDate.MakeTime; lia).
  apply TimeClip_in.
  pose proof (Day_bounds (JSDate.LocalTime tza now)) as Hd.
  unfold JSDate.UTC, JSDate.MakeDate, JSDate.LocalTime, JSDate.msPerDay,
    JSDate.msPerHour, JSDate.maxTime in *. lia.
Qed.

Lemma setHours_nine (tza t : Z) :
  0 <= t < 253402300800000 + 7 * JSDate.msPerDay -> Observe.zoneOk tza ->
  JSDate.setHours tza t 9 0 0 0
  = Some (JSDate.UTC tza
            (JSDate.MakeDate (JSDate.Day (JSDate.LocalTime tza t))
               (9 * JSDate.msPerHour))).
Proof.
  intros Ht Hz. unfold JSDate.setHours. unfold Observe.zoneOk in Hz.
  replace (JSDate.MakeTime 9 0 0 0) with (9 * JSDate.msPerHour) by reflexivity.
  apply TimeClip_in.
  pose proof (Day_bounds (JSDate.LocalTime tza t)) as Hd.
  unfold JSDate.UTC, JSDate.MakeDate, JSDate.LocalTime, JSDate.msPerDay,
    JSDate.msPerHour, JSDate.maxTime in *. lia.
Qed.

(** The defaults of the keywords, which apply when the primary grammar
    finds nothing and no "in N unit" phrase is present: the title is
    the trimmed input, and an input containing "tomorrow" gets a due
    instant at 09:00 local time on the next local calendar day; one
    containing "today" (and not "tomorrow") gets 17:00 local time on
    the same local day; one containing "next week" (and neither of the
    others) gets 09:00 local time on the local day of the clock plus
    seven days. *)
Lemma parseInputLocal_keywords (tza : Z)
  (chrono_parse : string -> Z -> completion (list Parser.ParsedResult))
  (zonedTimeToUtc : Z -> completion JSDate.Date) (isoString : Z -> string)
  (input : string) (now : Z) :
  Observe.clockOk now -> Observe.zoneOk tza ->
  chrono_parse (Text.trim input) now = Normal [] ->
  Text.matchInTime false (Text.toLowerCase (Text.trim input)) = None ->
  let lower := Text.toLowerCase (Text.trim input) in
  let parsed := Parser.parseInputLocal tza chrono_parse zonedTimeToUtc isoString input now in
  let localDay t := JSDate.Day (JSDate.LocalTime tza t) in
  let localTime t := JSDate.TimeWithinDay (JSDate.LocalTime tza t) in
  (Text.includes lower "tomorrow" = true ->
     exists u, parsed = Normal {| Parser.title := Text.trim input;
                                  Parser.dueDate := JStr (isoString u) |}
               /\ localDay u = localDay now + 1
               /\ localTime u = 9 * JSDate.msPerHour)
  /\ (Text.includes lower "tomorrow" = false ->
       Text.includes lower "today" = true ->
       exists u, parsed = Normal {| Parser.title := Text.trim input;
                                    Parser.dueDate := JStr (isoString u) |}
                 /\ localDay u = localDay now
                 /\ localTime u = 17 * JSDate.msPerHour)
  /\ (Text.includes lower "tomorrow" = false ->
       Text.includes lower "today" = false ->
       Text.includes lower "next week" = true ->
       exists u, parsed = Normal {| Parser.title := Text.trim input;
                                    Parser.dueDate := JStr (isoString u) |}
                 /\ localDay u = localDay (now + 7 * JSDate.msPerDay)
                 /\ localTime u = 9 * JSDate.msPerHour).
Proof.
  intros Hclock Hzone Hc Hm lower parsed localDay localTime.
  assert (Hparsed : parsed
    = Normal (snd (Parser.heuristicBranch tza isoString now
                     {| Parser.title := Text.trim input; Parser.dueDate := JNull |})))
    by (apply parseInputLocal_heuristics; exact Hc).
  unfold Parser.heuristicBranch in Hparsed. unfold Parser.bind at 1 in Hparsed.
  unfold Parser.getTitle at 1 in Hparsed. cbn [Parser.title] in Hparsed.
  rewrite Hm in Hparsed. fold lower in Hparsed.
  assert (H9 : 0 <= 9 * JSDate.msPerHour < JSDate.msPerDay)
    by (unfold JSDate.msPerHour, JSDate.msPerDay; lia).
  assert (H17 : 0 <= 17 * JSDate.msPerHour < JSDate.msPerDay)
    by (unfold JSDate.msPerHour, JSDate.msPerDay; lia).
  split; [|split].
  - intros Htom. rewrite Htom in Hparsed.
    rewrite (newDateLocal_fields tza now 1 9 Hclock Hzone) in Hparsed by lia.
    eexists. split; [exact Hparsed|].
    exact (MakeDate_local tza (JSDate.Day (JSDate.LocalTime tza now) + 1) _ H9).
  - intros Htom Htod. rewrite Htom, Htod in Hparsed.
    replace (JSDate.getDate tza now) with (JSDate.getDate tza now + 0) in Hparsed by lia.
    rewrite (newDateLocal_fields tza now 0 17 Hclock Hzone) in Hparsed by lia.
    eexists. split; [exact Hparsed|].
    destruct (MakeDate_local tza (JSDate.Day (JSDate.LocalTime tza now) + 0) _ H17)
      as [Hd Ht].
    split; [|exact Ht]. subst localDay. cbv beta. rewrite Hd. lia.
  - intros Htom Htod Hnw. rewrite Htom, Htod, Hnw in Hparsed.
    unfold Observe.clockOk in Hclock.
    replace (7 * 24 * 60 * 60 * 1000) with (7 * JSDate.msPerDay) in Hparsed by reflexivity.
    rewrite TimeClip_in in Hparsed
      by (unfold JSDate.maxTime, JSDate.msPerDay; lia).
    rewrite setHours_nine in Hparsed
      by (assumption || (unfold JSDate.msPerDay; lia)).
    eexists. split; [exact Hparsed|].
    exact (MakeDate_local tza _ _ H9).
Qed.




(** C4. The heuristics for "tomorrow", "today" and "next week" do not
    strip their phrase: on texts in which the primary grammar finds
    nothing, because the keyword is glued to other letters, the due
    date is set and the title is the whole input. The primary branch,
    on a text in which it finds the word, takes it out of the title. *)
Theorem C4_heuristics_keep_phrase (tza : Z)
  (chrono_parse : string -> Z -> completion (list Parser.ParsedResult))
  (zonedTimeToUtc : Z -> completion JSDate.Date) (isoString : Z -> string)
  (now : Z) :
  Observe.clockOk now -> Observe.zoneOk tza ->
  chrono_parse "Plan tomorrows standup" now = Normal [] ->
  chrono_parse "Send todays report" now = Normal [] ->
  chrono_parse "Join next weekly sync" now = Normal [] ->
  let parse := Parser.parseInputLocal tza chrono_parse zonedTimeToUtc isoString in
  (exists u, parse "Plan tomorrows standup" now
             = Normal {| Parser.title := "Plan tomorrows standup";
                         Parser.dueDate := JStr (isoString u) |})
  /\ (exists u, parse "Send todays report" now
                = Normal {| Parser.title := "Send todays report";
                            Parser.dueDate := JStr (isoString u) |})
  /\ (exists u, parse "Join next weekly sync" now
                = Normal {| Parser.title := "Join next weekly sync";
                            Parser.dueDate := JStr (isoString u) |})
  /\ (forall dt utc,
        chrono_parse "Plan tomorrow standup" now
        = Normal [{| Parser.text := "tomorrow"; Parser.start_date := Some (Some dt) |}] ->
        zonedTimeToUtc dt = Normal (Some utc) ->
        parse "Plan tomorrow standup" now
        = Normal {| Parser.title := "Plan standup";
                    Parser.dueDate := JStr (isoString utc) |}).
Proof.
  intros Hclock Hzone Htom Htod Hnw parse. subst parse.
  split; [|split; [|split]].
  - destruct (parseInputLocal_keywords tza chrono_parse zonedTimeToUtc isoString
                "Plan tomorrows standup" now Hclock Hzone Htom
                ltac:(vm_compute; reflexivity)) as [H _].
    destruct (H ltac:(vm_compute; reflexivity)) as (u & Hu & _).
    exists u. exact Hu.
  - destruct (parseInputLocal_keywords tza chrono_parse zonedTimeToUtc isoString
                "Send todays report" now Hclock Hzone Htod
                ltac:(vm_compute; reflexivity)) as (_ & H & _).
    destruct (H ltac:(vm_compute; reflexivity) ltac:(vm_compute; reflexivity))
      as (u & Hu & _).
    exists u. exact Hu.
  - destruct (parseInputLocal_keywords tza chrono_parse zonedTimeToUtc isoString
                "Join next weekly sync" now Hclock Hzone Hnw
                ltac:(vm_compute; reflexivity)) as (_ & _ & H).
    destruct (H ltac:(vm_compute; reflexivity) ltac:(vm_compute; reflexivity)
                ltac:(vm_compute; reflexivity)) as (u & Hu & _).
    exists u. exact Hu.
  - intros dt utc Hc Hz.
    rewrite (parseInputLocal_chrono tza chrono_parse zonedTimeToUtc isoString
               "Plan tomorrow standup" now _ _ dt utc Hc eq_refl Hz).
    vm_compute. reflexivity.
Qed.

Lemma C4_heuristics_keep_phrase_witness :
  Observe.clockOk Demo.noon /\ Observe.zoneOk Demo.tza
  /\ Demo.chrono "Plan tomorrows standup" Demo.noon = Normal []
  /\ Demo.chrono "Send todays report" Demo.noon = Normal []
  /\ Demo.chrono "Join next weekly sync" Demo.noon = Normal []
  /\ (exists u, Demo.parseInputLocal "Plan tomorrows standup" Demo.noon
                = Normal {| Parser.title := "Plan tomorrows standup";
                            Parser.dueDate := JStr (Demo.isoString u) |})
  /\ Demo.parseInputLocal "Plan tomorrow standup" Demo.noon
     = Normal {| Parser.title := "Plan standup";
                 Parser.dueDate := JStr (Demo.isoString (Demo.noon + JSDate.msPerDay)) |}.
Proof.
  assert (Hclock : Observe.clockOk Demo.noon)
    by (unfold Observe.clockOk, Demo.noon; lia).
  assert (Hzone : Observe.zoneOk Demo.tza)
    by (unfold Observe.zoneOk, Demo.tza, JSDate.msPerDay; lia).
  assert (Htom : Demo.chrono "Plan tomorrows standup" Demo.noon = Normal [])
    by (vm_compute; reflexivity).
  assert (Htod : Demo.chrono "Send todays report" Demo.noon = Normal [])
    by (vm_compute; reflexivity).
  assert (Hnw : Demo.chrono "Join next weekly sync" Demo.noon = Normal [])
    by (vm_compute; reflexivity).
  split; [exact Hclock|]. split; [exact Hzone|]. split; [exact Htom|].
  split; [exact Htod|]. split; [exact Hnw|].
  destruct (C4_heuristics_keep_phrase Demo.tza Demo.chrono Demo.zonedTimeToUtc
              Demo.isoString Demo.noon Hclock Hzone Htom Htod Hnw)
    as (Hkeep & _ & _ & Hstrip).
  split; [exact Hkeep|].
  exact (Hstrip (Demo.noon + JSDate.msPerDay) (Demo.noon + JSDate.msPerDay)
           ltac:(vm_compute; reflexivity) eq_refl).
Defined.

(** ** Rescheduling and firing *)

Section Rescheduling.

Import Scheduler Observe.

Variable dateParse : string -> JSDate.Date.
Variable transporter : bool.
Variable DEFAULT_NOTIFY_EMAIL : jsval.
Variable vapid : bool.
Variable sendMail : jsval -> Task -> bool.
Variable sendNotification : Subscription -> Task -> bool.

Local Abbreviation step :=
  (Scheduler.step transporter DEFAULT_NOTIFY_EMAIL vapid sendMail sendNotification).
Local Abbreviation steps :=
  (Scheduler.steps transporter DEFAULT_NOTIFY_EMAIL vapid sendMail sendNotification).
Local Abbreviation sendReminder :=
  (Scheduler.sendReminder transporter DEFAULT_NOTIFY_EMAIL vapid sendMail sendNotification).

(** After a cancel no timer is armed for the task. *)
Lemma cancelReminder_armedFor (taskId : string) (s : State) :
  tracked taskId s -> armedFor taskId (cancelReminder taskId s) = ∅.
Proof.
  intros Htr. unfold armedFor. apply map_empty. intros h.
  apply map_lookup_filter_None. right. intros tm Hh Hid. simpl in Hid.
  unfold cancelReminder in Hh.
  destruct (reminders s !! taskId) as [existing|] eqn:Hex; simpl in Hh.
  - destruct (decide (h = existing)) as [->|Hne].
    + rewrite lookup_delete_eq in Hh. discriminate.
    + rewrite lookup_delete_ne in Hh by congruence.
      pose proof (Htr h tm Hh Hid) as Hrec. congruence.
  - pose proof (Htr h tm Hh Hid) as Hrec. congruence.
Qed.

Lemma cancelReminder_fresh (taskId : string) (s : State) :
  fresh s -> fresh (cancelReminder taskId s)
             /\ nextHandle (cancelReminder taskId s) = nextHandle s
             /\ log (cancelReminder taskId s) = log s.
Proof using Type.
  intros Hf. unfold cancelReminder.
  destruct (reminders s !! taskId) as [existing|]; simpl.
  - split; [|split; reflexivity]. intros h Hh. simpl in Hh |- *.
    destruct (decide (h = existing)) as [->|Hne].
    + apply lookup_delete_eq.
    + rewrite lookup_delete_ne by congruence. apply Hf. exact Hh.
  - split; [exact Hf | split; reflexivity].
Qed.

(** A reschedule of an eligible task leaves exactly one timer armed
    for it, the new one, recorded under a new handle. *)
Lemma reschedule_armedFor (task : Task) (now due : Z) (s : State) :
  eligible dateParse task now due -> tracked (id task) s -> fresh s ->
  let s' := scheduleReminder dateParse task true now s in
  exists tm, tm_task tm = task /\ tm_due tm = due
    /\ armedFor (id task) s' = {[ nextHandle s := tm ]}
    /\ timers s' = <[nextHandle s := tm]> (timers (cancelReminder (id task) s))
    /\ reminders s' !! id task = Some (nextHandle s)
    /\ nextHandle s' = S (nextHandle s)
    /\ log s' = log s
    /\ tracked (id task) s' /\ fresh s'.
Proof using Type.
  intros (Hc & Ht & Hd & Hnow & Hfut) Htr Hf s'. subst s'.
  rewrite (scheduleReminder_future dateParse task true now due s) by assumption.
  unfold afterCancel.
  destruct (cancelReminder_fresh (id task) s Hf) as (Hf1 & Hn1 & Hl1).
  pose proof (cancelReminder_armedFor (id task) s Htr) as Ha1.
  set (s1 := cancelReminder (id task) s) in Hf1, Hn1, Hl1, Ha1 |- *. rewrite Hn1.
  exists {| tm_task := task; tm_due := due;
            tm_delay := Some (Z.max 0 (if due - 3600000 - now <=? 0 then 5000
                                       else Z.min (due - 3600000 - now) MAX_DELAY)) |}.
  split; [reflexivity|]. split; [reflexivity|].
  unfold armedFor in Ha1 |- *. simpl.
  split; [|split; [reflexivity|]].
  { rewrite map_filter_insert_True by reflexivity. rewrite Ha1. apply insert_empty. }
  split; [apply lookup_insert_eq|]. split; [reflexivity|]. split; [exact Hl1|].
  split.
  - intros h tm Hh Hid. simpl in Hh, Hid |- *.
    destruct (decide (h = nextHandle s)) as [->|Hne].
    + apply lookup_insert_eq.
    + rewrite lookup_insert_ne in Hh by congruence.
      assert (Hin : filter (fun p => id (tm_task p.2) = id task) (timers s1) !! h = Some tm)
        by (apply map_lookup_filter_Some; split; assumption).
      rewrite Ha1, lookup_empty in Hin. discriminate.
  - intros h Hh. simpl in Hh |- *.
    rewrite lookup_insert_ne by lia. apply Hf1. rewrite Hn1. lia.
Qed.

(** [sendReminder] enters once, for its own task, and leaves the
    timers alone. *)
Lemma sendReminder_timers (task : Task) (due : Z) (s : State) :
  timers (sendReminder task due s) = timers s
  /\ finishing (sendReminder task due s) = finishing s
  /\ reminders (sendReminder task due s) = reminders s.
Proof.
  unfold Scheduler.sendReminder.
  destruct (transporter && truthy _); simpl;
    destruct (vapid && _); simpl; try tauto;
    destruct (pushLoop _ _ _ _); simpl; tauto.
Qed.

Lemma filter_isReminderOf_push (taskId : string) (task : Task)
  (l : list Subscription) :
  List.filter (isReminderOf taskId)
    (List.map (fun sub => Push sub (id task) (sendNotification sub task)) l) = [].
Proof. induction l; simpl; [reflexivity | assumption]. Qed.

Lemma sendReminder_fires (taskId : string) (task : Task) (due : Z) (s : State) :
  firesOf taskId (sendReminder task due s)
  = (firesOf taskId s + if String.eqb (id task) taskId then 1 else 0)%nat.
Proof.
  unfold firesOf, Scheduler.sendReminder.
  destruct (transporter && truthy _); simpl;
    destruct (vapid && _); simpl;
    rewrite ?pushLoop_spec; simpl;
    rewrite ?List.filter_app, ?filter_isReminderOf_push; simpl;
    destruct (String.eqb (id task) taskId); simpl;
    rewrite ?List.length_app; simpl; lia.
Qed.

(** A step moves a timer of the task from "armed" to "fired", or
    leaves both counts as they are. *)
Lemma step_conserves (taskId : string) (s s' : State) :
  step s s' ->
  (firesOf taskId s' + size (armedFor taskId s')
   = firesOf taskId s + size (armedFor taskId s))%nat.
Proof.
  intros Hstep. destruct Hstep as [s h tm Hh | s before after tid Hfin].
  - unfold callbackStart, armedFor.
    set (s1 := withTimers (delete h (timers s)) s).
    destruct (sendReminder_timers (tm_task tm) (tm_due tm) s1) as (Ht & _ & _).
    unfold firesOf at 1. simpl. fold (firesOf taskId (sendReminder (tm_task tm) (tm_due tm) s1)).
    rewrite Ht, sendReminder_fires. subst s1. simpl.
    change (firesOf taskId (withTimers (delete h (timers s)) s)) with (firesOf taskId s).
    rewrite map_filter_delete.
    destruct (String.eqb_spec (id (tm_task tm)) taskId) as [Heq|Hne].
    + assert (Hin : filter (fun p => id (tm_task p.2) = taskId) (timers s) !! h = Some tm)
        by (apply map_lookup_filter_Some; split; [exact Hh | exact Heq]).
      rewrite map_size_delete_Some by (eexists; exact Hin).
      pose proof (map_size_ne_0_lookup_2 _ h (ex_intro _ tm Hin)). lia.
    + rewrite delete_id; [lia|].
      apply map_lookup_filter_None. right. intros x Hx. simpl.
      rewrite Hh in Hx. injection Hx as <-. exact Hne.
  - reflexivity.
Qed.

Lemma steps_conserve (taskId : string) (s s' : State) :
  steps s s' ->
  (firesOf taskId s' + size (armedFor taskId s')
   = firesOf taskId s + size (armedFor taskId s))%nat.
Proof.
  induction 1 as [s | s s' s'' Hstep _ IH]; [reflexivity|].
  rewrite IH. apply step_conserves. exact Hstep.
Qed.

End Rescheduling.

(** What the code achieves when the two calls follow each other with no
    turn of the event loop between them. Two calls of
    [scheduleReminder(task, true)] in a row for the same eligible
    task, from a state in which the task's armed timer, if any, is the
    recorded one: the second call clears the timer of the first, so
    that one timer is armed for the task, the one of the second call,
    recorded in [reminders]; in every run of the timers the fires for
    the task and the timers still armed for it add up to one more than
    the fires so far, hence at most one fire, and exactly one once no
    timer of the task is armed; and that fire can happen. *)
Lemma reschedule_twice_in_a_row
  (dateParse : string -> JSDate.Date) (transporter : bool)
  (DEFAULT_NOTIFY_EMAIL : jsval) (vapid : bool)
  (sendMail : jsval -> Scheduler.Task -> bool)
  (sendNotification : Scheduler.Subscription -> Scheduler.Task -> bool)
  (task1 task2 : Scheduler.Task) (now1 now2 due1 due2 : Z) (s0 : Scheduler.State) :
  Scheduler.id task1 = Scheduler.id task2 ->
  Observe.eligible dateParse task1 now1 due1 ->
  Observe.eligible dateParse task2 now2 due2 ->
  Observe.tracked (Scheduler.id task1) s0 ->
  Observe.fresh s0 ->
  let taskId := Scheduler.id task2 in
  let s1 := Scheduler.scheduleReminder dateParse task1 true now1 s0 in
  let s2 := Scheduler.scheduleReminder dateParse task2 true now2 s1 in
  let h1 := Scheduler.nextHandle s0 in
  let h2 := S (Scheduler.nextHandle s0) in
  let step := Scheduler.step transporter DEFAULT_NOTIFY_EMAIL vapid sendMail sendNotification in
  let steps := Scheduler.steps transporter DEFAULT_NOTIFY_EMAIL vapid sendMail sendNotification in
  Scheduler.reminders s1 !! taskId = Some h1
  /\ is_Some (Scheduler.timers s1 !! h1)
  /\ Scheduler.timers s2 !! h1 = None
  /\ Scheduler.reminders s2 !! taskId = Some h2
  /\ (exists tm, Scheduler.armedFor taskId s2 = {[ h2 := tm ]}
                 /\ Scheduler.tm_task tm = task2 /\ Scheduler.tm_due tm = due2)
  /\ (forall s', steps s2 s' ->
         (Scheduler.firesOf taskId s' + size (Scheduler.armedFor taskId s')
          = Scheduler.firesOf taskId s2 + 1)%nat)
  /\ (exists s', step s2 s'
                 /\ Scheduler.firesOf taskId s' = S (Scheduler.firesOf taskId s2)).
Proof.
  intros Hid He1 He2 Htr Hf taskId s1 s2 h1 h2 step steps.
  destruct (reschedule_armedFor dateParse task1 now1 due1 s0 He1 Htr Hf)
    as (tm1 & _ & _ & Ha1 & Ht1 & Hr1 & Hn1 & _ & Htr1 & Hf1).
  fold s1 in Ha1, Ht1, Hr1, Hn1, Htr1, Hf1.
  rewrite Hid in Htr1, Hr1.
  destruct (reschedule_armedFor dateParse task2 now2 due2 s1 He2 Htr1 Hf1)
    as (tm2 & Htask2 & Hdue2 & Ha2 & Ht2 & Hr2 & Hn2 & _ & Htr2 & Hf2).
  fold s2 in Ha2, Ht2, Hr2, Hn2, Htr2, Hf2. rewrite Hn1 in Ha2, Ht2, Hr2.
  fold taskId in Hr1, Hr2, Ha2. fold h1 in Hr1. fold h2 in Hr2, Ha2, Ht2.
  split; [exact Hr1|]. split.
  { rewrite Ht1. fold h1. rewrite lookup_insert_eq. eexists. reflexivity. }
  split.
  { rewrite Ht2. rewrite lookup_insert_ne by (subst h1 h2; lia).
    unfold Scheduler.cancelReminder. fold taskId. rewrite Hr1. simpl.
    apply lookup_delete_eq. }
  split; [exact Hr2|]. split.
  { exists tm2. split; [exact Ha2 | split; assumption]. }
  split.
  - intros s' Hrun. subst steps.
    rewrite (steps_conserve _ _ _ _ _ taskId s2 s' Hrun).
    rewrite Ha2, map_size_singleton. reflexivity.
  - assert (Harmed : Scheduler.timers s2 !! h2 = Some tm2).
    { assert (Hin : Scheduler.armedFor taskId s2 !! h2 = Some tm2)
        by (rewrite Ha2; apply lookup_singleton_eq).
      unfold Scheduler.armedFor in Hin.
      apply map_lookup_filter_Some in Hin as [Hin _]. exact Hin. }
    eexists. split.
    + subst step. apply (Scheduler.step_fire _ _ _ _ _ s2 h2 tm2 Harmed).
    + unfold Scheduler.callbackStart.
      unfold Scheduler.firesOf at 1. simpl.
      change (length (List.filter (Scheduler.isReminderOf taskId) (Scheduler.log ?x)))
        with (Scheduler.firesOf taskId x).
      rewrite sendReminder_fires, Htask2. subst taskId.
      rewrite String.eqb_refl. unfold Scheduler.firesOf. simpl. lia.
Qed.

(** C1. Two reschedules of one task give two fires when the callback
    of the task's earlier timer is under way. The timer of the task
    fires and its callback awaits the mail; the first reschedule arms
    and records a new timer; the [finally] of the callback then deletes
    the entry of the task, which by now is the entry of the new timer;
    the second reschedule therefore finds nothing to cancel and arms a
    third timer beside the second. Both are armed, both fire: the
    superseded timer delivers, and the task is reminded twice after
    the two reschedules. *)
Theorem C1_late_finally_two_fires :
  let step := Scheduler.step true (JStr "me@example.com") false
                Demo.sendMail Demo.sendNotification in
  let steps := Scheduler.steps true (JStr "me@example.com") false
                 Demo.sendMail Demo.sendNotification in
  let reschedule due now :=
    Scheduler.scheduleReminder Demo.dateParse (Demo.task due) true now in
  let s0 := Scheduler.scheduleReminder Demo.dateParse
              (Demo.task "2024-01-15T12:30:00.000Z") false Demo.noon Demo.idle in
  Observe.tracked "t1" s0 /\ Observe.fresh s0
  /\ Observe.armedDelay "t1" s0 = Some (Some 5000)
  /\ exists s1 s3 s5,
       step s0 s1
       /\ Scheduler.firesOf "t1" s1 = 1%nat
       /\ Scheduler.finishing s1 = ["t1"]
       /\ Scheduler.reminders
            (reschedule "2024-01-15T14:00:00.000Z" (Demo.noon + 5100) s1) !! "t1"
          = Some 2%nat
       /\ step (reschedule "2024-01-15T14:00:00.000Z" (Demo.noon + 5100) s1) s3
       /\ Scheduler.finishing s3 = []
       /\ Scheduler.reminders s3 !! "t1" = None
       /\ is_Some (Scheduler.timers s3 !! 2%nat)
       /\ Scheduler.reminders
            (reschedule "2024-03-15T12:00:00.000Z" (Demo.noon + 5200) s3) !! "t1"
          = Some 3%nat
       /\ size (Scheduler.armedFor "t1"
                  (reschedule "2024-03-15T12:00:00.000Z" (Demo.noon + 5200) s3))
          = 2%nat
       /\ steps (reschedule "2024-03-15T12:00:00.000Z" (Demo.noon + 5200) s3) s5
       /\ Scheduler.timers s5 = ∅
       /\ Scheduler.firesOf "t1" s5
          = S (S (Scheduler.firesOf "t1"
                    (reschedule "2024-03-15T12:00:00.000Z" (Demo.noon + 5200) s3))).
Proof.
  intros step steps reschedule s0.
  assert (Htimers : Scheduler.timers s0
            = {[ 1%nat := {| Scheduler.tm_task := Demo.task "2024-01-15T12:30:00.000Z";
                             Scheduler.tm_due := 1705321800000;
                             Scheduler.tm_delay := Some 5000 |} ]})
    by (vm_compute; reflexivity).
  assert (Hnext : Scheduler.nextHandle s0 = 2%nat) by (vm_compute; reflexivity).
  split.
  { intros h tm Hh _. rewrite Htimers in Hh.
    apply lookup_singleton_Some in Hh as [<- _]. vm_compute. reflexivity. }
  split.
  { intros h Hh. rewrite Htimers. rewrite Hnext in Hh.
    apply lookup_singleton_ne. lia. }
  split; [vm_compute; reflexivity|].
  eexists. eexists. eexists.
  split.
  { apply (Scheduler.step_fire true (JStr "me@example.com") false Demo.sendMail
             Demo.sendNotification s0 1%nat
             {| Scheduler.tm_task := Demo.task "2024-01-15T12:30:00.000Z";
                Scheduler.tm_due := 1705321800000;
                Scheduler.tm_delay := Some 5000 |}).
    vm_compute. reflexivity. }
  split; [vm_compute; reflexivity|]. split; [vm_compute; reflexivity|].
  split; [vm_compute; reflexivity|].
  split.
  { apply (Scheduler.step_finally true (JStr "me@example.com") false Demo.sendMail
             Demo.sendNotification _ [] [] "t1").
    vm_compute. reflexivity. }
  split; [vm_compute; reflexivity|]. split; [vm_compute; reflexivity|].
  split; [vm_compute; eexists; reflexivity|].
  split; [vm_compute; reflexivity|]. split; [vm_compute; reflexivity|].
  split.
  { eapply Scheduler.steps_more.
    { apply (Scheduler.step_fire true (JStr "me@example.com") false Demo.sendMail
               Demo.sendNotification _ 2%nat
               {| Scheduler.tm_task := Demo.task "2024-01-15T14:00:00.000Z";
                  Scheduler.tm_due := 1705327200000;
                  Scheduler.tm_delay := Some 3594900 |}).
      vm_compute. reflexivity. }
    eapply Scheduler.steps_more.
    { apply (Scheduler.step_finally true (JStr "me@example.com") false Demo.sendMail
               Demo.sendNotification _ [] [] "t1").
      vm_compute. reflexivity. }
    eapply Scheduler.steps_more.
    { apply (Scheduler.step_fire true (JStr "me@example.com") false Demo.sendMail
               Demo.sendNotification _ 3%nat
               {| Scheduler.tm_task := Demo.task "2024-03-15T12:00:00.000Z";
                  Scheduler.tm_due := 1710504000000;
                  Scheduler.tm_delay := Some 2147483647 |}).
      vm_compute. reflexivity. }
    eapply Scheduler.steps_more.
    { apply (Scheduler.step_finally true (JStr "me@example.com") false Demo.sendMail
               Demo.sendNotification _ [] [] "t1").
      vm_compute. reflexivity. }
    apply Scheduler.steps_refl. }
  split; vm_compute; reflexivity.
Qed.


(** * Further properties of the server *)

(** ** Cancelling *)

(** X1. [cancelReminder] on a task without entry changes nothing; in
    general it removes the entry of the task and disarms the recorded
    timer, leaves the entries of other tasks alone, and doing it twice
    is doing it once. *)
Theorem cancelReminder_spec (taskId : string) (s : Scheduler.State) :
  (Scheduler.reminders s !! taskId = None -> Scheduler.cancelReminder taskId s = s)
  /\ Scheduler.cancelReminder taskId (Scheduler.cancelReminder taskId s)
     = Scheduler.cancelReminder taskId s
  /\ Scheduler.reminders (Scheduler.cancelReminder taskId s) !! taskId = None
  /\ (forall h, Scheduler.reminders s !! taskId = Some h ->
        Scheduler.timers (Scheduler.cancelReminder taskId s) !! h = None)
  /\ (forall other, other <> taskId ->
        Scheduler.reminders (Scheduler.cancelReminder taskId s) !! other
        = Scheduler.reminders s !! other)
  /\ (forall h, Scheduler.reminders s !! taskId <> Some h ->
        Scheduler.timers (Scheduler.cancelReminder taskId s) !! h
        = Scheduler.timers s !! h).
Proof.
  assert (Hgone : Scheduler.reminders (Scheduler.cancelReminder taskId s) !! taskId = None).
  { unfold Scheduler.cancelReminder.
    destruct (Scheduler.reminders s !! taskId) eqn:E; simpl; [apply lookup_delete_eq | exact E]. }
  split; [|split; [|split; [exact Hgone|split; [|split]]]].
  - intros Hnone. unfold Scheduler.cancelReminder. rewrite Hnone. reflexivity.
  - unfold Scheduler.cancelReminder at 1. rewrite Hgone. reflexivity.
  - intros h Hh. unfold Scheduler.cancelReminder. rewrite Hh. simpl.
    apply lookup_delete_eq.
  - intros other Hne. unfold Scheduler.cancelReminder.
    destruct (Scheduler.reminders s !! taskId); simpl; [|reflexivity].
    apply lookup_delete_ne. congruence.
  - intros h Hh. unfold Scheduler.cancelReminder.
    destruct (Scheduler.reminders s !! taskId) as [existing|]; simpl; [|reflexivity].
    apply lookup_delete_ne. congruence.
Qed.

Lemma cancelReminder_spec_witness :
  Scheduler.reminders Demo.idle !! "t1" = None
  /\ Scheduler.cancelReminder "t1" Demo.idle = Demo.idle
  /\ Scheduler.reminders (Server.sched Demo.oneTask) !! "t1" = Some 1%nat
  /\ Scheduler.timers (Scheduler.cancelReminder "t1" (Server.sched Demo.oneTask)) !! 1%nat
     = None.
Proof.
  assert (H1 : Scheduler.reminders Demo.idle !! "t1" = None) by reflexivity.
  assert (H2 : Scheduler.reminders (Server.sched Demo.oneTask) !! "t1" = Some 1%nat)
    by (vm_compute; reflexivity).
  destruct (cancelReminder_spec "t1" Demo.idle) as (Habsent & _).
  destruct (cancelReminder_spec "t1" (Server.sched Demo.oneTask)) as (_ & _ & _ & Hclear & _).
  split; [exact H1|]. split; [exact (Habsent H1)|]. split; [exact H2|].
  exact (Hclear 1%nat H2).
Defined.

(** ** What fires *)

Lemma steps_fires_mono
  (transporter : bool) (DEFAULT_NOTIFY_EMAIL : jsval) (vapid : bool)
  (sendMail : jsval -> Scheduler.Task -> bool)
  (sendNotification : Scheduler.Subscription -> Scheduler.Task -> bool)
  (taskId : string) (s s' : Scheduler.State) :
  Scheduler.steps transporter DEFAULT_NOTIFY_EMAIL vapid sendMail sendNotification s s' ->
  (Scheduler.firesOf taskId s <= Scheduler.firesOf taskId s')%nat.
Proof.
  intros Hrun. induction Hrun as [s | s s1 s2 Hstep _ IH]; [lia|].
  etransitivity; [|exact IH]. clear IH.
  destruct Hstep as [s h tm Hh | s before after tid Hfin]; [|reflexivity].
  unfold Scheduler.callbackStart, Scheduler.firesOf at 2. simpl.
  change (length (List.filter (Scheduler.isReminderOf taskId) (Scheduler.log ?x)))
    with (Scheduler.firesOf taskId x).
  rewrite sendReminder_fires. unfold Scheduler.firesOf. simpl. lia.
Qed.

(** X2. Timers are the only source of reminders and each fires at most
    once: in every run of the event loop the reminders sent for a task
    are at most those sent before plus the timers armed for it, the
    timers armed for it never become more, and with no timer armed for
    the task nothing is sent for it. *)
Theorem fires_bounded_by_armed_timers
  (transporter : bool) (DEFAULT_NOTIFY_EMAIL : jsval) (vapid : bool)
  (sendMail : jsval -> Scheduler.Task -> bool)
  (sendNotification : Scheduler.Subscription -> Scheduler.Task -> bool)
  (taskId : string) (s s' : Scheduler.State) :
  Scheduler.steps transporter DEFAULT_NOTIFY_EMAIL vapid sendMail sendNotification s s' ->
  (Scheduler.firesOf taskId s'
   <= Scheduler.firesOf taskId s + size (Scheduler.armedFor taskId s))%nat
  /\ (size (Scheduler.armedFor taskId s') <= size (Scheduler.armedFor taskId s))%nat
  /\ (Scheduler.armedFor taskId s = ∅ ->
      Scheduler.firesOf taskId s' = Scheduler.firesOf taskId s).
Proof.
  intros Hrun.
  pose proof (steps_conserve _ _ _ _ _ taskId s s' Hrun) as Hc.
  pose proof (steps_fires_mono _ _ _ _ _ taskId s s' Hrun) as Hmono.
  split; [lia | split; [lia|]].
  intros Hnone. rewrite Hnone, map_size_empty in Hc. lia.
Qed.

Lemma fires_bounded_by_armed_timers_witness :
  exists s',
    Scheduler.steps false JNull false Demo.sendMail Demo.sendNotification
      (Server.sched Demo.oneTask) s'
    /\ (Scheduler.firesOf "t1" s'
        <= Scheduler.firesOf "t1" (Server.sched Demo.oneTask)
           + size (Scheduler.armedFor "t1" (Server.sched Demo.oneTask)))%nat.
Proof.
  assert (Hh : Scheduler.timers (Server.sched Demo.oneTask) !! 1%nat
               = Some (Observe2.timerOf (Demo.task "2024-01-15T14:00:00.000Z")
                         Demo.noon 1705327200000))
    by (vm_compute; reflexivity).
  eexists. 
  assert (Hrun : Scheduler.steps false JNull false Demo.sendMail Demo.sendNotification
                   (Server.sched Demo.oneTask)
                   (Scheduler.callbackStart false JNull false Demo.sendMail
                      Demo.sendNotification
                      (Observe2.timerOf (Demo.task "2024-01-15T14:00:00.000Z")
                         Demo.noon 1705327200000)
                      (Scheduler.withTimers
                         (delete 1%nat (Scheduler.timers (Server.sched Demo.oneTask)))
                         (Server.sched Demo.oneTask)))).
  { eapply Scheduler.steps_more; [|apply Scheduler.steps_refl].
    apply (Scheduler.step_fire _ _ _ _ _ _ 1%nat _ Hh). }
  split; [exact Hrun|].
  exact (proj1 (fires_bounded_by_armed_timers false JNull false Demo.sendMail
                  Demo.sendNotification "t1" _ _ Hrun)).
Defined.

(** ** The two channels of a delivery *)

Lemma filter_isPush_map (task : Scheduler.Task)
  (sendNotification : Scheduler.Subscription -> Scheduler.Task -> bool)
  (l : list Scheduler.Subscription) :
  List.filter Observe2.isPush
    (List.map (fun sub => Scheduler.Push sub (Scheduler.id task)
                            (sendNotification sub task)) l)
  = List.map (fun sub => Scheduler.Push sub (Scheduler.id task)
                           (sendNotification sub task)) l.
Proof. induction l as [|a l IH]; simpl; [reflexivity | rewrite IH; reflexivity]. Qed.

(** The log and the registry after [sendReminder]. *)
Lemma sendReminder_shape
  (transporter : bool) (DEFAULT_NOTIFY_EMAIL : jsval) (vapid : bool)
  (sendMail : jsval -> Scheduler.Task -> bool)
  (sendNotification : Scheduler.Subscription -> Scheduler.Task -> bool)
  (task : Scheduler.Task) (due : Z) (s : Scheduler.State) :
  let toEmail := jsOr (Scheduler.email task) DEFAULT_NOTIFY_EMAIL in
  let mail := if transporter && truthy toEmail
              then [Scheduler.Mail toEmail (Scheduler.id task) (sendMail toEmail task)]
              else [] in
  let pushing := vapid && negb (Nat.eqb (List.length (Scheduler.pushSubscriptions s)) 0) in
  let s' := Scheduler.sendReminder transporter DEFAULT_NOTIFY_EMAIL vapid
              sendMail sendNotification task due s in
  Scheduler.log s'
  = (Scheduler.log s ++ [Scheduler.Reminder (Scheduler.id task) due] ++ mail
     ++ (if pushing
         then List.map (fun sub => Scheduler.Push sub (Scheduler.id task)
                                     (sendNotification sub task))
                (Scheduler.pushSubscriptions s)
         else []))%list
  /\ Scheduler.pushSubscriptions s'
     = if pushing
       then List.filter
              (fun x => negb (Observe.pruned sendNotification task
                                (Scheduler.pushSubscriptions s) x))
              (Scheduler.pushSubscriptions s)
       else Scheduler.pushSubscriptions s.
Proof.
  intros toEmail mail pushing s'. subst s' pushing mail toEmail.
  unfold Scheduler.sendReminder.
  destruct (transporter && truthy _); simpl; destruct (vapid && _); simpl;
    rewrite ?pushLoop_spec; simpl; rewrite <- ?app_assoc; simpl;
    rewrite ?app_nil_r; split; reflexivity.
Qed.

(** X3. The push channel does not depend on the mail channel: whether
    a transporter is configured, which address is used and whether the
    mail is sent or fails, the same push attempts are made and the same
    subscriptions are pruned. The mail is attempted exactly when a
    transporter exists and the task's address or else the default one
    is set, and to that address. *)
Theorem push_channel_independent_of_mail
  (transporter transporter' : bool) (DEFAULT_NOTIFY_EMAIL DEFAULT_NOTIFY_EMAIL' : jsval)
  (vapid : bool) (sendMail sendMail' : jsval -> Scheduler.Task -> bool)
  (sendNotification : Scheduler.Subscription -> Scheduler.Task -> bool)
  (task : Scheduler.Task) (due : Z) (s : Scheduler.State) :
  let a := Scheduler.sendReminder transporter DEFAULT_NOTIFY_EMAIL vapid
             sendMail sendNotification task due s in
  let b := Scheduler.sendReminder transporter' DEFAULT_NOTIFY_EMAIL' vapid
             sendMail' sendNotification task due s in
  let toEmail := jsOr (Scheduler.email task) DEFAULT_NOTIFY_EMAIL in
  let isMail := fun e => match e with Scheduler.Mail _ _ _ => true | _ => false end in
  Scheduler.pushSubscriptions a = Scheduler.pushSubscriptions b
  /\ List.filter Observe2.isPush (Scheduler.log a)
     = List.filter Observe2.isPush (Scheduler.log b)
  /\ List.filter isMail (Scheduler.log a)
     = (List.filter isMail (Scheduler.log s)
        ++ (if transporter && truthy toEmail
            then [Scheduler.Mail toEmail (Scheduler.id task) (sendMail toEmail task)]
            else []))%list.
Proof.
  intros a b toEmail isMail.
  destruct (sendReminder_shape transporter DEFAULT_NOTIFY_EMAIL vapid sendMail
              sendNotification task due s) as [Hla Hpa].
  destruct (sendReminder_shape transporter' DEFAULT_NOTIFY_EMAIL' vapid sendMail'
              sendNotification task due s) as [Hlb Hpb].
  fold a in Hla, Hpa. fold b in Hlb, Hpb. cbv zeta in Hla, Hpa, Hlb, Hpb.
  split; [rewrite Hpa, Hpb; reflexivity|].
  assert (Hnomail : forall l : list Scheduler.Subscription,
            List.filter isMail
              (List.map (fun sub => Scheduler.Push sub (Scheduler.id task)
                                      (sendNotification sub task)) l) = [])
    by (induction l; simpl; congruence).
  split.
  - rewrite Hla, Hlb. rewrite !List.filter_app. f_equal. simpl.
    f_equal. destruct (transporter && _), (transporter' && _); reflexivity.
  - rewrite Hla. rewrite !List.filter_app. f_equal. simpl.
    fold toEmail.
    destruct (vapid && _); simpl; rewrite ?Hnomail, ?app_nil_r;
      destruct (transporter && truthy toEmail); reflexivity.
Qed.

(** ** The PUT route and the scheduler *)

Lemma putTask_success
  (parseInput : string -> Z -> completion Parser.ParseResult)
  (dateParse : string -> JSDate.Date)
  (i : string) (body : Server.Body) (now : Z) (st st' : Server.ServerState)
  (updated : Scheduler.Task) :
  Server.putTask parseInput dateParse i body now st
  = ({| Server.status := 200; Server.payload := Server.TaskBody updated |}, st') ->
  is_Some (Server.db st !! i)
  /\ Scheduler.id updated = i
  /\ Server.sched st'
     = Scheduler.scheduleReminder dateParse updated true now (Server.sched st)
  /\ Server.db st' = <[i := Server.rowOfTask updated]> (Server.db st).
Proof.
  unfold Server.putTask, Server.getTask.
  destruct (Server.db st !! i) as [row|] eqn:Hrow; simpl; [|discriminate].
  match goal with
  | |- context [match ?x with Normal _ => _ | Throw _ => _ end] =>
      destruct x as [[nextTitle nextDue]|e]; [|discriminate]
  end.
  match goal with
  | |- context [match ?x with Normal _ => _ | Throw _ => _ end] =>
      destruct x as [t|e]; [|discriminate]
  end.
  unfold Server.updateTask. rewrite Hrow.
  intros [= <- <-]. simpl. split; [eexists; reflexivity|]. repeat split; reflexivity.
Qed.

(** X4. A successful PUT whose resulting task is completed, or has no
    due date, or a due date that is no date, leaves the scheduler as it
    was: a reminder armed earlier for the task is not cancelled and can
    still fire. *)
Theorem put_ineligible_keeps_reminder
  (parseInput : string -> Z -> completion Parser.ParseResult)
  (dateParse : string -> JSDate.Date)
  (i : string) (body : Server.Body) (now : Z) (st st' : Server.ServerState)
  (updated : Scheduler.Task) :
  Server.putTask parseInput dateParse i body now st
  = ({| Server.status := 200; Server.payload := Server.TaskBody updated |}, st') ->
  Scheduler.completed updated = true
  \/ truthy (Scheduler.dueDate updated) = false
  \/ Scheduler.newDate dateParse (Scheduler.dueDate updated) = None ->
  Server.sched st' = Server.sched st.
Proof.
  intros Hput Hin. destruct (putTask_success _ _ _ _ _ _ _ _ Hput) as (_ & _ & -> & _).
  unfold Scheduler.scheduleReminder.
  destruct Hin as [-> | [-> | Hnone]].
  - rewrite orb_true_r. reflexivity.
  - reflexivity.
  - rewrite Hnone. destruct (_ || _); reflexivity.
Qed.

Lemma put_ineligible_keeps_reminder_witness :
  let body := {| Server.b_title := JUndefined; Server.b_dueDate := JUndefined;
                 Server.b_completed := JBool true; Server.b_email := JUndefined;
                 Server.b_input := JUndefined |} in
  exists updated st',
    Server.putTask Demo.parseInput Demo.dateParse "t1" body Demo.noon Demo.oneTask
    = ({| Server.status := 200; Server.payload := Server.TaskBody updated |}, st')
    /\ Scheduler.completed updated = true
    /\ Server.sched st' = Server.sched Demo.oneTask
    /\ Observe.armedDelay "t1" (Server.sched st') = Some (Some 3600000).
Proof.
  intros body.
  destruct (Server.putTask Demo.parseInput Demo.dateParse "t1" body Demo.noon Demo.oneTask)
    as [[code [err|updated]] st'] eqn:Hput; [vm_compute in Hput; discriminate|].
  assert (Hcode : code = 200) by (vm_compute in Hput; congruence). subst code.
  assert (Hdone : Scheduler.completed updated = true)
    by (vm_compute in Hput; inversion Hput; reflexivity).
  exists updated, st'. split; [reflexivity|]. split; [exact Hdone|].
  pose proof (put_ineligible_keeps_reminder Demo.parseInput Demo.dateParse "t1" body
                Demo.noon Demo.oneTask st' updated Hput (or_introl Hdone)) as Hsame.
  split; [exact Hsame|]. rewrite Hsame. vm_compute. reflexivity.
Defined.

(** ** Trimming *)

Lemma trimEnd_idem (s : string) : Text.trimEnd (Text.trimEnd s) = Text.trimEnd s.
Proof.
  induction s as [|c s IH]; [reflexivity|]. cbn [Text.trimEnd].
  destruct (Text.trimEnd s) as [|c' r] eqn:E.
  - destruct (Text.isWhiteSpace c) eqn:Hc; [reflexivity|].
    cbn [Text.trimEnd]. rewrite Hc. reflexivity.
  - cbn [Text.trimEnd] in IH |- *.
    destruct (Text.trimEnd r) as [|c'' r'] eqn:E'.
    + destruct (Text.isWhiteSpace c'); [discriminate|]. rewrite IH. reflexivity.
    + rewrite IH. reflexivity.
Qed.

Lemma trimStart_clean (s : string) :
  match Text.trimStart s with
  | EmptyString => True
  | String c _ => Text.isWhiteSpace c = false
  end.
Proof.
  induction s as [|c s IH]; simpl; [exact I|].
  destruct (Text.isWhiteSpace c) eqn:Hc; [exact IH | exact Hc].
Qed.

Lemma trimStart_trimEnd_clean (t : string) :
  match t with
  | EmptyString => True
  | String c _ => Text.isWhiteSpace c = false
  end ->
  Text.trimStart (Text.trimEnd t) = Text.trimEnd t.
Proof.
  destruct t as [|c t]; [reflexivity|]. intros Hc. cbn [Text.trimEnd].
  destruct (Text.trimEnd t); rewrite ?Hc; cbn [Text.trimStart]; rewrite Hc; reflexivity.
Qed.

Lemma trim_idem (s : string) : Text.trim (Text.trim s) = Text.trim s.
Proof.
  unfold Text.trim.
  rewrite (trimStart_trimEnd_clean (Text.trimStart s) (trimStart_clean s)).
  apply trimEnd_idem.
Qed.

(** ** The store *)

Lemma taskOfRow_stable (i : string) (t : Scheduler.Task) :
  Scheduler.id t = i ->
  let t' := Server.taskOfRow i (Server.rowOfTask t) in
  Scheduler.id t' = i
  /\ Scheduler.title t' = Scheduler.title t
  /\ Scheduler.completed t' = Scheduler.completed t
  /\ Server.taskOfRow i (Server.rowOfTask t') = t'
  /\ (Observe2.storable t -> t' = t).
Proof.
  intros Hid. destruct t as [ti tt td tc te]. simpl in Hid. subst ti.
  unfold Server.taskOfRow, Server.rowOfTask. simpl.
  split; [reflexivity|]. split; [reflexivity|]. split; [reflexivity|]. split.
  - f_equal.
    + apply stored_dueDate_roundtrip.
    + apply stored_email_roundtrip.
  - intros [[Hd | [sd Hd]] [He | [se [He Hne]]]]; simpl in Hd, He; subst; simpl;
      try reflexivity.
    + unfold jsOr. simpl.
      destruct (String.eqb_spec se ""); [contradiction | reflexivity].
    + unfold jsOr. simpl.
      destruct (String.eqb_spec se ""); [contradiction | reflexivity].
Qed.

(** X5. The store gives back what was put in. A task created under a
    new id, or written over a stored one, is read back with the same
    id, title and completed flag, and entirely unchanged when its
    dueDate is null or a text and its email is undefined or a
    non-empty text. Creating under an id in use fails, as does updating
    or deleting an id that is not stored; after a delete the id is
    gone. Other ids are never affected. *)
Theorem store_round_trips (t : Scheduler.Task) (d : gmap string Server.Row) :
  let i := Scheduler.id t in
  let readBack (d' : gmap string Server.Row) :=
    exists t', Server.getTask i d' = Some t'
               /\ Scheduler.id t' = i
               /\ Scheduler.title t' = Scheduler.title t
               /\ Scheduler.completed t' = Scheduler.completed t
               /\ (Observe2.storable t -> t' = t) in
  let others (d' : gmap string Server.Row) :=
    forall j, j <> i -> Server.getTask j d' = Server.getTask j d in
  (d !! i = None ->
     (exists d', Server.createTask t d = Normal d' /\ readBack d' /\ others d')
     /\ Server.updateTask i t d = Throw "Task not found"
     /\ Routes.deleteTask i d = Throw "Task not found")
  /\ (is_Some (d !! i) ->
      (exists e, Server.createTask t d = Throw e)
      /\ (exists d', Server.updateTask i t d = Normal d' /\ readBack d' /\ others d')
      /\ (exists d', Routes.deleteTask i d = Normal d'
                     /\ Server.getTask i d' = None /\ others d')).
Proof.
  intros i readBack others.
  assert (Hput : readBack (<[i := Server.rowOfTask t]> d)
                 /\ others (<[i := Server.rowOfTask t]> d)).
  { split.
    - exists (Server.taskOfRow i (Server.rowOfTask t)).
      unfold Server.getTask. rewrite lookup_insert_eq. simpl.
      destruct (taskOfRow_stable i t eq_refl) as (H1 & H2 & H3 & _ & H5).
      repeat split; assumption.
    - intros j Hj. unfold Server.getTask. rewrite lookup_insert_ne by congruence.
      reflexivity. }
  split.
  - intros Hnone. unfold Server.createTask, Server.updateTask, Routes.deleteTask.
    fold i. rewrite Hnone. split; [|split; reflexivity].
    eexists. split; [reflexivity | exact Hput].
  - intros [r Hr]. unfold Server.createTask, Server.updateTask, Routes.deleteTask.
    fold i. rewrite Hr. split; [eexists; reflexivity|]. split.
    + eexists. split; [reflexivity | exact Hput].
    + eexists. split; [reflexivity|]. split.
      * unfold Server.getTask. rewrite lookup_delete_eq. reflexivity.
      * intros j Hj. unfold Server.getTask. rewrite lookup_delete_ne by congruence.
        reflexivity.
Qed.

Lemma store_round_trips_witness :
  (∅ : gmap string Server.Row) !! "t1" = None
  /\ Observe2.storable (Demo.task "2024-01-15T14:00:00.000Z")
  /\ exists d', Server.createTask (Demo.task "2024-01-15T14:00:00.000Z") ∅ = Normal d'
                /\ Server.getTask "t1" d' = Some (Demo.task "2024-01-15T14:00:00.000Z").
Proof.
  assert (Hnone : (∅ : gmap string Server.Row) !! "t1" = None) by reflexivity.
  assert (Hst : Observe2.storable (Demo.task "2024-01-15T14:00:00.000Z")).
  { split; [right; eexists; reflexivity | left; reflexivity]. }
  split; [exact Hnone|]. split; [exact Hst|].
  destruct (store_round_trips (Demo.task "2024-01-15T14:00:00.000Z") ∅) as [Hnew _].
  destruct (Hnew Hnone) as [(d' & Hc & (t' & Hg & _ & _ & _ & Hsame) & _) _].
  exists d'. split; [exact Hc|]. rewrite (Hsame Hst) in Hg. exact Hg.
Defined.

(** ** The DELETE route *)

(** X6. DELETE of an id that is not stored answers 404 and changes
    nothing. DELETE of a stored task answers with that task, removes it
    from the store without touching the others, and cancels its
    reminder: the entry is gone and, when the task's armed timer was
    the recorded one, nothing is ever sent for the task in any later
    run of the timers. *)
Theorem deleteRoute_spec
  (transporter : bool) (DEFAULT_NOTIFY_EMAIL : jsval) (vapid : bool)
  (sendMail : jsval -> Scheduler.Task -> bool)
  (sendNotification : Scheduler.Subscription -> Scheduler.Task -> bool)
  (i : string) (st : Server.ServerState) :
  (Server.getTask i (Server.db st) = None ->
     Routes.deleteRoute i st = (Routes.ReplyError 404 "Task not found", st))
  /\ (forall existing, Server.getTask i (Server.db st) = Some existing ->
        exists st', Routes.deleteRoute i st = (Routes.ReplyDeleted existing, st')
          /\ Server.getTask i (Server.db st') = None
          /\ (forall j, j <> i -> Server.db st' !! j = Server.db st !! j)
          /\ Scheduler.reminders (Server.sched st') !! i = None
          /\ (forall j, j <> i ->
                Scheduler.reminders (Server.sched st') !! j
                = Scheduler.reminders (Server.sched st) !! j)
          /\ (Observe.tracked i (Server.sched st) ->
              forall s'',
                Scheduler.steps transporter DEFAULT_NOTIFY_EMAIL vapid sendMail
                  sendNotification (Server.sched st') s'' ->
                Scheduler.firesOf i s'' = Scheduler.firesOf i (Server.sched st'))).
Proof.
  split.
  - intros Hnone. unfold Routes.deleteRoute. rewrite Hnone. reflexivity.
  - intros existing Hget. unfold Routes.deleteRoute. rewrite Hget.
    unfold Server.getTask in Hget.
    destruct (Server.db st !! i) as [row|] eqn:Hrow; [|discriminate].
    unfold Routes.deleteTask. rewrite Hrow.
    eexists. split; [reflexivity|]. simpl.
    destruct (cancelReminder_spec i (Server.sched st)) as (_ & _ & Hgone & _ & Hother & _).
    split; [unfold Server.getTask; rewrite lookup_delete_eq; reflexivity|].
    split; [intros j Hj; apply lookup_delete_ne; congruence|].
    split; [exact Hgone|]. split; [exact Hother|].
    intros Htr s'' Hrun.
    pose proof (steps_conserve _ _ _ _ _ i _ _ Hrun) as Hc.
    pose proof (steps_fires_mono _ _ _ _ _ i _ _ Hrun) as Hm.
    rewrite (cancelReminder_armedFor i (Server.sched st) Htr), map_size_empty in Hc.
    lia.
Qed.

Lemma deleteRoute_spec_witness :
  exists st',
    Server.getTask "t1" (Server.db Demo.oneTask)
    = Some (Demo.task "2024-01-15T14:00:00.000Z")
    /\ Routes.deleteRoute "t1" Demo.oneTask
       = (Routes.ReplyDeleted (Demo.task "2024-01-15T14:00:00.000Z"), st')
    /\ Server.getTask "t1" (Server.db st') = None
    /\ Scheduler.reminders (Server.sched st') !! "t1" = None.
Proof.
  assert (Hget : Server.getTask "t1" (Server.db Demo.oneTask)
                 = Some (Demo.task "2024-01-15T14:00:00.000Z")) by reflexivity.
  destruct (deleteRoute_spec false JNull false Demo.sendMail Demo.sendNotification
              "t1" Demo.oneTask) as [_ H].
  destruct (H _ Hget) as (st' & Hdel & Hgone & _ & Hrem & _).
  exists st'. repeat split; assumption.
Defined.

(** ** The POST route *)

(** X7. Whatever the request, POST /api/tasks never changes a stored
    task; it changes the state only when it answers 200, and then it
    has stored exactly one new task, under the new id, not completed,
    with a title that is trimmed and not empty, and has called
    [scheduleReminder] for it without replace. When the body carries a
    title, the parser is not consulted. *)
Theorem postTask_spec
  (parseInput : string -> Z -> completion Parser.ParseResult)
  (dateParse : string -> JSDate.Date)
  (body : Server.Body) (uuid : string) (now : Z) (st st' : Server.ServerState)
  (resp : Server.Response) :
  Server.postTask parseInput dateParse body uuid now st = (resp, st') ->
  (forall j r, Server.db st !! j = Some r -> Server.db st' !! j = Some r)
  /\ (Server.status resp <> 200 -> st' = st)
  /\ (Server.status resp = 200 ->
      exists task, Server.payload resp = Server.TaskBody task
        /\ Scheduler.id task = uuid
        /\ Server.db st !! uuid = None
        /\ Server.db st' = <[uuid := Server.rowOfTask task]> (Server.db st)
        /\ Scheduler.completed task = false
        /\ Scheduler.title task <> ""
        /\ Text.trim (Scheduler.title task) = Scheduler.title task
        /\ Server.sched st'
           = Scheduler.scheduleReminder dateParse task false now (Server.sched st))
  /\ (truthy (Server.b_title body) = true ->
      forall parseInput',
        Server.postTask parseInput' dateParse body uuid now st = (resp, st')).
Proof.
  intros Hpost.
  assert (Hindep : truthy (Server.b_title body) = true ->
                   forall parseInput',
                     Server.postTask parseInput' dateParse body uuid now st = (resp, st')).
  { intros Ht parseInput'. rewrite <- Hpost. unfold Server.postTask.
    rewrite Ht. reflexivity. }
  unfold Server.postTask in Hpost.
  destruct (if negb (truthy (Server.b_title body)) && truthy (Server.b_input body)
            then _ else _) as [[title dueDate]|e] eqn:Hparsed.
  2:{ injection Hpost as <- <-. simpl.
      split; [auto|]. split; [reflexivity|]. split; [discriminate | exact Hindep]. }
  destruct (truthy title) eqn:Htt; simpl in Hpost.
  2:{ injection Hpost as <- <-. simpl.
      split; [auto|]. split; [reflexivity|]. split; [discriminate | exact Hindep]. }
  destruct (Server.trimValue title) as [trimmed|e] eqn:Htrim.
  2:{ injection Hpost as <- <-. simpl.
      split; [auto|]. split; [reflexivity|]. split; [discriminate | exact Hindep]. }
  destruct (String.eqb_spec trimmed "") as [Hempty|Hne].
  { injection Hpost as <- <-. simpl.
    split; [auto|]. split; [reflexivity|]. split; [discriminate | exact Hindep]. }
  unfold Server.createTask in Hpost. simpl in Hpost.
  destruct (Server.db st !! uuid) as [row|] eqn:Hrow.
  { injection Hpost as <- <-. simpl.
    split; [auto|]. split; [reflexivity|]. split; [discriminate | exact Hindep]. }
  injection Hpost as <- <-. simpl.
  split.
  { intros j r Hj. rewrite lookup_insert_ne by congruence. exact Hj. }
  split; [congruence|]. split; [|exact Hindep].
  intros _. eexists. split; [reflexivity|]. simpl.
  repeat split; try reflexivity; try assumption.
  destruct title; try discriminate. simpl in Htrim. injection Htrim as <-.
  apply trim_idem.
Qed.

Lemma postTask_spec_witness :
  let body := {| Server.b_title := JStr "  Water plants "; Server.b_dueDate := JUndefined;
                 Server.b_completed := JUndefined; Server.b_email := JUndefined;
                 Server.b_input := JStr "ignored in 2 hours" |} in
  exists resp st',
    Server.postTask Demo.parseInput Demo.dateParse body "t2" Demo.noon Demo.oneTask
    = (resp, st')
    /\ Server.status resp = 200
    /\ truthy (Server.b_title body) = true
    /\ Server.postTask Demo2.failingParser Demo.dateParse body "t2" Demo.noon Demo.oneTask
       = (resp, st')
    /\ Server.db st' !! "t1" = Server.db Demo.oneTask !! "t1".
Proof.
  intros body.
  destruct (Server.postTask Demo.parseInput Demo.dateParse body "t2" Demo.noon Demo.oneTask)
    as [resp st'] eqn:Hpost.
  assert (Hok : Server.status resp = 200)
    by (vm_compute in Hpost; inversion Hpost; reflexivity).
  assert (Ht : truthy (Server.b_title body) = true) by reflexivity.
  destruct (postTask_spec Demo.parseInput Demo.dateParse body "t2" Demo.noon
              Demo.oneTask st' resp Hpost) as (Hkeep & _ & _ & Hindep).
  exists resp, st'. split; [reflexivity|]. split; [exact Hok|]. split; [exact Ht|].
  split; [exact (Hindep Ht Demo2.failingParser)|].
  apply Hkeep. vm_compute. reflexivity.
Defined.

(** ** The PUT route and the store *)

(** X8. PUT /api/tasks/:id never creates or removes a task and never
    touches a task other than the one addressed; for an id that is not
    stored it answers 404, and whenever the answer is not 200 the state
    is as before. *)
Theorem putTask_preserves_store
  (parseInput : string -> Z -> completion Parser.ParseResult)
  (dateParse : string -> JSDate.Date)
  (i : string) (body : Server.Body) (now : Z) (st st' : Server.ServerState)
  (resp : Server.Response) :
  Server.putTask parseInput dateParse i body now st = (resp, st') ->
  (forall j, j <> i -> Server.db st' !! j = Server.db st !! j)
  /\ (is_Some (Server.db st' !! i) <-> is_Some (Server.db st !! i))
  /\ (Server.db st !! i = None ->
      resp = {| Server.status := 404; Server.payload := Server.ErrorBody "Task not found" |})
  /\ (Server.status resp <> 200 -> st' = st).
Proof.
  intros Hput. unfold Server.putTask, Server.getTask in Hput.
  destruct (Server.db st !! i) as [row|] eqn:Hrow; simpl in Hput.
  2:{ injection Hput as <- <-. rewrite Hrow.
      split; [reflexivity|]. split; [reflexivity|]. split; reflexivity. }
  match type of Hput with
  | context [match ?x with Normal _ => _ | Throw _ => _ end] =>
      destruct x as [[nextTitle nextDue]|e]
  end.
  2:{ injection Hput as <- <-. rewrite Hrow.
      split; [reflexivity|]. split; [reflexivity|]. split; [discriminate | reflexivity]. }
  match type of Hput with
  | context [match ?x with Normal _ => _ | Throw _ => _ end] =>
      destruct x as [t|e]
  end.
  2:{ injection Hput as <- <-. rewrite Hrow.
      split; [reflexivity|]. split; [reflexivity|]. split; [discriminate | reflexivity]. }
  unfold Server.updateTask in Hput. rewrite Hrow in Hput.
  injection Hput as <- <-. simpl.
  split; [intros j Hj; apply lookup_insert_ne; congruence|].
  split.
  - rewrite lookup_insert_eq. split; intros _; eexists; reflexivity.
  - split; [discriminate | congruence].
Qed.

Lemma putTask_preserves_store_witness :
  exists resp st',
    Server.putTask Demo.parseInput Demo.dateParse "nobody" (Demo.inputOnly "Buy milk")
      Demo.noon Demo.oneTask = (resp, st')
    /\ Server.db Demo.oneTask !! "nobody" = None
    /\ Server.status resp = 404 /\ st' = Demo.oneTask.
Proof.
  destruct (Server.putTask Demo.parseInput Demo.dateParse "nobody"
              (Demo.inputOnly "Buy milk") Demo.noon Demo.oneTask)
    as [resp st'] eqn:Hput.
  assert (Hnone : Server.db Demo.oneTask !! "nobody" = None) by reflexivity.
  destruct (putTask_preserves_store Demo.parseInput Demo.dateParse "nobody"
              (Demo.inputOnly "Buy milk") Demo.noon Demo.oneTask st' resp Hput)
    as (_ & _ & H404 & Hsame).
  exists resp, st'. split; [reflexivity|]. split; [exact Hnone|].
  rewrite (H404 Hnone) in Hsame |- *. split; [reflexivity|].
  apply Hsame. simpl. discriminate.
Defined.

(** ** The subscription registry *)

Lemma find_endpoint_None (e : string) (l : list Scheduler.Subscription) :
  List.find (fun x => String.eqb (Scheduler.sub_endpoint x) e) l = None <->
  ~ In e (List.map Scheduler.sub_endpoint l).
Proof.
  induction l as [|a l IH]; simpl; [tauto|].
  destruct (String.eqb_spec (Scheduler.sub_endpoint a) e) as [Heq|Hne].
  - split; [discriminate | intros H; exfalso; apply H; left; exact Heq].
  - rewrite IH. tauto.
Qed.

Lemma NoDup_snoc {A} (l : list A) (a : A) :
  List.NoDup l -> ~ In a l -> List.NoDup (l ++ [a]).
Proof.
  intros Hl Ha. induction Hl as [|x l Hx Hl IH]; simpl.
  - constructor; [tauto | constructor].
  - constructor.
    + rewrite List.in_app_iff. simpl. intros [H | [H | []]]; [tauto|].
      apply Ha. left. symmetry. exact H.
    + apply IH. intros H. apply Ha. right. exact H.
Qed.

(** X9. The subscribe route rejects a body without (or with an empty)
    endpoint with 400 and leaves the registry alone; otherwise it
    answers ok and the endpoint is registered afterwards. An endpoint
    already registered is not added again, so endpoints stay pairwise
    distinct, and so do the subscription objects when the body is a
    new object; the registry only grows, by at most one, at its end;
    and repeating the request changes nothing more. *)
Theorem subscribeRoute_spec (ref : nat) (endpoint : option string)
  (s s' : Scheduler.State) (reply : Routes.Reply) :
  Routes.subscribeRoute ref endpoint s = (reply, s') ->
  (reply = Routes.ReplyOk <-> exists e, endpoint = Some e /\ e <> "")
  /\ (reply <> Routes.ReplyOk ->
      reply = Routes.ReplyError 400 "Invalid subscription" /\ s' = s)
  /\ (forall e, endpoint = Some e -> e <> "" -> In e (Observe2.endpoints s'))
  /\ (exists more, Scheduler.pushSubscriptions s'
                   = (Scheduler.pushSubscriptions s ++ more)%list
                   /\ (List.length more <= 1)%nat)
  /\ (List.NoDup (Observe2.endpoints s) -> List.NoDup (Observe2.endpoints s'))
  /\ (List.NoDup (Observe2.refs s) -> ~ In ref (Observe2.refs s) ->
      List.NoDup (Observe2.refs s'))
  /\ (forall ref', Routes.subscribeRoute ref' endpoint s' = (reply, s')).
Proof.
  unfold Routes.subscribeRoute, Observe2.endpoints, Observe2.refs.
  destruct endpoint as [e|].
  2:{ intros [= <- <-]. split; [split; [discriminate | intros (e & He & _); discriminate]|].
      split; [tauto|]. split; [discriminate|].
      split; [exists []; rewrite app_nil_r; split; [reflexivity | simpl; lia]|].
      split; [tauto|]. split; [tauto | reflexivity]. }
  destruct (String.eqb_spec e "") as [->|Hne].
  { intros [= <- <-]. split; [split; [discriminate | intros (e & [= <-] & He); congruence]|].
    split; [tauto|]. split; [intros e [= <-] He; congruence|].
    split; [exists []; rewrite app_nil_r; split; [reflexivity | simpl; lia]|].
    split; [tauto|]. split; [tauto | reflexivity]. }
  destruct (List.find _ (Scheduler.pushSubscriptions s)) as [x|] eqn:Hfind.
  - intros [= <- <-].
    split; [split; [intros _; exists e; tauto | reflexivity]|].
    split; [congruence|]. split.
    { intros e' [= <-] _. apply List.find_some in Hfind as [Hin Heq].
      apply String.eqb_eq in Heq. subst e. apply List.in_map. exact Hin. }
    split; [exists []; rewrite app_nil_r; split; [reflexivity | simpl; lia]|].
    split; [tauto|]. split; [tauto|].
    intros ref'. rewrite Hfind. reflexivity.
  - intros [= <- <-]. simpl.
    pose proof (proj1 (find_endpoint_None e _) Hfind) as Hfresh.
    split; [split; [intros _; exists e; tauto | reflexivity]|].
    split; [congruence|]. split.
    { intros e' [= <-] _. rewrite List.map_app, List.in_app_iff. right. left. reflexivity. }
    split; [eexists; split; [reflexivity | simpl; lia]|].
    split; [intros Hnd; rewrite List.map_app; apply NoDup_snoc; assumption|].
    split; [intros Hnd Hr; rewrite List.map_app; apply NoDup_snoc; assumption|].
    intros ref'.
    assert (Hnow : List.find (fun x => String.eqb (Scheduler.sub_endpoint x) e)
                     (Scheduler.pushSubscriptions s
                      ++ [{| Scheduler.sub_ref := ref; Scheduler.sub_endpoint := e |}])
                   <> None).
    { rewrite find_endpoint_None, List.map_app, List.in_app_iff. simpl. tauto. }
    destruct (List.find _ (_ ++ _)); [reflexivity | congruence].
Qed.

Lemma subscribeRoute_spec_witness :
  let s := Scheduler.withPushSubscriptions Demo.threeSubs Demo.idle in
  exists s',
    Routes.subscribeRoute 4 (Some "https://push/d") s = (Routes.ReplyOk, s')
    /\ List.NoDup (Observe2.endpoints s)
    /\ List.NoDup (Observe2.refs s) /\ ~ In 4%nat (Observe2.refs s)
    /\ List.NoDup (Observe2.endpoints s') /\ List.NoDup (Observe2.refs s')
    /\ Routes.subscribeRoute 5 (Some "https://push/d") s' = (Routes.ReplyOk, s').
Proof.
  intros s.
  destruct (Routes.subscribeRoute 4 (Some "https://push/d") s) as [reply s'] eqn:Hsub.
  assert (Hreply : reply = Routes.ReplyOk) by (vm_compute in Hsub; congruence).
  subst reply.
  assert (He : List.NoDup (Observe2.endpoints s)).
  { repeat constructor; simpl; intuition discriminate. }
  assert (Hr : List.NoDup (Observe2.refs s)).
  { repeat constructor; simpl; intuition lia. }
  assert (Hf : ~ In 4%nat (Observe2.refs s)) by (simpl; intuition lia).
  destruct (subscribeRoute_spec 4 (Some "https://push/d") s s' Routes.ReplyOk Hsub)
    as (_ & _ & _ & _ & He' & Hr' & Hagain).
  exists s'. split; [reflexivity|]. split; [exact He|]. split; [exact Hr|].
  split; [exact Hf|]. split; [exact (He' He)|]. split; [exact (Hr' Hr Hf)|].
  exact (Hagain 5%nat).
Defined.

(** ** Parsing never fails a request *)

Lemma parseInput_total (tza : Z)
  (chrono_parse : string -> Z -> completion (list Parser.ParsedResult))
  (zonedTimeToUtc : Z -> completion JSDate.Date) (isoString : Z -> string)
  (PARSER_PROVIDER : string) (groqApiKey openai : bool)
  (groqAttempt openaiAttempt : string -> completion Parser.ParseResult)
  (input : string) (now : Z) :
  exists r, Parser.parseInput tza chrono_parse zonedTimeToUtc isoString
              PARSER_PROVIDER groqApiKey openai groqAttempt openaiAttempt input now
            = Normal r.
Proof.
  unfold Parser.parseInput, Parser.parseInputOpenAI, Parser.parseInputGroq.
  pose proof (parseInputLocal_total tza chrono_parse zonedTimeToUtc isoString input now)
    as [r Hr].
  destruct (String.eqb PARSER_PROVIDER "openai"), (String.eqb PARSER_PROVIDER "groq"),
    (String.eqb PARSER_PROVIDER "local"), groqApiKey, openai; simpl;
    try (destruct (openaiAttempt input)); try (destruct (groqAttempt input));
    rewrite ?Hr; eexists; reflexivity.
Qed.

(** X10. For a request whose [input] is absent or a text, parsing
    with the parser cascade of the server never makes the request
    fail. The parse route answers 400 when [input] is missing or empty
    and otherwise 200 with a result. POST answers 500 only when the
    title is a value other than a text or the new id is already
    stored; PUT answers 500 only when the title is neither absent nor
    a text. (An [input] that is an object is outside the statement:
    its conversion to a text happens before the [try] of the local
    parser and can throw.) *)
Theorem routes_never_fail_on_parsing (tza : Z)
  (chrono_parse : string -> Z -> completion (list Parser.ParsedResult))
  (zonedTimeToUtc : Z -> completion JSDate.Date) (isoString : Z -> string)
  (PARSER_PROVIDER : string) (groqApiKey openai : bool)
  (groqAttempt openaiAttempt : string -> completion Parser.ParseResult)
  (dateParse : string -> JSDate.Date) :
  let parse := Parser.parseInput tza chrono_parse zonedTimeToUtc isoString
                 PARSER_PROVIDER groqApiKey openai groqAttempt openaiAttempt in
  (forall input now,
     Observe2.textOrAbsent input ->
     (truthy input = false ->
        Routes.parseRoute parse input now = Routes.ReplyError 400 "input is required")
     /\ (truthy input = true ->
         exists r, Routes.parseRoute parse input now = Routes.ReplyParsed input r))
  /\ (forall body uuid now st resp st',
        Observe2.textOrAbsent (Server.b_input body) ->
        Server.postTask parse dateParse body uuid now st = (resp, st') ->
        Server.status resp = 500 ->
        (truthy (Server.b_title body) = true /\ forall t, Server.b_title body <> JStr t)
        \/ is_Some (Server.db st !! uuid))
  /\ (forall i body now st resp st',
        Observe2.textOrAbsent (Server.b_input body) ->
        Server.putTask parse dateParse i body now st = (resp, st') ->
        Server.status resp = 500 ->
        Server.b_title body <> JUndefined /\ forall t, Server.b_title body <> JStr t).
Proof.
  intros parse.
  assert (Htotal : forall x now, exists r, parse x now = Normal r)
    by (intros; apply parseInput_total).
  split; [|split].
  - intros input now _. unfold Routes.parseRoute. split; intros ->; simpl; [reflexivity|].
    destruct (Htotal (Server.toText input) now) as [r ->]. eexists. reflexivity.
  - intros body uuid now st resp st' _ Hpost H500. unfold Server.postTask in Hpost.
    destruct (truthy (Server.b_title body)) eqn:Ht; simpl in Hpost.
    + destruct (Server.b_title body) as [| |b|n|t] eqn:Hb; try discriminate;
        simpl in Hpost.
      * left. split; [reflexivity | discriminate].
      * left. split; [reflexivity | discriminate].
      * simpl in Ht. rewrite Ht in Hpost. simpl in Hpost.
        destruct (String.eqb (Text.trim t) "").
        { injection Hpost as <- <-. discriminate. }
        unfold Server.createTask in Hpost. simpl in Hpost.
        destruct (Server.db st !! uuid) as [row|] eqn:Hrow.
        { right. eexists. reflexivity. }
        injection Hpost as <- <-. discriminate.
    + destruct (truthy (Server.b_input body)); simpl in Hpost.
      * destruct (Htotal (Server.toText (Server.b_input body)) now) as [r Hr].
        rewrite Hr in Hpost. simpl in Hpost.
        destruct (String.eqb (Parser.title r) ""); simpl in Hpost.
        { injection Hpost as <- <-. discriminate. }
        destruct (String.eqb (Text.trim (Parser.title r)) "").
        { injection Hpost as <- <-. discriminate. }
        unfold Server.createTask in Hpost. simpl in Hpost.
        destruct (Server.db st !! uuid) as [row|] eqn:Hrow.
        { right. eexists. reflexivity. }
        injection Hpost as <- <-. discriminate.
      * rewrite Ht in Hpost. simpl in Hpost. injection Hpost as <- <-. discriminate.
  - intros i body now st resp st' _ Hput H500. unfold Server.putTask, Server.getTask in Hput.
    destruct (Server.db st !! i) as [row|] eqn:Hrow; simpl in Hput.
    2:{ injection Hput as <- <-. discriminate. }
    unfold Server.updateTask in Hput. rewrite Hrow in Hput.
    destruct (truthy (Server.b_input body) && negb (truthy (Server.b_title body))
              && match Server.b_dueDate body with JUndefined => true | _ => false end).
    + destruct (Htotal (Server.toText (Server.b_input body)) now) as [r Hr].
      rewrite Hr in Hput. simpl in Hput. injection Hput as <- <-. discriminate.
    + destruct (Server.b_title body) as [| |b|n|t]; simpl in Hput;
        try (injection Hput as <- <-; discriminate);
        split; discriminate.
Qed.

Lemma routes_never_fail_on_parsing_witness :
  Observe2.textOrAbsent (JStr "Call mom in 2 hours")
  /\ truthy (JStr "Call mom in 2 hours") = true
  /\ exists r, Routes.parseRoute Demo.parseInput (JStr "Call mom in 2 hours") Demo.noon
               = Routes.ReplyParsed (JStr "Call mom in 2 hours") r.
Proof.
  assert (Htext : Observe2.textOrAbsent (JStr "Call mom in 2 hours"))
    by (right; eexists; reflexivity).
  split; [exact Htext|]. split; [reflexivity|].
  destruct (routes_never_fail_on_parsing Demo.tza Demo.chrono Demo.zonedTimeToUtc
              Demo.isoString "local" false false Demo.remoteDown Demo.remoteDown
              Demo.dateParse) as [Hparse _].
  exact (proj2 (Hparse (JStr "Call mom in 2 hours") Demo.noon Htext) eq_refl).
Defined.

(** ** Start and stop *)

Section Startup.

Import Scheduler Observe Observe2.

Variable dateParse : string -> JSDate.Date.
Variable clockAt : Task -> Z.
Hypothesis clock_after_epoch : forall t, 0 <= clockAt t.

(** One turn of the loop of [startServer] for a task without entry. *)
Lemma startup_turn (task : Task) (s : State) :
  fresh s -> reminders s !! id task = None ->
  let s1 := if negb (completed task) && truthy (dueDate task)
            then scheduleReminder dateParse task true (clockAt task) s else s in
  fresh s1
  /\ (nextHandle s <= nextHandle s1)%nat
  /\ (forall taskId, taskId <> id task -> reminders s1 !! taskId = reminders s !! taskId)
  /\ (forall h, (h < nextHandle s)%nat -> timers s1 !! h = timers s !! h)
  /\ (forall h, reminders s1 !! id task = Some h -> (h < nextHandle s1)%nat)
  /\ (forall due, eligible dateParse task (clockAt task) due ->
        armedTimer (id task) s1 = Some (timerOf task (clockAt task) due))
  /\ ((forall due, ~ eligible dateParse task (clockAt task) due) ->
        reminders s1 !! id task = None).
Proof using clock_after_epoch.
  intros Hf Hnone s1.
  assert (Hcancel : cancelReminder (id task) s = s)
    by (unfold cancelReminder; rewrite Hnone; reflexivity).
  assert (Hsame : s1 = s ->
            fresh s1 /\ (nextHandle s <= nextHandle s1)%nat
            /\ (forall taskId, taskId <> id task ->
                  reminders s1 !! taskId = reminders s !! taskId)
            /\ (forall h, (h < nextHandle s)%nat -> timers s1 !! h = timers s !! h)
            /\ (forall h, reminders s1 !! id task = Some h -> (h < nextHandle s1)%nat)
            /\ reminders s1 !! id task = None).
  { intros ->. repeat split; try assumption; try reflexivity; try lia.
    intros h Hh. congruence. }
  assert (Hunarmed : s1 = s ->
            (forall due, ~ eligible dateParse task (clockAt task) due) ->
            fresh s1 /\ (nextHandle s <= nextHandle s1)%nat
            /\ (forall taskId, taskId <> id task ->
                  reminders s1 !! taskId = reminders s !! taskId)
            /\ (forall h, (h < nextHandle s)%nat -> timers s1 !! h = timers s !! h)
            /\ (forall h, reminders s1 !! id task = Some h -> (h < nextHandle s1)%nat)
            /\ (forall due, eligible dateParse task (clockAt task) due ->
                  armedTimer (id task) s1 = Some (timerOf task (clockAt task) due))
            /\ ((forall due, ~ eligible dateParse task (clockAt task) due) ->
                  reminders s1 !! id task = None)).
  { intros Hs1 Hno. destruct (Hsame Hs1) as (H1 & H2 & H3 & H4 & H5 & H6).
    split; [exact H1|]. split; [exact H2|]. split; [exact H3|]. split; [exact H4|].
    split; [exact H5|]. split; [|intros _; exact H6].
    intros due Hel. exfalso. exact (Hno due Hel). }
  destruct (completed task) eqn:Hc.
  { apply Hunarmed; [reflexivity|]. intros due (Hc' & _). congruence. }
  destruct (truthy (dueDate task)) eqn:Ht.
  2:{ apply Hunarmed; [reflexivity|]. intros due (_ & Ht' & _). congruence. }
  destruct (newDate dateParse (dueDate task)) as [due|] eqn:Hd.
  2:{ apply Hunarmed.
      - subst s1. simpl. unfold scheduleReminder. rewrite Hc, Ht, Hd. reflexivity.
      - intros due (_ & _ & Hd' & _). congruence. }
  destruct (Z.ltb_spec (clockAt task) due) as [Hfut|Hpast].
  2:{ apply Hunarmed.
      - subst s1. simpl. unfold scheduleReminder. rewrite Hc, Ht, Hd. simpl.
        replace (due <=? clockAt task) with true by (symmetry; apply Z.leb_le; lia).
        exact Hcancel.
      - intros due' (_ & _ & Hd' & Hlt). rewrite Hd in Hd'. injection Hd' as <-. lia. }
  assert (Hs1 : s1 = withReminders (<[id task := nextHandle s]> (reminders s))
                  {| reminders := reminders s;
                     timers := <[nextHandle s := timerOf task (clockAt task) due]> (timers s);
                     nextHandle := S (nextHandle s); finishing := finishing s;
                     pushSubscriptions := pushSubscriptions s; log := log s |}).
  { subst s1. simpl.
    rewrite (scheduleReminder_future dateParse task true (clockAt task) due s)
      by (assumption || apply clock_after_epoch).
    unfold afterCancel. rewrite Hcancel. reflexivity. }
  rewrite Hs1. simpl. split; [|split; [lia|split; [|split; [|split; [|split]]]]].
  - intros h Hh. simpl in Hh |- *. rewrite lookup_insert_ne by lia. apply Hf. lia.
  - intros taskId Hne. apply lookup_insert_ne. congruence.
  - intros h Hh. apply lookup_insert_ne. lia.
  - intros h. rewrite lookup_insert_eq. intros [= <-]. lia.
  - intros due' (_ & _ & Hd' & _). rewrite Hd in Hd'. injection Hd' as <-.
    unfold armedTimer. simpl. rewrite lookup_insert_eq. apply lookup_insert_eq.
  - intros Hno. exfalso. apply (Hno due). repeat split; try assumption.
    apply clock_after_epoch.
Qed.

(** The loop over tasks with distinct ids, none of which has an
    entry. *)
Lemma startup_loop (tasks : list Task) (count : nat) (s : State) :
  List.NoDup (List.map id tasks) -> fresh s ->
  (forall t, In t tasks -> reminders s !! id t = None) ->
  let r := List.fold_left
             (fun (acc : nat * State) (task : Task) =>
                if negb (completed task) && truthy (dueDate task)
                then (S (fst acc),
                      scheduleReminder dateParse task true (clockAt task) (snd acc))
                else acc) tasks (count, s) in
  fst r = (count + List.length
             (List.filter (fun t => negb (completed t) && truthy (dueDate t)) tasks))%nat
  /\ fresh (snd r)
  /\ (nextHandle s <= nextHandle (snd r))%nat
  /\ (forall taskId, ~ In taskId (List.map id tasks) ->
        reminders (snd r) !! taskId = reminders s !! taskId)
  /\ (forall h, (h < nextHandle s)%nat -> timers (snd r) !! h = timers s !! h)
  /\ (forall t, In t tasks ->
        (forall due, eligible dateParse t (clockAt t) due ->
           armedTimer (id t) (snd r) = Some (timerOf t (clockAt t) due))
        /\ ((forall due, ~ eligible dateParse t (clockAt t) due) ->
              reminders (snd r) !! id t = None)).
Proof using clock_after_epoch.
  revert count s. induction tasks as [|task tasks IH]; intros count s Hnd Hf Hnone r.
  - subst r. simpl. repeat split; try assumption; try reflexivity; try lia.
    all: intros t [].
  - inversion Hnd as [|? ? Hnotin Hnd']; subst.
    destruct (startup_turn task s Hf (Hnone task (or_introl eq_refl)))
      as (Hf1 & Hn1 & Hr1 & Ht1 & Hh1 & He1 & Hi1).
    set (s1 := if negb (completed task) && truthy (dueDate task)
               then scheduleReminder dateParse task true (clockAt task) s else s) in *.
    set (c1 := if negb (completed task) && truthy (dueDate task)
               then S count else count).
    assert (Hr : r = List.fold_left
             (fun (acc : nat * State) (task : Task) =>
                if negb (completed task) && truthy (dueDate task)
                then (S (fst acc),
                      scheduleReminder dateParse task true (clockAt task) (snd acc))
                else acc) tasks (c1, s1)).
    { subst r c1 s1. simpl. destruct (negb (completed task) && truthy (dueDate task));
        reflexivity. }
    assert (Hnone1 : forall t, In t tasks -> reminders s1 !! id t = None).
    { intros t Ht. rewrite Hr1.
      - apply Hnone. right. exact Ht.
      - intros Heq. apply Hnotin. rewrite <- Heq. apply List.in_map. exact Ht. }
    destruct (IH c1 s1 Hnd' Hf1 Hnone1) as (Hc & Hf' & Hn' & Hr' & Ht' & Hall).
    rewrite <- Hr in Hc, Hf', Hn', Hr', Ht', Hall.
    split.
    { rewrite Hc. subst c1. simpl.
      destruct (negb (completed task) && truthy (dueDate task)); simpl; lia. }
    split; [exact Hf'|]. split; [lia|]. split.
    { intros taskId Hnot. simpl in Hnot. rewrite Hr' by tauto. apply Hr1.
      intros Heq. apply Hnot. left. congruence. }
    split.
    { intros h Hh. rewrite Ht' by lia. apply Ht1. exact Hh. }
    intros t [<- | Hin]; [|apply Hall; exact Hin].
    assert (Hkeep : reminders (snd r) !! id task = reminders s1 !! id task)
      by (apply Hr'; exact Hnotin).
    split.
    + intros due Hel. pose proof (He1 due Hel) as Harmed.
      unfold armedTimer in Harmed |- *. rewrite Hkeep.
      destruct (reminders s1 !! id task) as [h|] eqn:Hh; [|discriminate].
      rewrite Ht' by (apply Hh1; reflexivity). exact Harmed.
    + intros Hno. rewrite Hkeep. apply Hi1. exact Hno.
Qed.

End Startup.

(** X11. Start-up re-derives the reminders. From a state without
    entries, the loop of [startServer] over tasks with distinct ids
    leaves, for every task that is not completed and has a valid due
    date after the clock, a recorded and armed timer for that task with
    the delay of [scheduleReminder]; every other task has no entry;
    entries exist for loaded tasks only; and [scheduledCount] counts
    the tasks that are not completed and have a dueDate, armed or
    not. *)
Theorem startServer_rearms (dateParse : string -> JSDate.Date)
  (clockAt : Scheduler.Task -> Z) (tasks : list Scheduler.Task) (s : Scheduler.State) :
  (forall t, 0 <= clockAt t) ->
  List.NoDup (List.map Scheduler.id tasks) ->
  Scheduler.reminders s = ∅ ->
  Observe.fresh s ->
  let r := Routes.startServer dateParse clockAt tasks s in
  fst r = List.length
            (List.filter (fun t => negb (Scheduler.completed t)
                                   && truthy (Scheduler.dueDate t)) tasks)
  /\ (forall t due, In t tasks ->
        Observe.eligible dateParse t (clockAt t) due ->
        Observe.armedTimer (Scheduler.id t) (snd r)
        = Some (Observe2.timerOf t (clockAt t) due))
  /\ (forall t, In t tasks ->
        (forall due, ~ Observe.eligible dateParse t (clockAt t) due) ->
        Scheduler.reminders (snd r) !! Scheduler.id t = None)
  /\ (forall taskId, is_Some (Scheduler.reminders (snd r) !! taskId) ->
        In taskId (List.map Scheduler.id tasks)).
Proof.
  intros Hclock Hnd Hempty Hf r.
  assert (Hnone : forall t, In t tasks -> Scheduler.reminders s !! Scheduler.id t = None)
    by (intros; rewrite Hempty; apply lookup_empty).
  destruct (startup_loop dateParse clockAt Hclock tasks O s Hnd Hf Hnone)
    as (Hc & _ & _ & Hr & _ & Hall).
  fold (Routes.startServer dateParse clockAt tasks s) in Hc, Hr, Hall. fold r in Hc, Hr, Hall.
  split; [exact Hc|]. split; [|split].
  - intros t due Hin Hel. exact (proj1 (Hall t Hin) due Hel).
  - intros t Hin Hno. exact (proj2 (Hall t Hin) Hno).
  - intros taskId [h Hh].
    destruct (List.in_dec string_dec taskId (List.map Scheduler.id tasks)) as [Hin|Hout];
      [exact Hin|].
    rewrite (Hr taskId Hout), Hempty, lookup_empty in Hh. discriminate.
Qed.

Lemma startServer_rearms_witness :
  (forall t, 0 <= Demo2.clockAt t)
  /\ List.NoDup (List.map Scheduler.id Demo2.loaded)
  /\ Scheduler.reminders Demo.idle = ∅
  /\ Observe.fresh Demo.idle
  /\ In (Demo.task "2024-01-15T14:00:00.000Z") Demo2.loaded
  /\ Observe.eligible Demo.dateParse (Demo.task "2024-01-15T14:00:00.000Z")
       Demo.noon 1705327200000
  /\ Observe.armedTimer "t1"
       (snd (Routes.startServer Demo.dateParse Demo2.clockAt Demo2.loaded Demo.idle))
     = Some (Observe2.timerOf (Demo.task "2024-01-15T14:00:00.000Z")
               Demo.noon 1705327200000).
Proof.
  assert (Hclock : forall t, 0 <= Demo2.clockAt t)
    by (intros; unfold Demo2.clockAt, Demo.noon; lia).
  assert (Hnd : List.NoDup (List.map Scheduler.id Demo2.loaded)).
  { simpl. repeat constructor; simpl; intuition discriminate. }
  assert (Hf : Observe.fresh Demo.idle) by (intros h _; apply lookup_empty).
  assert (Hin : In (Demo.task "2024-01-15T14:00:00.000Z") Demo2.loaded)
    by (left; reflexivity).
  assert (Hel : Observe.eligible Demo.dateParse (Demo.task "2024-01-15T14:00:00.000Z")
                  Demo.noon 1705327200000)
    by (repeat split; try reflexivity; unfold Demo.noon; lia).
  split; [exact Hclock|]. split; [exact Hnd|]. split; [reflexivity|].
  split; [exact Hf|]. split; [exact Hin|]. split; [exact Hel|].
  destruct (startServer_rearms Demo.dateParse Demo2.clockAt Demo2.loaded Demo.idle
              Hclock Hnd eq_refl Hf) as (_ & Harm & _).
  exact (Harm _ _ Hin Hel).
Defined.

(** The effect of clearing the timers recorded in a map. *)
Lemma clear_recorded (s : Scheduler.State) (m : gmap string nat) :
  let r := map_fold (fun (_ : string) (timeoutId : nat) (acc : Scheduler.State) =>
                       Scheduler.clearTimeout timeoutId acc) s m in
  (forall h, (exists taskId, m !! taskId = Some h) -> Scheduler.timers r !! h = None)
  /\ (forall h, (forall taskId, m !! taskId <> Some h) ->
        Scheduler.timers r !! h = Scheduler.timers s !! h)
  /\ (forall h tm, Scheduler.timers r !! h = Some tm -> Scheduler.timers s !! h = Some tm)
  /\ Scheduler.log r = Scheduler.log s.
Proof.
  cbv zeta.
  apply (map_fold_weak_ind
           (fun (r : Scheduler.State) (m : gmap string nat) =>
              (forall h, (exists taskId, m !! taskId = Some h) ->
                 Scheduler.timers r !! h = None)
              /\ (forall h, (forall taskId, m !! taskId <> Some h) ->
                    Scheduler.timers r !! h = Scheduler.timers s !! h)
              /\ (forall h tm, Scheduler.timers r !! h = Some tm ->
                    Scheduler.timers s !! h = Some tm)
              /\ Scheduler.log r = Scheduler.log s)).
  - split; [intros h [taskId Hh]; rewrite lookup_empty in Hh; discriminate|].
    split; [reflexivity|]. split; [tauto | reflexivity].
  - intros i x m0 r Hi (Hin & Hout & Hsub & Hl).
    split; [|split; [|split; [|exact Hl]]].
    + intros h [taskId Hh]. simpl.
      destruct (decide (h = x)) as [->|Hne]; [apply lookup_delete_eq|].
      rewrite lookup_delete_ne by congruence. apply Hin.
      exists taskId. destruct (decide (taskId = i)) as [->|Hti].
      * rewrite lookup_insert_eq in Hh. congruence.
      * rewrite lookup_insert_ne in Hh by congruence. exact Hh.
    + intros h Hno. simpl.
      assert (Hx : h <> x).
      { intros ->. apply (Hno i). apply lookup_insert_eq. }
      rewrite lookup_delete_ne by congruence. apply Hout.
      intros taskId Hh. apply (Hno taskId).
      rewrite lookup_insert_ne; [exact Hh|]. intros ->. congruence.
    + intros h tm. simpl. intros Hh. apply Hsub.
      destruct (decide (h = x)) as [->|Hne].
      * rewrite lookup_delete_eq in Hh. discriminate.
      * rewrite lookup_delete_ne in Hh by congruence. exact Hh.
Qed.

(** X12. The shutdown handler empties [reminders] and disarms every
    recorded timer; a timer that is not recorded stays armed. When
    every armed timer is the recorded one of its task, no timer is
    left; when moreover no callback is under way at the signal, no
    turn of the timers is left to run, so nothing is delivered
    afterwards. (A callback under way at the signal goes on with its
    sends until the process exits; the statement leaves it out.) *)
Theorem shutdown_clears
  (transporter : bool) (DEFAULT_NOTIFY_EMAIL : jsval) (vapid : bool)
  (sendMail : jsval -> Scheduler.Task -> bool)
  (sendNotification : Scheduler.Subscription -> Scheduler.Task -> bool)
  (s : Scheduler.State) :
  let s' := Routes.shutdown s in
  Scheduler.reminders s' = ∅
  /\ (forall taskId h, Scheduler.reminders s !! taskId = Some h ->
        Scheduler.timers s' !! h = None)
  /\ (forall h, (forall taskId, Scheduler.reminders s !! taskId <> Some h) ->
        Scheduler.timers s' !! h = Scheduler.timers s !! h)
  /\ (Observe2.allTracked s ->
      Scheduler.timers s' = ∅
      /\ (Scheduler.finishing s = [] ->
          forall s'',
            Scheduler.steps transporter DEFAULT_NOTIFY_EMAIL vapid sendMail
              sendNotification s' s'' ->
            s'' = s' /\ Scheduler.log s'' = Scheduler.log s)).
Proof.
  intros s'. subst s'. unfold Routes.shutdown.
  destruct (clear_recorded s (Scheduler.reminders s)) as (Hin & Hout & Hsub & Hl).
  set (r := map_fold _ s (Scheduler.reminders s)) in *. simpl.
  split; [reflexivity|]. split; [intros taskId h Hh; apply Hin; eauto|].
  split; [exact Hout|].
  intros Htr.
  assert (Hempty : Scheduler.timers r = ∅).
  { apply map_empty. intros h.
    destruct (Scheduler.timers r !! h) as [tm|] eqn:Hr; [|reflexivity].
    rewrite <- Hr. apply Hin. exists (Scheduler.id (Scheduler.tm_task tm)).
    exact (Htr _ h tm (Hsub h tm Hr) eq_refl). }
  split; [exact Hempty|].
  intros Hidle s'' Hrun.
  assert (Hfin : Scheduler.finishing (Scheduler.withReminders ∅ r) = []).
  { simpl. rewrite <- Hidle. subst r.
    apply (map_fold_weak_ind
             (fun (x : Scheduler.State) (_ : gmap string nat) =>
                Scheduler.finishing x = Scheduler.finishing s)).
    - reflexivity.
    - intros i x m0 y _ Hy. exact Hy. }
  assert (Hlog : Scheduler.log (Scheduler.withReminders ∅ r) = Scheduler.log s)
    by exact Hl.
  assert (Htm : Scheduler.timers (Scheduler.withReminders ∅ r) = ∅)
    by exact Hempty.
  destruct Hrun as [s0 | s0 s1 s2 Hstep _]; [split; [reflexivity | exact Hlog]|].
  exfalso. destruct Hstep as [s0 h tm Hh | s0 before after tid Hf].
  - rewrite Htm, lookup_empty in Hh. discriminate.
  - rewrite Hfin in Hf. destruct before; discriminate.
Qed.

Lemma shutdown_clears_witness :
  Scheduler.reminders (Server.sched Demo.oneTask) !! "t1" = Some 1%nat
  /\ is_Some (Scheduler.timers (Server.sched Demo.oneTask) !! 1%nat)
  /\ Observe2.allTracked (Server.sched Demo.oneTask)
  /\ Scheduler.finishing (Server.sched Demo.oneTask) = []
  /\ Scheduler.timers (Routes.shutdown (Server.sched Demo.oneTask)) !! 1%nat = None
  /\ Scheduler.timers (Routes.shutdown (Server.sched Demo.oneTask)) = ∅
  /\ forall s'',
       Scheduler.steps false JNull false Demo.sendMail Demo.sendNotification
         (Routes.shutdown (Server.sched Demo.oneTask)) s'' ->
       s'' = Routes.shutdown (Server.sched Demo.oneTask).
Proof.
  assert (Hrec : Scheduler.reminders (Server.sched Demo.oneTask) !! "t1" = Some 1%nat)
    by (vm_compute; reflexivity).
  assert (Htimers : Scheduler.timers (Server.sched Demo.oneTask)
            = {[ 1%nat := {| Scheduler.tm_task := Demo.task "2024-01-15T14:00:00.000Z";
                             Scheduler.tm_due := 1705327200000;
                             Scheduler.tm_delay := Some 3600000 |} ]})
    by (vm_compute; reflexivity).
  assert (Htr : Observe2.allTracked (Server.sched Demo.oneTask)).
  { intros taskId h tm Hh Hid. rewrite Htimers in Hh.
    apply lookup_singleton_Some in Hh as [<- <-]. simpl in Hid. subst taskId.
    exact Hrec. }
  assert (Hidle : Scheduler.finishing (Server.sched Demo.oneTask) = [])
    by (vm_compute; reflexivity).
  split; [exact Hrec|]. split; [vm_compute; eexists; reflexivity|].
  split; [exact Htr|]. split; [exact Hidle|].
  destruct (shutdown_clears false JNull false Demo.sendMail Demo.sendNotification
              (Server.sched Demo.oneTask)) as (_ & Hclear & _ & Hall).
  split; [exact (Hclear "t1" 1%nat Hrec)|].
  destruct (Hall Htr) as [Hnone Hrest].
  split; [exact Hnone|].
  intros s'' Hrun. exact (proj1 (Hrest Hidle s'' Hrun)).
Defined.

(** ** The local parser: shape of the result *)

Section LocalShape.

Import Parser.

Variable tza : Z.
Variable chrono_parse : string -> Z -> completion (list ParsedResult).
Variable zonedTimeToUtc : Z -> completion JSDate.Date.
Variable isoString : Z -> string.

Local Abbreviation wf := (Observe2.wellFormed isoString).

Ltac try_step :=
  match goal with
  | |- context [match ?d with Some _ => _ | None => _ end] => destruct d
  | |- context [match ?c with Normal _ => _ | Throw _ => _ end] => destruct c
  | |- context [if ?b then _ else _] => destruct b
  end.

Lemma heuristicBranch_wf (now : Z) (out : ParseResult) :
  wf out -> wf (snd (heuristicBranch tza isoString now out)).
Proof.
  intros [Ht Hd]. unfold heuristicBranch, bind, getTitle, setTitle, setDueDate,
    toISOString, ret, throw.
  repeat (try_step; cbn [fst snd title dueDate]);
    (split; cbn [title dueDate];
     [ first [exact Ht | apply trim_idem]
     | first [exact Hd | right; eexists; reflexivity] ]).
Qed.

Lemma chronoBranch_wf (first : ParsedResult) (out : ParseResult) :
  wf out -> wf (snd (chronoBranch zonedTimeToUtc isoString first out)).
Proof.
  intros [Ht Hd]. unfold chronoBranch, bind, lift, getTitle, setTitle, setDueDate,
    toISOString, ret, throw.
  destruct (start_date first) as [[dt|]|]; cbn [fst snd]; try (split; assumption).
  destruct (zonedTimeToUtc dt) as [[utc|]|e]; cbn [fst snd title dueDate];
    try (split; assumption).
  destruct (negb (String.eqb (text first) "")); cbn [fst snd title dueDate];
    (split; cbn [title dueDate];
     [ first [exact Ht | apply trim_idem] | right; eexists; reflexivity ]).
Qed.

(** Whatever the input and whatever chrono and date-fns-tz do, the
    local parser returns a result in good shape. *)
Lemma parseInputLocal_well_formed (input : string) (now : Z) :
  exists r, parseInputLocal tza chrono_parse zonedTimeToUtc isoString input now = Normal r
            /\ Observe2.wellFormed isoString r.
Proof.
  set (out := {| title := Text.trim input; dueDate := JNull |}).
  assert (Hout : wf out) by (split; [apply trim_idem | left; reflexivity]).
  assert (Hbody : wf (snd (localBody tza chrono_parse zonedTimeToUtc isoString now out))).
  { unfold localBody. unfold bind at 1. unfold getTitle at 1.
    unfold bind at 1. unfold lift.
    destruct (chrono_parse (title out) now) as [[|first rest]|e]; cbn [fst snd].
    - apply heuristicBranch_wf. exact Hout.
    - apply chronoBranch_wf. exact Hout.
    - exact Hout. }
  unfold parseInputLocal. fold out. unfold returnOut, tryCatch.
  destruct (localBody tza chrono_parse zonedTimeToUtc isoString now out)
    as [[u|e] out'] eqn:Hb; simpl in Hbody |- *; eexists; (split; [reflexivity|]);
    exact Hbody.
Qed.

End LocalShape.

(** ** The "in N unit" heuristic, in full *)

Lemma spanDigits_digits (s d r : string) :
  Text.spanDigits s = (d, r) ->
  forall acc, 0 <= acc -> acc <= Text.parseDigitsFrom acc d.
Proof.
  revert d r. induction s as [|c s IH]; intros d r; simpl.
  - intros [= <- <-] acc Hacc. simpl. lia.
  - destruct (Text.isDigit c) eqn:Hc.
    + destruct (Text.spanDigits s) as [d' r'] eqn:Hs. intros [= <- <-] acc Hacc.
      simpl. specialize (IH d' r' eq_refl).
      assert (0 <= Text.digitValue c).
      { unfold Text.isDigit, Text.digitValue in *.
        apply andb_prop in Hc as [H1 _]. apply N.leb_le in H1. lia. }
      etransitivity; [|apply IH; lia]. lia.
    + intros [= <- <-] acc Hacc. simpl. lia.
Qed.

Lemma matchInTime_amount (ci : bool) (s : string) (m : Text.InTimeMatch) :
  Text.matchInTime ci s = Some m -> 0 <= Text.parseInt (Text.im_amount m).
Proof.
  revert m. induction s as [|c s IH]; intros m; cbn [Text.matchInTime].
  - unfold Text.matchInTimeAt. simpl. discriminate.
  - destruct (Text.matchInTimeAt ci (String c s)) as [[[d u] r]|] eqn:Hat.
    + intros [= <-]. simpl. unfold Text.matchInTimeAt in Hat.
      destruct (Text.matchLit ci "in " (String c s)) as [r1|]; [|discriminate].
      destruct (Text.spanDigits r1) as [[|d0 ds] r2] eqn:Hspan; [discriminate|].
      destruct (Text.matchLit ci " " r2) as [r3|]; [|discriminate].
      destruct (Text.matchAlt ci Text.unitAlternatives r3) as [[u' r4]|]; [|discriminate].
      injection Hat as <- _ _.
      exact (spanDigits_digits r1 _ r2 Hspan 0 (Z.le_refl 0)).
    + destruct (Text.matchInTime ci s) as [m'|]; [|discriminate].
      intros [= <-]. simpl. apply IH. reflexivity.
Qed.

(** X14. When chrono finds nothing and the lower-cased text matches
    "in N unit": the unit taken is "hour", "minute" or "min"; if the
    clock plus N units is a valid time value, the due date is that
    instant, which is never before the clock, and the title is the
    trimmed input without the matched text; if it is not (N too large),
    the result is the trimmed input with no due date. *)
Theorem inTime_heuristic_result (tza : Z)
  (chrono_parse : string -> Z -> completion (list Parser.ParsedResult))
  (zonedTimeToUtc : Z -> completion JSDate.Date) (isoString : Z -> string)
  (input : string) (now : Z) (m : Text.InTimeMatch) :
  chrono_parse (Text.trim input) now = Normal [] ->
  Text.matchInTime false (Text.toLowerCase (Text.trim input)) = Some m ->
  let unitMs := if String.eqb (Text.im_unit m) "hour" then JSDate.msPerHour
                else JSDate.msPerMinute in
  let due := now + Text.parseInt (Text.im_amount m) * unitMs in
  let parsed := Parser.parseInputLocal tza chrono_parse zonedTimeToUtc isoString input now in
  (Text.im_unit m = "hour" \/ Text.im_unit m = "minute" \/ Text.im_unit m = "min")
  /\ now <= due
  /\ (Z.abs due <= JSDate.maxTime ->
      parsed = Normal {| Parser.title := Text.trim (Text.removeInTime (Text.trim input));
                         Parser.dueDate := JStr (isoString due) |})
  /\ (JSDate.maxTime < Z.abs due ->
      parsed = Normal {| Parser.title := Text.trim input; Parser.dueDate := JNull |}).
Proof.
  intros Hc Hm unitMs due parsed.
  pose proof (matchInTime_unit _ _ _ Hm) as Hu.
  pose proof (matchInTime_amount _ _ _ Hm) as Hn.
  split; [exact Hu|]. split.
  { subst due unitMs. destruct (String.eqb _ _);
      unfold JSDate.msPerHour, JSDate.msPerMinute; nia. }
  split.
  - intros Hvalid. apply (parseInputLocal_inTime _ _ _ _ _ _ _ Hc Hm Hvalid).
  - intros Hover. subst parsed.
    rewrite (parseInputLocal_heuristics _ _ _ _ _ _ Hc).
    unfold Parser.heuristicBranch. unfold Parser.bind at 1.
    unfold Parser.getTitle at 1. cbn [Parser.title]. rewrite Hm.
    assert (Hdue : now + (if Text.startsWith "hour" (Text.im_unit m)
                          then Text.parseInt (Text.im_amount m) * 60
                          else Text.parseInt (Text.im_amount m)) * 60 * 1000 = due).
    { subst due unitMs. unfold JSDate.msPerHour, JSDate.msPerMinute.
      destruct Hu as [-> | [-> | ->]]; simpl; lia. }
    rewrite Hdue. unfold JSDate.TimeClip.
    replace (Z.abs due <=? JSDate.maxTime) with false
      by (symmetry; apply Z.leb_gt; exact Hover).
    reflexivity.
Qed.

Lemma inTime_heuristic_result_witness :
  Demo.chrono (Text.trim "Fix bug in 5 minor steps") Demo.noon = Normal []
  /\ Text.matchInTime false (Text.toLowerCase (Text.trim "Fix bug in 5 minor steps"))
     = Some {| Text.im_before := "fix bug "; Text.im_amount := "5";
               Text.im_unit := "min"; Text.im_after := "or steps" |}
  /\ Z.abs (Demo.noon + 5 * JSDate.msPerMinute) <= JSDate.maxTime
  /\ Demo.parseInputLocal "Fix bug in 5 minor steps" Demo.noon
     = Normal {| Parser.title := "Fix bug or steps";
                 Parser.dueDate := JStr (Demo.isoString (Demo.noon + 5 * JSDate.msPerMinute)) |}.
Proof.
  assert (Hc : Demo.chrono (Text.trim "Fix bug in 5 minor steps") Demo.noon = Normal [])
    by (vm_compute; reflexivity).
  assert (Hm : Text.matchInTime false (Text.toLowerCase (Text.trim "Fix bug in 5 minor steps"))
               = Some {| Text.im_before := "fix bug "; Text.im_amount := "5";
                         Text.im_unit := "min"; Text.im_after := "or steps" |})
    by (vm_compute; reflexivity).
  assert (Hv : Z.abs (Demo.noon + 5 * JSDate.msPerMinute) <= JSDate.maxTime)
    by (unfold Demo.noon, JSDate.msPerMinute, JSDate.maxTime; lia).
  split; [exact Hc|]. split; [exact Hm|]. split; [exact Hv|].
  destruct (inTime_heuristic_result Demo.tza Demo.chrono Demo.zonedTimeToUtc
              Demo.isoString "Fix bug in 5 minor steps" Demo.noon _ Hc Hm)
    as (_ & _ & Hok & _).
  exact (Hok Hv).
Defined.

(** ** The pattern on the title and on its lower-case form *)

Lemma fold_or_high (c : ascii) :
  (Ascii.eqb (Text.foldAscii c) (Text.toLowerChar c)
   || ((128 <=? Text.code (Text.foldAscii c))
       && (128 <=? Text.code (Text.toLowerChar c))))%N = true.
Proof. destruct c as [[] [] [] [] [] [] [] []]; reflexivity. Qed.

Lemma digit_lower (c : ascii) :
  Text.isDigit (Text.toLowerChar c) = Text.isDigit c
  /\ (Text.isDigit c = true -> Text.toLowerChar c = c).
Proof. destruct c as [[] [] [] [] [] [] [] []]; split; (reflexivity || discriminate). Qed.

Lemma eqChar_lower (p c : ascii) :
  (Text.code p < 128)%N ->
  Text.eqChar false p (Text.toLowerChar c) = Text.eqChar true p c.
Proof.
  intros Hp. unfold Text.eqChar.
  pose proof (fold_or_high c) as H. apply orb_prop in H as [H|H].
  - apply Ascii.eqb_eq in H. rewrite H. reflexivity.
  - apply andb_prop in H as [H1 H2]. apply N.leb_le in H1, H2.
    assert (Ha : Ascii.eqb p (Text.toLowerChar c) = false)
      by (apply Ascii.eqb_neq; intros ->; lia).
    assert (Hb : Ascii.eqb p (Text.foldAscii c) = false)
      by (apply Ascii.eqb_neq; intros ->; lia).
    rewrite Ha, Hb. reflexivity.
Qed.

Lemma toLowerCase_app (a b : string) :
  Text.toLowerCase (String.append a b)
  = String.append (Text.toLowerCase a) (Text.toLowerCase b).
Proof.
  induction a as [|c a IH]; [reflexivity|].
  change (String (Text.toLowerChar c) (Text.toLowerCase (String.append a b))
          = String (Text.toLowerChar c)
              (String.append (Text.toLowerCase a) (Text.toLowerCase b))).
  f_equal. exact IH.
Qed.

Lemma string_app_assoc (a b c : string) :
  String.append (String.append a b) c = String.append a (String.append b c).
Proof.
  induction a as [|x a IH]; [reflexivity|].
  change (String x (String.append (String.append a b) c)
          = String x (String.append a (String.append b c))).
  f_equal. exact IH.
Qed.

(** A literal of the pattern, matched under the [i] flag: the text it
    consumed reads as the literal in lower case, and the literal is
    matched as well on the lower-case form. *)
Lemma matchLit_lower (p s : string) :
  (forall a, In a (list_ascii_of_string p) -> (Text.code a < 128)%N) ->
  match Text.matchLit true p s with
  | Some r =>
      (exists x, s = (x ++ r)%string /\ Text.toLowerCase x = p)
      /\ Text.matchLit false p (Text.toLowerCase s) = Some (Text.toLowerCase r)
  | None => Text.matchLit false p (Text.toLowerCase s) = None
  end.
Proof.
  revert s. induction p as [|a p IH]; intros s Hp; simpl.
  - split; [exists EmptyString; split; reflexivity|]. destruct s; reflexivity.
  - destruct s as [|b s]; [reflexivity|]. simpl.
    rewrite (eqChar_lower a b) by (apply Hp; left; reflexivity).
    destruct (Text.eqChar true a b) eqn:Hab; [|reflexivity].
    specialize (IH s (fun x Hx => Hp x (or_intror Hx))).
    destruct (Text.matchLit true p s) as [r|]; [|exact IH].
    destruct IH as [(x & -> & Hx) Hlow]. split; [|exact Hlow].
    exists (String b x). split; [reflexivity|]. simpl. rewrite Hx. f_equal.
    rewrite <- (eqChar_lower a b) in Hab by (apply Hp; left; reflexivity).
    unfold Text.eqChar in Hab. apply Ascii.eqb_eq in Hab. symmetry. exact Hab.
Qed.

Lemma spanDigits_lower (s : string) :
  let '(d, r) := Text.spanDigits s in
  s = (d ++ r)%string /\ Text.toLowerCase d = d
  /\ Text.spanDigits (Text.toLowerCase s) = (d, Text.toLowerCase r).
Proof.
  induction s as [|c s IH]; simpl; [repeat split; reflexivity|].
  destruct (digit_lower c) as [Hd Hsame]. rewrite Hd.
  destruct (Text.isDigit c) eqn:Hc.
  - destruct (Text.spanDigits s) as [d r]. destruct IH as (-> & Hl & Hs).
    rewrite Hs. simpl. rewrite Hl, (Hsame eq_refl). repeat split; reflexivity.
  - repeat split; reflexivity.
Qed.

Lemma matchAlt_lower (alts : list string) (s : string) :
  (forall p a, In p alts -> In a (list_ascii_of_string p) -> (Text.code a < 128)%N) ->
  match Text.matchAlt true alts s with
  | Some (u, r) =>
      (exists x, s = (x ++ r)%string /\ Text.toLowerCase x = u)
      /\ Text.matchAlt false alts (Text.toLowerCase s) = Some (u, Text.toLowerCase r)
  | None => Text.matchAlt false alts (Text.toLowerCase s) = None
  end.
Proof.
  induction alts as [|p alts IH]; intros Hp; simpl; [reflexivity|].
  pose proof (matchLit_lower p s (fun a Ha => Hp p a (or_introl eq_refl) Ha)) as Hlit.
  destruct (Text.matchLit true p s) as [r|].
  - destruct Hlit as [Hx Hlow]. rewrite Hlow. split; [exact Hx | reflexivity].
  - rewrite Hlit. apply IH. intros q a Hq Ha. exact (Hp q a (or_intror Hq) Ha).
Qed.

Lemma pattern_literals_ascii :
  (forall a, In a (list_ascii_of_string "in ") -> (Text.code a < 128)%N)
  /\ (forall a, In a (list_ascii_of_string " ") -> (Text.code a < 128)%N)
  /\ (forall p a, In p Text.unitAlternatives -> In a (list_ascii_of_string p) ->
        (Text.code a < 128)%N).
Proof.
  split; [|split].
  - intros a Ha. simpl in Ha. repeat (destruct Ha as [<-|Ha]; [vm_compute; reflexivity|]).
    destruct Ha.
  - intros a Ha. simpl in Ha. repeat (destruct Ha as [<-|Ha]; [vm_compute; reflexivity|]).
    destruct Ha.
  - intros p a Hp Ha. unfold Text.unitAlternatives in Hp. simpl in Hp.
    repeat (destruct Hp as [<-|Hp];
            [simpl in Ha;
             repeat (destruct Ha as [<-|Ha]; [vm_compute; reflexivity|]); destruct Ha|]).
    destruct Hp.
Qed.

Lemma matchInTimeAt_lower (s : string) :
  match Text.matchInTimeAt true s with
  | Some (d, u, r) =>
      (exists phrase, s = (phrase ++ r)%string
                      /\ Text.toLowerCase phrase = ("in " ++ d ++ " " ++ u)%string)
      /\ Text.matchInTimeAt false (Text.toLowerCase s) = Some (d, u, Text.toLowerCase r)
  | None => Text.matchInTimeAt false (Text.toLowerCase s) = None
  end.
Proof.
  destruct pattern_literals_ascii as (Hin & Hsp & Halt).
  unfold Text.matchInTimeAt.
  pose proof (matchLit_lower "in " s Hin) as H1.
  destruct (Text.matchLit true "in " s) as [r1|]; [|rewrite H1; reflexivity].
  destruct H1 as [(x1 & -> & Hx1) ->].
  pose proof (spanDigits_lower r1) as H2.
  destruct (Text.spanDigits r1) as [d r2]. destruct H2 as (-> & Hd & ->).
  destruct d as [|d0 ds]; [reflexivity|].
  pose proof (matchLit_lower " " r2 Hsp) as H3.
  destruct (Text.matchLit true " " r2) as [r3|]; [|rewrite H3; reflexivity].
  destruct H3 as [(x3 & -> & Hx3) ->].
  pose proof (matchAlt_lower Text.unitAlternatives r3 Halt) as H4.
  destruct (Text.matchAlt true Text.unitAlternatives r3) as [[u r4]|];
    [|rewrite H4; reflexivity].
  destruct H4 as [(x4 & -> & Hx4) ->]. split; [|reflexivity].
  exists (x1 ++ String d0 ds ++ x3 ++ x4)%string. split.
  - rewrite !string_app_assoc. reflexivity.
  - rewrite !toLowerCase_app, Hx1, Hd, Hx3, Hx4. reflexivity.
Qed.

(** X15. The two uses of the pattern agree. If the pattern with the
    [i] flag matches the title, the title is the text before, a phrase
    that reads "in N unit" in lower case, and the text after; the
    replacement removes exactly that phrase; and the match on the
    lower-cased title, from which the due date is computed, is the same
    match in lower case, with the same N and unit. If it does not match,
    neither does the other and the title is left alone. *)
Theorem inTime_pattern_uses_agree (s : string) :
  match Text.matchInTime true s with
  | Some m =>
      (exists phrase,
         s = (Text.im_before m ++ phrase ++ Text.im_after m)%string
         /\ Text.toLowerCase phrase
            = ("in " ++ Text.im_amount m ++ " " ++ Text.im_unit m)%string)
      /\ Text.removeInTime s = (Text.im_before m ++ Text.im_after m)%string
      /\ Text.matchInTime false (Text.toLowerCase s) = Some (Observe2.lowerMatch m)
  | None =>
      Text.removeInTime s = s
      /\ Text.matchInTime false (Text.toLowerCase s) = None
  end.
Proof.
  unfold Text.removeInTime.
  induction s as [|c s IH].
  - cbn. split; reflexivity.
  - cbn [Text.matchInTime Text.toLowerCase].
    pose proof (matchInTimeAt_lower (String c s)) as Hat.
    cbn [Text.toLowerCase] in Hat.
    destruct (Text.matchInTimeAt true (String c s)) as [[[d u] r]|].
    + destruct Hat as [(phrase & Hs & Hl) ->]. cbn.
      split; [|split; reflexivity]. exists phrase. split; assumption.
    + rewrite Hat. destruct (Text.matchInTime true s) as [m|].
      * destruct IH as ((phrase & Hs & Hl) & _ & ->). cbn.
        split; [|split; reflexivity]. exists phrase. split; [|exact Hl].
        rewrite Hs at 1. reflexivity.
      * destruct IH as [_ ->]. split; reflexivity.
Qed.

(** ** The remote parsers *)

Lemma append_cons (c : ascii) (a b : string) :
  String.append (String c a) b = String c (String.append a b).
Proof. reflexivity. Qed.

Lemma upToLastBrace_none (post : string) :
  (forall x, In x (list_ascii_of_string post) -> x <> "}"%char) ->
  Remote.upToLastBrace post = None.
Proof.
  induction post as [|c post IH]; intros H; simpl; [reflexivity|].
  rewrite IH by (intros x Hx; apply H; right; exact Hx).
  destruct (Ascii.eqb_spec c "}") as [->|_]; [|reflexivity].
  exfalso. apply (H "}"%char); [left|]; reflexivity.
Qed.

Lemma upToLastBrace_last (mid post : string) :
  (forall x, In x (list_ascii_of_string post) -> x <> "}"%char) ->
  Remote.upToLastBrace (String.append mid (String "}" post))
  = Some (String.append mid "}").
Proof.
  intros H. induction mid as [|c mid IH].
  - change (Remote.upToLastBrace (String "}" post) = Some "}").
    simpl. rewrite (upToLastBrace_none post H). reflexivity.
  - rewrite !append_cons. simpl. rewrite IH. reflexivity.
Qed.

(** X16. The pattern that cuts the JSON out of the answer of Groq: for
    an answer made of a text without opening brace, then a brace, any
    text, a closing brace, and a text without closing brace, the match
    is exactly the part from the first opening brace to the last
    closing brace; an answer without opening brace, or without closing
    brace, has no match (and is then parsed as it is). *)
Theorem matchBraces_spec (pre mid post : string) :
  (forall x, In x (list_ascii_of_string pre) -> x <> "{"%char) ->
  (forall x, In x (list_ascii_of_string post) -> x <> "}"%char) ->
  Remote.matchBraces
    (String.append pre (String "{" (String.append mid (String "}" post))))
  = Some (String "{" (String.append mid "}"))
  /\ Remote.matchBraces pre = None
  /\ Remote.matchBraces post = None.
Proof.
  intros Hpre Hpost. split; [|split].
  - induction pre as [|c pre IH].
    + change (Remote.matchBraces (String "{" (String.append mid (String "}" post)))
              = Some (String "{" (String.append mid "}"))).
      simpl. rewrite (upToLastBrace_last mid post Hpost). reflexivity.
    + rewrite append_cons. simpl.
      destruct (Ascii.eqb_spec c "{") as [->|_].
      * exfalso. apply (Hpre "{"%char); [left|]; reflexivity.
      * apply IH. intros x Hx. apply Hpre. right. exact Hx.
  - clear Hpost. induction pre as [|c pre IH]; simpl; [reflexivity|].
    destruct (Ascii.eqb_spec c "{") as [->|_].
    + exfalso. apply (Hpre "{"%char); [left|]; reflexivity.
    + apply IH. intros x Hx. apply Hpre. right. exact Hx.
  - clear Hpre. induction post as [|c post IH]; simpl; [reflexivity|].
    rewrite (upToLastBrace_none post) by (intros x Hx; apply Hpost; right; exact Hx).
    rewrite IH by (intros x Hx; apply Hpost; right; exact Hx).
    destruct (Ascii.eqb c "{"); reflexivity.
Qed.

Lemma matchBraces_spec_witness :
  (forall x, In x (list_ascii_of_string "Here: ") -> x <> "{"%char)
  /\ (forall x, In x (list_ascii_of_string " ok") -> x <> "}"%char)
  /\ Remote.matchBraces "Here: {a:{}} ok" = Some "{a:{}}".
Proof.
  assert (Hpre : forall x, In x (list_ascii_of_string "Here: ") -> x <> "{"%char).
  { intros x Hx. simpl in Hx. repeat (destruct Hx as [<-|Hx]; [discriminate|]).
    destruct Hx. }
  assert (Hpost : forall x, In x (list_ascii_of_string " ok") -> x <> "}"%char).
  { intros x Hx. simpl in Hx. repeat (destruct Hx as [<-|Hx]; [discriminate|]).
    destruct Hx. }
  split; [exact Hpre|]. split; [exact Hpost|].
  exact (proj1 (matchBraces_spec "Here: " "a:{}" " ok" Hpre Hpost)).
Defined.

Section RemoteAnswers.

Variable tza : Z.
Variable chrono_parse : string -> Z -> completion (list Parser.ParsedResult).
Variable zonedTimeToUtc : Z -> completion JSDate.Date.
Variable isoString : Z -> string.
Variable dateParse : string -> JSDate.Date.
Variable jsonParse : string -> completion Remote.Parsed.
Variable groqRequest openaiRequest : string -> completion (option string).

Local Abbreviation wf := (Observe2.wellFormed isoString).
Local Abbreviation normalise := (Remote.normalise dateParse isoString).
Local Abbreviation groqTry := (Remote.groqTry dateParse isoString jsonParse groqRequest).
Local Abbreviation openaiTry :=
  (Remote.openaiTry dateParse isoString jsonParse openaiRequest).

Lemma normalise_well_formed (input : string) (parsed : Remote.Parsed)
  (r : Parser.ParseResult) :
  normalise input parsed = Normal r -> wf r.
Proof.
  unfold Remote.normalise. destruct parsed as [[ptitle pdue]|]; [|discriminate].
  intros [= <-]. split; cbn [Parser.title Parser.dueDate].
  - destruct ptitle as [| |b|n|t]; try apply trim_idem.
    destruct (negb (String.eqb (Text.trim t) "")); apply trim_idem.
  - destruct (truthy pdue); [|left; reflexivity].
    destruct (Scheduler.newDate dateParse pdue); [right; eexists|left]; reflexivity.
Qed.

Lemma groqTry_well_formed (input : string) (r : Parser.ParseResult) :
  groqTry input = Normal r -> wf r.
Proof.
  unfold Remote.groqTry.
  destruct (groqRequest input) as [[raw|]|e]; try discriminate.
  destruct (String.eqb (Text.trim raw) ""); [discriminate|].
  destruct (jsonParse _) as [parsed|e]; [|discriminate].
  apply normalise_well_formed.
Qed.

Lemma openaiTry_well_formed (input : string) (r : Parser.ParseResult) :
  openaiTry input = Normal r -> wf r.
Proof.
  unfold Remote.openaiTry.
  destruct (openaiRequest input) as [[raw|]|e]; try discriminate.
  destruct (String.eqb (Text.trim raw) ""); [discriminate|].
  destruct (jsonParse _) as [parsed|e]; [|discriminate].
  apply normalise_well_formed.
Qed.

(** X13. Every result of [parseInput] is in good shape, whichever
    provider is configured and whatever the remote services, the JSON
    decoder, chrono and date-fns-tz do: the call ends normally, the
    title has no white space at either end, and the due date is null or
    an ISO string. *)
Theorem parse_results_well_formed (PARSER_PROVIDER : string)
  (groqApiKey openai : bool) (input : string) (now : Z) :
  exists r,
    Parser.parseInput tza chrono_parse zonedTimeToUtc isoString PARSER_PROVIDER
      groqApiKey openai groqTry openaiTry input now = Normal r
    /\ Observe2.wellFormed isoString r.
Proof.
  destruct (parseInputLocal_well_formed tza chrono_parse zonedTimeToUtc isoString
              input now) as (rl & Hl & Hwl).
  assert (Hg : exists r,
             Parser.parseInputGroq tza chrono_parse zonedTimeToUtc isoString
               groqApiKey groqTry input now = Normal r /\ wf r).
  { unfold Parser.parseInputGroq. destruct (negb groqApiKey); [eauto|].
    destruct (groqTry input) as [r|e] eqn:Hr; [|eauto].
    exists r. split; [reflexivity | exact (groqTry_well_formed input r Hr)]. }
  assert (Ho : exists r,
             Parser.parseInputOpenAI tza chrono_parse zonedTimeToUtc isoString
               groqApiKey openai groqTry openaiTry input now = Normal r /\ wf r).
  { unfold Parser.parseInputOpenAI. destruct openai; simpl; [|exact Hg].
    destruct (openaiTry input) as [r|e] eqn:Hr; [|exact Hg].
    exists r. split; [reflexivity | exact (openaiTry_well_formed input r Hr)]. }
  unfold Parser.parseInput.
  destruct (String.eqb PARSER_PROVIDER "openai"); [exact Ho|].
  destruct (String.eqb PARSER_PROVIDER "groq"); [exact Hg|].
  destruct (String.eqb PARSER_PROVIDER "local"); [eauto|].
  destruct groqApiKey; [exact Hg | eauto].
Qed.

(** X17. What the Groq parser does with the answer. A decoded object
    always gives a result: the title is the answer's title trimmed when
    that is a non-blank text and else the trimmed input, so it is empty
    only when the input is blank; the due date is the ISO string of the
    answer's date when that is a valid date, and null when it is
    missing or no date, without failing. When the request fails, the
    answer has no content, the JSON cannot be decoded or it decodes to
    null, the result is that of the local parser. *)
Theorem groq_answer_handling (input : string) (now : Z) :
  let parse := Parser.parseInputGroq tza chrono_parse zonedTimeToUtc isoString
                 true groqTry in
  let parseLocal := Parser.parseInputLocal tza chrono_parse zonedTimeToUtc isoString in
  (forall ptitle pdue, exists r,
     normalise input (Some (ptitle, pdue)) = Normal r
     /\ (forall t, ptitle = JStr t -> Text.trim t <> "" -> Parser.title r = Text.trim t)
     /\ ((forall t, ptitle = JStr t -> Text.trim t = "") ->
           Parser.title r = Text.trim input)
     /\ (forall t, truthy pdue = true -> Scheduler.newDate dateParse pdue = Some t ->
           Parser.dueDate r = JStr (isoString t) /\ Z.abs t <= JSDate.maxTime)
     /\ (truthy pdue = false \/ Scheduler.newDate dateParse pdue = None ->
           Parser.dueDate r = JNull))
  /\ ((forall r, groqTry input <> Normal r) -> parse input now = parseLocal input now)
  /\ (forall r, groqTry input = Normal r -> parse input now = Normal r)
  /\ ((exists e, groqRequest input = Throw e) \/ groqRequest input = Normal None
      \/ (exists raw, groqRequest input = Normal (Some raw)
            /\ (Text.trim raw = ""
                \/ (exists e, jsonParse
                               (match Remote.matchBraces (Text.trim raw) with
                                | Some m => m
                                | None => Text.trim raw
                                end) = Throw e)
                \/ jsonParse (match Remote.matchBraces (Text.trim raw) with
                              | Some m => m
                              | None => Text.trim raw
                              end) = Normal None)) ->
      parse input now = parseLocal input now).
Proof.
  intros parse parseLocal.
  assert (Hfall : (forall r, groqTry input <> Normal r) ->
                  parse input now = parseLocal input now).
  { intros Hno. subst parse. unfold Parser.parseInputGroq. simpl.
    destruct (groqTry input) as [r|e]; [exfalso; exact (Hno r eq_refl) | reflexivity]. }
  split; [|split; [exact Hfall|split]].
  - intros ptitle pdue. unfold Remote.normalise. eexists. split; [reflexivity|].
    cbn [Parser.title Parser.dueDate]. split; [|split; [|split]].
    + intros t -> Hne. destruct (String.eqb_spec (Text.trim t) ""); [contradiction|].
      reflexivity.
    + intros Hblank. destruct ptitle as [| |b|n|t]; try reflexivity.
      rewrite (Hblank t eq_refl). reflexivity.
    + intros t Htr Hd. rewrite Htr, Hd. split; [reflexivity|].
      exact (newDate_range dateParse pdue t Hd).
    + intros [Hf | Hn]; [rewrite Hf; reflexivity|].
      rewrite Hn. destruct (truthy pdue); reflexivity.
  - intros r Hr. subst parse. unfold Parser.parseInputGroq. simpl. rewrite Hr.
    reflexivity.
  - intros Hbad. apply Hfall. intros r. unfold Remote.groqTry.
    destruct Hbad as [[e ->] | [-> | (raw & -> & Hraw)]]; try discriminate.
    destruct Hraw as [-> | [[e ->] | ->]]; simpl; try discriminate.
    destruct (String.eqb (Text.trim raw) ""); discriminate.
    destruct (String.eqb (Text.trim raw) ""); discriminate.
Qed.

End RemoteAnswers.

Lemma groq_answer_handling_witness :
  (exists e, Demo2.requestDown "Buy milk" = Throw e)
  /\ Parser.parseInputGroq Demo.tza Demo.chrono Demo.zonedTimeToUtc Demo.isoString
       true (Remote.groqTry Demo.dateParse Demo.isoString Demo2.jsonParse
               Demo2.requestDown) "Buy milk" Demo.noon
     = Demo.parseInputLocal "Buy milk" Demo.noon.
Proof.
  assert (Hdown : exists e, Demo2.requestDown "Buy milk" = Throw e)
    by (eexists; reflexivity).
  split; [exact Hdown|].
  destruct (groq_answer_handling Demo.tza Demo.chrono Demo.zonedTimeToUtc
              Demo.isoString Demo.dateParse Demo2.jsonParse Demo2.requestDown
              "Buy milk" Demo.noon) as (_ & _ & _ & Hfall).
  exact (Hfall (or_introl Hdown)).
Defined.

(** ** The page and the scheduler *)

(** X18. The status shown on the page against what the scheduler does,
    for a task that is not completed, has a dueDate, and at the same
    clock. With a due date that is no date the page shows "upcoming"
    while the scheduler arms nothing. With a valid due date: "overdue"
    is shown exactly when the due instant is before the clock, and then
    nothing is armed; "upcoming" exactly when it is at least one hour
    ahead; "due soon" for what lies between, so a task due exactly at
    the clock is shown "due soon" although nothing is armed for it. A
    timer is armed exactly for a due instant after the clock, and for a
    task shown "due soon" its delay is five seconds. *)
Theorem status_against_scheduler (dateParse : string -> JSDate.Date)
  (task : Scheduler.Task) (replace : bool) (now : Z) (s : Scheduler.State) :
  Scheduler.completed task = false ->
  truthy (Scheduler.dueDate task) = true ->
  0 <= now <= JSDate.maxTime - 3600000 ->
  let status := Frontend.getTaskStatus dateParse task now in
  let s' := Scheduler.scheduleReminder dateParse task replace now s in
  (Scheduler.newDate dateParse (Scheduler.dueDate task) = None ->
     status = Frontend.StatusUpcoming /\ s' = s)
  /\ (forall due, Scheduler.newDate dateParse (Scheduler.dueDate task) = Some due ->
        (status = Frontend.StatusOverdue <-> due < now)
        /\ (status = Frontend.StatusDueSoon <-> now <= due < now + 3600000)
        /\ (status = Frontend.StatusUpcoming <-> now + 3600000 <= due)
        /\ (due <= now -> s' = Observe.afterCancel task replace s)
        /\ (now < due ->
            exists d, Observe.armedDelay (Scheduler.id task) s' = Some (Some d)
                      /\ (status = Frontend.StatusDueSoon -> d = 5000))).
Proof.
  intros Hc Ht Hnow status s'. split.
  - intros Hd. subst status s'. unfold Frontend.getTaskStatus, Scheduler.scheduleReminder.
    rewrite Hc, Ht, Hd. simpl. split; reflexivity.
  - intros due Hd. pose proof (newDate_range _ _ _ Hd) as Hr.
    assert (Hstatus : status = if due <? now then Frontend.StatusOverdue
                               else if due <? now + 3600000 then Frontend.StatusDueSoon
                               else Frontend.StatusUpcoming).
    { subst status. unfold Frontend.getTaskStatus. rewrite Hc, Ht, Hd. simpl.
      rewrite TimeClip_in by (unfold JSDate.maxTime in *; lia).
      simpl. replace (now + 60 * 60 * 1000) with (now + 3600000) by lia. reflexivity. }
    rewrite Hstatus.
    split; [|split; [|split; [|split]]].
    + destruct (Z.ltb_spec due now); [tauto|].
      destruct (due <? now + 3600000); split; (discriminate || lia).
    + destruct (Z.ltb_spec due now); [split; [discriminate | lia]|].
      destruct (Z.ltb_spec due (now + 3600000)); split; try discriminate; try lia; tauto.
    + destruct (Z.ltb_spec due now); [split; [discriminate | lia]|].
      destruct (Z.ltb_spec due (now + 3600000)); split; try discriminate; try lia; tauto.
    + intros Hpast. subst s'. unfold Scheduler.scheduleReminder.
      rewrite Hc, Ht, Hd. simpl.
      replace (due <=? now) with true by (symmetry; apply Z.leb_le; lia).
      reflexivity.
    + intros Hfut. subst s'.
      rewrite (scheduleReminder_future dateParse task replace now due s)
        by (assumption || lia).
      rewrite armedDelay_after. simpl. eexists. split; [reflexivity|].
      destruct (Z.ltb_spec due now); [lia|].
      destruct (Z.ltb_spec due (now + 3600000)); [|discriminate].
      intros _. destruct (Z.leb_spec (due - 3600000 - now) 0); lia.
Qed.

Lemma status_against_scheduler_witness :
  Scheduler.completed (Demo.task "2024-01-15T12:30:00.000Z") = false
  /\ truthy (Scheduler.dueDate (Demo.task "2024-01-15T12:30:00.000Z")) = true
  /\ 0 <= Demo.noon <= JSDate.maxTime - 3600000
  /\ Scheduler.newDate Demo.dateParse
       (Scheduler.dueDate (Demo.task "2024-01-15T12:30:00.000Z")) = Some 1705321800000
  /\ Frontend.getTaskStatus Demo.dateParse (Demo.task "2024-01-15T12:30:00.000Z") Demo.noon
     = Frontend.StatusDueSoon
  /\ exists d, Observe.armedDelay "t1"
                 (Scheduler.scheduleReminder Demo.dateParse
                    (Demo.task "2024-01-15T12:30:00.000Z") false Demo.noon Demo.idle)
               = Some (Some d) /\ d = 5000.
Proof.
  assert (Hnow : 0 <= Demo.noon <= JSDate.maxTime - 3600000)
    by (unfold Demo.noon, JSDate.maxTime; lia).
  do 2 (split; [reflexivity|]). split; [exact Hnow|]. split; [reflexivity|].
  destruct (status_against_scheduler Demo.dateParse
              (Demo.task "2024-01-15T12:30:00.000Z") false Demo.noon Demo.idle
              eq_refl eq_refl Hnow) as [_ H].
  destruct (H 1705321800000 eq_refl) as (_ & Hsoon & _ & _ & Harm).
  assert (Hs : Frontend.getTaskStatus Demo.dateParse
                 (Demo.task "2024-01-15T12:30:00.000Z") Demo.noon
               = Frontend.StatusDueSoon)
    by (apply Hsoon; unfold Demo.noon; lia).
  split; [exact Hs|].
  destruct Harm as (d & Hd & H5); [unfold Demo.noon; lia|].
  exists d. split; [exact Hd | exact (H5 Hs)].
Defined.

(** ** The page: the key given to the push manager *)

Lemma length_append (a b : string) :
  String.length (String.append a b) = (String.length a + String.length b)%nat.
Proof.
  induction a as [|c a IH]; [reflexivity|].
  rewrite append_cons. cbn [String.length]. rewrite IH. reflexivity.
Qed.

Lemma length_replaceAll (x y : ascii) (s : string) :
  String.length (Frontend.replaceAll x y s) = String.length s.
Proof.
  induction s as [|c s IH]; [reflexivity|].
  cbn [Frontend.replaceAll String.length]. rewrite IH. reflexivity.
Qed.

Lemma length_equalSigns (n : nat) : String.length (Frontend.equalSigns n) = n.
Proof.
  induction n as [|n IH]; [reflexivity|].
  cbn [Frontend.equalSigns String.length]. rewrite IH. reflexivity.
Qed.

Lemma length_toBase64 (s : string) :
  String.length (Frontend.toBase64 s)
  = (String.length s + (4 - String.length s mod 4) mod 4)%nat.
Proof.
  unfold Frontend.toBase64.
  rewrite !length_replaceAll, length_append, length_equalSigns. reflexivity.
Qed.

Lemma allChars_app (f : ascii -> bool) (a b : string) :
  Observe2.allChars f (String.append a b)
  = Observe2.allChars f a && Observe2.allChars f b.
Proof.
  induction a as [|c a IH]; [reflexivity|].
  rewrite append_cons. cbn [Observe2.allChars]. rewrite IH.
  destruct (f c); reflexivity.
Qed.

Lemma allChars_replaceAll (f g : ascii -> bool) (x y : ascii) (s : string) :
  (forall c, f c = true -> g (if Ascii.eqb c x then y else c) = true) ->
  Observe2.allChars f s = true ->
  Observe2.allChars g (Frontend.replaceAll x y s) = true.
Proof.
  intros Hfg. induction s as [|c s IH]; [reflexivity|].
  cbn [Observe2.allChars Frontend.replaceAll].
  intros H. apply andb_prop in H as [Hc Hs].
  rewrite (Hfg c Hc), (IH Hs). reflexivity.
Qed.

Lemma allChars_equalSigns (f : ascii -> bool) (n : nat) :
  f "="%char = true -> Observe2.allChars f (Frontend.equalSigns n) = true.
Proof.
  intros Hf. induction n as [|n IH]; [reflexivity|].
  cbn [Frontend.equalSigns Observe2.allChars]. rewrite Hf, IH. reflexivity.
Qed.

Lemma replaceAll_absent (f : ascii -> bool) (x y : ascii) (s : string) :
  f x = false -> Observe2.allChars f s = true -> Frontend.replaceAll x y s = s.
Proof.
  intros Hx. induction s as [|c s IH]; [reflexivity|].
  cbn [Observe2.allChars Frontend.replaceAll].
  intros H. apply andb_prop in H as [Hc Hs]. rewrite (IH Hs).
  destruct (Ascii.eqb_spec c x) as [-> | _]; [congruence | reflexivity].
Qed.

(** The mapping of the two replacements on one code unit. *)
Lemma base64url_unit (c : ascii) :
  Observe2.isBase64Url c = true ->
  Observe2.isBase64
    (if Ascii.eqb (if Ascii.eqb c "-" then "+"%char else c) "_"
     then "/"%char else (if Ascii.eqb c "-" then "+"%char else c)) = true.
Proof.
  destruct c as [[] [] [] [] [] [] [] []]; vm_compute; intros H;
    first [reflexivity | discriminate H].
Qed.

(** X19. The text that [urlBase64ToUint8Array] hands to [atob]: its
    length is the next multiple of four at or above the length of the
    key (so at most three "=" are added), it holds no "-" and no "_",
    it is a text over the base64 alphabet whenever the key is one over
    the base64url alphabet, and building it again from itself changes
    nothing. The function throws exactly when [atob] throws on that
    text, with the same error, and otherwise returns one byte below 256
    for each code unit [atob] gives. *)
Theorem urlBase64ToUint8Array_spec (atob : string -> completion string)
  (base64String : string) :
  let base64 := Frontend.toBase64 base64String in
  (String.length base64 mod 4 = 0)%nat
  /\ (String.length base64String <= String.length base64
      <= String.length base64String + 3)%nat
  /\ Observe2.allChars
       (fun c => negb (Ascii.eqb c "-" || Ascii.eqb c "_")) base64 = true
  /\ (Observe2.allChars Observe2.isBase64Url base64String = true ->
      Observe2.allChars Observe2.isBase64 base64 = true)
  /\ Frontend.toBase64 base64 = base64
  /\ match Frontend.urlBase64ToUint8Array atob base64String with
     | Normal bytes =>
         exists raw, atob base64 = Normal raw
                     /\ List.length bytes = String.length raw
                     /\ List.Forall (fun n => (n < 256)%N) bytes
     | Throw e => atob base64 = Throw e
     end.
Proof.
  intros base64.
  assert (Hlen : String.length base64
                 = (String.length base64String
                    + (4 - String.length base64String mod 4) mod 4)%nat)
    by apply length_toBase64.
  assert (Hmod : (String.length base64 mod 4 = 0)%nat).
  { pose proof (Nat.mod_upper_bound (String.length base64String) 4 ltac:(lia)) as Hb.
    pose proof (Nat.div_mod_eq (String.length base64String) 4) as Hd.
    remember (String.length base64String mod 4)%nat as r.
    remember (String.length base64String / 4)%nat as q.
    assert (Hk : exists k, String.length base64 = (k * 4)%nat).
    { assert (Hr : r = 0%nat \/ r = 1%nat \/ r = 2%nat \/ r = 3%nat) by lia.
      destruct Hr as [-> | [-> | [-> | ->]]].
      - exists q. assert (E : ((4 - 0) mod 4 = 0)%nat) by reflexivity. lia.
      - exists (S q). assert (E : ((4 - 1) mod 4 = 3)%nat) by reflexivity. lia.
      - exists (S q). assert (E : ((4 - 2) mod 4 = 2)%nat) by reflexivity. lia.
      - exists (S q). assert (E : ((4 - 3) mod 4 = 1)%nat) by reflexivity. lia. }
    destruct Hk as [k ->]. apply Nat.Div0.mod_mul. }
  assert (Hclean : Observe2.allChars
            (fun c => negb (Ascii.eqb c "-" || Ascii.eqb c "_")) base64 = true).
  { subst base64. unfold Frontend.toBase64.
    generalize (String.append base64String
                  (Frontend.equalSigns ((4 - String.length base64String mod 4) mod 4))).
    intros s. induction s as [|c s IH]; [reflexivity|].
    cbn [Frontend.replaceAll Observe2.allChars]. rewrite IH, andb_true_r.
    destruct (Ascii.eqb_spec c "-") as [-> | H1]; [reflexivity|].
    destruct (Ascii.eqb_spec c "_") as [-> | H2]; [reflexivity|].
    destruct (Ascii.eqb_spec c "-"); [contradiction|].
    destruct (Ascii.eqb_spec c "_"); [contradiction|]. reflexivity. }
  split; [exact Hmod|]. split.
  { rewrite Hlen.
    pose proof (Nat.mod_upper_bound (4 - String.length base64String mod 4) 4
                  ltac:(lia)). lia. }
  split; [exact Hclean|]. split.
  { intros Hurl. subst base64. unfold Frontend.toBase64.
    apply allChars_replaceAll with
      (f := fun c => Observe2.isBase64 (if Ascii.eqb c "_" then "/"%char else c)).
    - intros c Hc. exact Hc.
    - apply allChars_replaceAll with
        (f := fun c => Observe2.isBase64Url c || Ascii.eqb c "=").
      + intros c Hc. apply orb_prop in Hc as [Hc|Hc].
        * apply base64url_unit. exact Hc.
        * apply Ascii.eqb_eq in Hc. subst c. reflexivity.
      + rewrite allChars_app. apply andb_true_intro. split.
        * revert Hurl. generalize base64String. intros s.
          induction s as [|c s IH]; [reflexivity|].
          cbn [Observe2.allChars]. intros H. apply andb_prop in H as [Hc Hs].
          rewrite Hc, (IH Hs). reflexivity.
        * apply allChars_equalSigns. reflexivity. }
  split.
  { unfold Frontend.toBase64 at 1. rewrite Hmod.
    change ((4 - 0) mod 4)%nat with 0%nat. cbn [Frontend.equalSigns].
    assert (Hnil : forall s, String.append s EmptyString = s).
    { intros s. induction s as [|c s IH]; [reflexivity|].
      rewrite append_cons, IH. reflexivity. }
    rewrite Hnil.
    rewrite (replaceAll_absent
               (fun c => negb (Ascii.eqb c "-" || Ascii.eqb c "_")) "-" "+" base64)
      by (reflexivity || exact Hclean).
    apply (replaceAll_absent
             (fun c => negb (Ascii.eqb c "-" || Ascii.eqb c "_")) "_" "/" base64);
      [reflexivity | exact Hclean]. }
  unfold Frontend.urlBase64ToUint8Array. fold base64.
  destruct (atob base64) as [raw|e]; [|reflexivity].
  exists raw. split; [reflexivity|]. split.
  - rewrite List.length_map. clear. induction raw as [|c raw IH]; [reflexivity|].
    cbn [list_ascii_of_string List.length String.length]. rewrite IH. reflexivity.
  - apply List.Forall_map. clear. induction raw as [|c raw IH]; [constructor|].
    cbn [list_ascii_of_string]. constructor; [|exact IH].
    unfold Text.code. apply N_ascii_bounded.
Qed.

Lemma urlBase64ToUint8Array_spec_witness :
  Observe2.allChars Observe2.isBase64Url "a-b_c9" = true
  /\ Frontend.toBase64 "a-b_c9" = "a+b/c9=="
  /\ Observe2.allChars Observe2.isBase64 (Frontend.toBase64 "a-b_c9") = true.
Proof.
  assert (Hurl : Observe2.allChars Observe2.isBase64Url "a-b_c9" = true)
    by reflexivity.
  split; [exact Hurl|]. split; [reflexivity|].
  destruct (urlBase64ToUint8Array_spec (fun raw => Normal raw) "a-b_c9")
    as (_ & _ & _ & Halpha & _).
  exact (Halpha Hurl).
Defined.

(** ** The service worker *)

(** X20. What the push handler shows. It fails only for a payload that
    is the JSON value [null]. Whenever it shows a notification, the
    title, the body, the icon and the badge are all truthy, so no
    notification has an empty title or body; a push without payload
    shows the defaults; a payload that is not JSON shows the title
    "Reminder" with the payload text as the body, or the default body
    when that text is empty. *)
Theorem onPush_spec (message : option (completion (option ServiceWorker.PushData) * string)) :
  ((exists e, ServiceWorker.onPush message = Throw e)
   <-> exists text, message = Some (Normal None, text))
  /\ (forall shown, ServiceWorker.onPush message = Normal shown ->
        truthy (ServiceWorker.shown_title shown) = true
        /\ truthy (ServiceWorker.shown_body shown) = true
        /\ truthy (ServiceWorker.shown_icon shown) = true
        /\ truthy (ServiceWorker.shown_badge shown) = true
        /\ (message = None ->
            ServiceWorker.shown_title shown = JStr "Task Reminder"
            /\ ServiceWorker.shown_body shown = JStr "You have a task due soon.")
        /\ (forall e text, message = Some (Throw e, text) ->
            ServiceWorker.shown_title shown = JStr "Reminder"
            /\ ServiceWorker.shown_body shown
               = JStr (if String.eqb text EmptyString
                       then "You have a task due soon." else text)
            /\ ServiceWorker.shown_icon shown = JStr "/icon-192.png"
            /\ ServiceWorker.shown_badge shown = JStr "/icon-192.png")).
Proof.
  assert (Hor : forall a b, truthy b = true -> truthy (jsOr a b) = true).
  { intros a b Hb. unfold jsOr. destruct (truthy a) eqn:Ha; assumption. }
  split.
  - split.
    + intros [e He]. destruct message as [[[[d|]|e'] text]|]; try discriminate He.
      exists text. reflexivity.
    + intros [text ->]. eexists. reflexivity.
  - intros shown Hshown.
    destruct message as [[[[d|]|e'] text]|]; try discriminate Hshown;
      unfold ServiceWorker.onPush in Hshown; cbv beta iota zeta in Hshown;
      injection Hshown as <-; cbn [ServiceWorker.shown_title
        ServiceWorker.shown_body ServiceWorker.shown_icon ServiceWorker.shown_badge];
      (split; [apply Hor; reflexivity|]); (split; [apply Hor; reflexivity|]);
      (split; [apply Hor; reflexivity|]); (split; [apply Hor; reflexivity|]);
      (split; [intros H; try discriminate H; split; reflexivity|]);
      intros e text' H; try discriminate H.
    injection H as _ <-.
    split; [reflexivity|]. split; [|split; reflexivity].
    unfold jsOr. cbn [truthy].
    destruct (String.eqb text EmptyString) eqn:E; cbn [negb truthy];
      rewrite ?E; reflexivity.
Qed.

Lemma onPush_spec_witness :
  ServiceWorker.onPush (Some (Throw "SyntaxError", "Water the plants"))
  = Normal {| ServiceWorker.shown_title := JStr "Reminder";
              ServiceWorker.shown_body := JStr "Water the plants";
              ServiceWorker.shown_icon := JStr "/icon-192.png";
              ServiceWorker.shown_badge := JStr "/icon-192.png" |}
  /\ truthy (JStr "Water the plants") = true.
Proof.
  assert (Hshown : ServiceWorker.onPush (Some (Throw "SyntaxError", "Water the plants"))
            = Normal {| ServiceWorker.shown_title := JStr "Reminder";
                        ServiceWorker.shown_body := JStr "Water the plants";
                        ServiceWorker.shown_icon := JStr "/icon-192.png";
                        ServiceWorker.shown_badge := JStr "/icon-192.png" |})
    by reflexivity.
  split; [exact Hshown|].
  destruct (onPush_spec (Some (Throw "SyntaxError", "Water the plants")))
    as [_ H].
  destruct (H _ Hshown) as (_ & Hbody & _).
  exact Hbody.
Defined.
